(** * Newsletter2TurnInRepo: rolling price store, price fetcher and
      filings/finance combiner

    A shallow embedding of the merge-and-roll core of the repository:

    - [dailyPythonScriptStuff/dailyPrices.py] and
      [dailyPythonScriptStuff/recentIPOTickersAndPrices.py]
      ([PolygonPriceFetcher], [DailyPriceUpdater], [RecentIPOPriceUpdater]);
    - [dailyPythonScriptStuff/DailyScriptPuller.py]
      ([PolygonSnapshotFetcher], [PolygonTickerFetcher], and of
       [DailyScriptPuller]: [get_sec_filings_data],
       [filter_sec_data_by_ticker], [get_ticker_info],
       [process_polygon_tickers], [get_polygon_finance_data],
       [combine_sec_and_yahoo_data], [get_polygon_data] up to its requests,
       [update_rolling_data] and [load_existing_rolling_data]).

    Python floats are IEEE binary64 numbers and are embedded as Rocq's
    primitive floats; an empty CSV cell of a numeric column is read by
    pandas as NaN, and NaN is written back as an empty cell.

    What the embedding leaves out:

    - the file system: a CSV file is the table [pd.read_csv] returns for it,
      reading back what [to_csv] wrote gives the same table (tickers are
      strings that survive the round trip, floats are written with enough
      digits), and reading or writing an existing file does not fail;
    - the network: a price request is answered by an upstream given as a
      function of the attempt, and [time.sleep] has no effect on values;
    - [json.loads], [ast.literal_eval], [float] on text and
      [pd.to_datetime] are parameters of the definitions that call them;
      reference versions for the texts of the examples are given where an
      example is run;
    - [str.strip] is taken on ASCII white space;
    - the order of [list(set(...))] and the order in which a sort on one
      column leaves rows with equal keys are not fixed by the code: both
      are parameters, and the statements that use them say what they
      assume of them;
    - [save_rolling_data], [run_daily_pipeline], the left merge at the end
      of [get_polygon_data] and the [main] functions are not embedded.

    [RecentIPOPriceUpdater] has [load_existing_tickers],
    [fetch_prices_for_tickers], [update_csv_with_new_tickers] and
    [roll_prices_for_existing_tickers] word for word as [DailyPriceUpdater]
    has them, on another file; [Prices] stands for both.  Its
    [run_daily_update] also reads a second feed; it is embedded in
    [RecentIPO]. *)

From Stdlib Require Import Floats ZArith Ascii String.
From Stdlib Require OrderedTypeEx.
From stdpp Require Import base option list sorting strings gmap.

Local Open Scope list_scope.

(** ** Python and pandas primitives used by the scripts *)

Module Py.

(** [x != 0] on a Python float: IEEE comparison, so [-0.0 != 0] is false
    and [nan != 0] is true. *)
Definition ne0 (x : float) : bool := negb (PrimFloat.eqb x 0%float).

(** [range(start, stop, -1)] for [stop <= start]:
    [start, start-1, ..., stop+1]. *)
Definition range_down (start stop : nat) : list nat :=
  rev (seq (S stop) (start - stop)).

(** [enumerate(l)], and [df.iterrows()] on a frame with the default
    RangeIndex: the positions paired with the elements. *)
Fixpoint enumerate_from {A : Type} (k : nat) (l : list A) : list (nat * A) :=
  match l with
  | [] => []
  | x :: l' => (k, x) :: enumerate_from (S k) l'
  end.

Definition enumerate {A : Type} (l : list A) : list (nat * A) :=
  enumerate_from 0 l.

(** List truthiness: [if l:]. *)
Definition truthy {A : Type} (l : list A) : bool :=
  match l with [] => false | _ => true end.

(** The exception classes the scripts catch or let through.
    [RequestException] stands for [requests.exceptions.RequestException]
    and its subclasses (connection errors, timeouts, [HTTPError], and the
    decode error of [response.json()]); [JSONDecodeError] is the one of the
    [json] module, a subclass of [ValueError]. *)
Inductive exn : Type :=
| RequestException
| JSONDecodeError
| ValueError
| SyntaxError
| KeyError
| IndexError
| TypeError
| AttributeError
| OverflowError.

(** A computation that returns or raises. *)
Inductive result (A : Type) : Type :=
| Ok (a : A)
| Raise (e : exn).

Arguments Ok {A} a.
Arguments Raise {A} e.

#[global] Instance result_ret : MRet result := fun A a => Ok a.
#[global] Instance result_bind : MBind result := fun A B f m =>
  match m with
  | Ok a => f a
  | Raise e => Raise e
  end.

(** The Python values that decoded JSON and evaluated literals are made
    of.  A [dict] keeps its items in insertion order. *)
#[warnings="-register-all"]
Inductive value : Type :=
| VNone
| VBool (b : bool)
| VInt (z : Z)
| VFloat (x : float)
| VStr (s : string)
| VList (l : list value)
| VTuple (l : list value)
| VDict (items : list (value * value)).

(** [s in t] on two strings. *)
Fixpoint is_prefix (s t : string) : bool :=
  match s, t with
  | EmptyString, _ => true
  | String a s', String b t' => Ascii.eqb a b && is_prefix s' t'
  | String _ _, EmptyString => false
  end.

Fixpoint is_substring (s t : string) : bool :=
  is_prefix s t
  || match t with
     | EmptyString => false
     | String _ t' => is_substring s t'
     end.

(** [v == s] for a string [s]: only a [str] equals a [str]. *)
Definition eq_str (v : value) (s : string) : bool :=
  match v with
  | VStr s' => String.eqb s' s
  | _ => false
  end.

(** Lookup of a string key in the items of a [dict]. *)
Fixpoint dict_lookup (items : list (value * value)) (key : string)
  : option value :=
  match items with
  | [] => None
  | (k, v) :: items' =>
      if eq_str k key then Some v else dict_lookup items' key
  end.

(** [key in v] for a string [key]: a key of a [dict], an element of a
    [list] or [tuple], a substring of a [str]; a [TypeError] on values that
    are not containers. *)
Definition contains (key : string) (v : value) : result bool :=
  match v with
  | VDict items =>
      Ok (match dict_lookup items key with Some _ => true | None => false end)
  | VList l | VTuple l => Ok (existsb (fun x => eq_str x key) l)
  | VStr s => Ok (is_substring key s)
  | _ => Raise TypeError
  end.

(** [v[key]] for a string [key]. *)
Definition getitem_str (v : value) (key : string) : result value :=
  match v with
  | VDict items =>
      match dict_lookup items key with
      | Some x => Ok x
      | None => Raise KeyError
      end
  | _ => Raise TypeError
  end.

(** [v.get(key)]: only a [dict] has the method. *)
Definition dict_get (v : value) (key : string) : result value :=
  match v with
  | VDict items =>
      Ok (match dict_lookup items key with Some x => x | None => VNone end)
  | _ => Raise AttributeError
  end.

(** [float(z)] for an [int]: the nearest binary64 number, ties to even;
    an [OverflowError] when the integer is out of range. *)
Definition float_of_int (z : Z) : result float :=
  let x := SF2Prim (SpecFloat.binary_normalize FloatOps.prec FloatOps.emax
                                               z 0 false) in
  if PrimFloat.is_infinity x then Raise OverflowError else Ok x.

End Py.

(** A Python [dict] with string keys.  Iteration order is insertion order,
    and assigning to a key that is present keeps its position. *)
Module PyDict.

Definition t (V : Type) : Type := list (string * V).

Definition empty {V : Type} : t V := [].

Fixpoint get {V : Type} (d : t V) (k : string) : option V :=
  match d with
  | [] => None
  | (k', v) :: d' => if String.eqb k' k then Some v else get d' k
  end.

(** [d[k] = v] *)
Fixpoint set {V : Type} (d : t V) (k : string) (v : V) : t V :=
  match d with
  | [] => [(k, v)]
  | (k', v') :: d' =>
      if String.eqb k' k then (k', v) :: d' else (k', v') :: set d' k v
  end.

(** [d.items()] *)
Definition items {V : Type} (d : t V) : list (string * V) := d.

End PyDict.

Module Pd.

(** [pd.notna(x)] on a float cell. *)
Definition notna (x : float) : bool := negb (PrimFloat.is_nan x).

(** Sorting a frame on several keys, and the key sort of an outer merge,
    are stable: rows with equal keys keep their order.  Insertion from the
    right, a row going before the rows it is not greater than, is a stable
    sort, and a stable sort is determined by the key order. *)
Fixpoint insert {A : Type} (le : A -> A -> bool) (x : A) (l : list A)
  : list A :=
  match l with
  | [] => [x]
  | y :: l' => if le x y then x :: y :: l' else y :: insert le x l'
  end.

Fixpoint sort_by {A : Type} (le : A -> A -> bool) (l : list A) : list A :=
  match l with
  | [] => []
  | x :: l' => insert le x (sort_by le l')
  end.

End Pd.

(** ** The rolling price store ([dailyPrices.py],
       [recentIPOTickersAndPrices.py]) *)

Module Prices.

(** One row of [tickersAndPrices.csv] as [pd.read_csv] returns it.  The
    schema is the one [update_csv_with_new_tickers] creates: [ticker], the
    columns [31DaysAgo_price] ... [1DaysAgo_price] (field [DaysAgo_price i]
    is the cell of column [f'{i}DaysAgo_price']), [Today_price] and the three
    move columns.  An empty cell is NaN. *)
Record Row : Type := mkRow {
  ticker : string;
  DaysAgo_price : nat -> float;
  Today_price : float;
  Day_move : float;
  Week_move : float;
  Month_move : float
}.

(** The numeric columns, as the code names them. *)
Inductive column : Type :=
| DaysAgo_col (i : nat)
| Today_col
| Day_move_col
| Week_move_col
| Month_move_col.

(** [row[col]] *)
Definition cell (row : Row) (c : column) : float :=
  match c with
  | DaysAgo_col i => DaysAgo_price row i
  | Today_col => Today_price row
  | Day_move_col => Day_move row
  | Week_move_col => Week_move row
  | Month_move_col => Month_move row
  end.

Definition set_cell (c : column) (v : float) (row : Row) : Row :=
  match c with
  | DaysAgo_col i =>
      mkRow (ticker row)
            (fun j => if Nat.eqb j i then v else DaysAgo_price row j)
            (Today_price row) (Day_move row) (Week_move row) (Month_move row)
  | Today_col =>
      mkRow (ticker row) (DaysAgo_price row) v
            (Day_move row) (Week_move row) (Month_move row)
  | Day_move_col =>
      mkRow (ticker row) (DaysAgo_price row) (Today_price row)
            v (Week_move row) (Month_move row)
  | Week_move_col =>
      mkRow (ticker row) (DaysAgo_price row) (Today_price row)
            (Day_move row) v (Month_move row)
  | Month_move_col =>
      mkRow (ticker row) (DaysAgo_price row) (Today_price row)
            (Day_move row) (Week_move row) v
  end.

(** [df.at[index, col] = v] on a frame whose index is [0 .. len-1]. *)
Definition df_at_set (df : list Row) (index : nat) (c : column) (v : float)
  : list Row :=
  alter (set_cell c v) index df.

(** The persisted table: [None] when the CSV file does not exist or has size
    zero, [Some df] otherwise (a header-only file is [Some []]). *)
Definition csv_file : Type := option (list Row).

(** The price fetcher as the updater sees it: what the [i]-th call of a
    batch, made for [ticker], returns or raises.  [Ok None] is a failed
    fetch. *)
Definition fetcher : Type := nat -> string -> Py.result (option float).

(** What a method call does to the persisted table: the file as the call
    leaves it, and the exception it raised, if any.  Every method re-raises
    what it catches, and writes the file as its last step. *)
Record run : Type := mkRun {
  file_after : csv_file;
  raised : option Py.exn
}.

(** [load_existing_tickers] *)
Definition load_existing_tickers (file : csv_file) : list string :=
  match file with
  | Some df => map ticker df
  | None => []
  end.

(** The loop of [get_new_tickers_from_working_rolling] that keeps the first
    occurrence of every ticker. *)
Definition unique_step (st : gset string * list string) (ticker : string)
  : gset string * list string :=
  let '(seen, unique_new_tickers) := st in
  if bool_decide (ticker ∈ seen) then st
  else ({[ ticker ]} ∪ seen, unique_new_tickers ++ [ticker]).

(** [get_new_tickers_from_working_rolling(limit)].  [working] is the
    [ticker] column of [workingRolling.csv], a missing cell being [None];
    it is [None] when reading the file raises, which the method turns into
    the empty list. *)
Definition get_new_tickers_from_working_rolling
    (file : csv_file) (working : option (list (option string)))
    (limit : option nat) : list string :=
  match working with
  | None => []
  | Some col =>
      let existing_tickers : gset string :=
        list_to_set (load_existing_tickers file) in
      let all_tickers := omap id col in
      let new_tickers :=
        filter (fun ticker => ticker ∉ existing_tickers) all_tickers in
      let unique_new_tickers :=
        snd (fold_left unique_step new_tickers (∅, [])) in
      match limit with
      | Some (S n) => take (S n) unique_new_tickers
      | _ => unique_new_tickers
      end
  end.

(** One iteration of the loop of [fetch_prices_for_tickers]; the list of
    failed tickers it also keeps is never read. *)
Definition fetch_step (get_ticker_price : fetcher)
    (acc : Py.result (PyDict.t float)) (it : nat * string)
  : Py.result (PyDict.t float) :=
  prices ← acc;
  price ← get_ticker_price it.1 it.2;
  mret (match price with
        | Some price => PyDict.set prices it.2 price
        | None => prices
        end).

(** [fetch_prices_for_tickers] *)
Definition fetch_prices_for_tickers (get_ticker_price : fetcher)
    (tickers : list string) : Py.result (PyDict.t float) :=
  fold_left (fetch_step get_ticker_price) (Py.enumerate tickers)
            (Py.Ok PyDict.empty).

(** The row literal of [update_csv_with_new_tickers]: the 31 lagged cells
    are [''], which the CSV round trip turns into NaN. *)
Definition row_data (ticker : string) (price : float) : Row :=
  mkRow ticker (fun _ => PrimFloat.nan) price 0%float 0%float 0%float.

(** [update_csv_with_new_tickers] *)
Definition update_csv_with_new_tickers (file : csv_file)
    (ticker_prices : PyDict.t float) : csv_file :=
  let new_rows :=
    map (fun '(ticker, price) => row_data ticker price)
        (PyDict.items ticker_prices) in
  let df_existing := match file with Some df => df | None => [] end in
  Some (df_existing ++ new_rows).

(** A move against a baseline cell: the guarded subtraction of
    [roll_prices_for_existing_tickers]. *)
Definition move (current_price baseline : float) : float :=
  if Pd.notna baseline && Py.ne0 baseline
  then PrimFloat.sub current_price baseline
  else 0%float.

(** The body of the [for index, row in df.iterrows()] loop for a ticker that
    has a fetched price.  [row] is the copy [iterrows] yielded; the writes go
    to the frame. *)
Definition roll_at (df : list Row) (index : nat) (row : Row)
    (current_price : float) : list Row :=
  let previous_today_price := cell row Today_col in
  let day_move := move current_price previous_today_price in
  let week_ago_price := cell row (DaysAgo_col 7) in
  let week_move := move current_price week_ago_price in
  let month_ago_price := cell row (DaysAgo_col 30) in
  let month_move := move current_price month_ago_price in
  let df :=
    fold_left
      (fun df i => df_at_set df index (DaysAgo_col i)
                             (cell row (DaysAgo_col (i - 1))))
      (Py.range_down 31 1) df in
  let df := df_at_set df index (DaysAgo_col 1) previous_today_price in
  let df := df_at_set df index Today_col current_price in
  let df := df_at_set df index Day_move_col day_move in
  let df := df_at_set df index Week_move_col week_move in
  let df := df_at_set df index Month_move_col month_move in
  df.

(** The whole loop over the frame. *)
Definition roll_loop (ticker_prices : PyDict.t float) (df : list Row)
  : list Row :=
  fold_left
    (fun df' '(index, row) =>
       match PyDict.get ticker_prices (ticker row) with
       | Some current_price => roll_at df' index row current_price
       | None => df'
       end)
    (Py.enumerate df) df.

(** [roll_prices_for_existing_tickers]: an exception of a fetch leaves the
    method before [to_csv]. *)
Definition roll_prices_for_existing_tickers (file : csv_file)
    (get_ticker_price : fetcher) : run :=
  match file with
  | None => mkRun None None
  | Some df =>
      let existing_tickers := map ticker df in
      match fetch_prices_for_tickers get_ticker_price existing_tickers with
      | Py.Ok ticker_prices => mkRun (Some (roll_loop ticker_prices df)) None
      | Py.Raise e => mkRun (Some df) (Some e)
      end
  end.

(** The discovery and append stages of [run_daily_update]. *)
Definition append_stage (file : csv_file)
    (working : option (list (option string)))
    (get_ticker_price : fetcher) (test_mode : bool) (test_limit : nat)
  : run :=
  let new_tickers :=
    if test_mode
    then get_new_tickers_from_working_rolling file working (Some test_limit)
    else get_new_tickers_from_working_rolling file working None in
  if Py.truthy new_tickers then
    match fetch_prices_for_tickers get_ticker_price new_tickers with
    | Py.Ok new_ticker_prices =>
        if Py.truthy new_ticker_prices
        then mkRun (update_csv_with_new_tickers file new_ticker_prices) None
        else mkRun file None
    | Py.Raise e => mkRun file (Some e)
    end
  else mkRun file None.

(** [run_daily_update]: the two batches of fetches are separate calls of
    [fetch_prices_for_tickers]; an exception in the first stages ends the
    run. *)
Definition run_daily_update (file : csv_file)
    (working : option (list (option string)))
    (fetch_new fetch_roll : fetcher) (test_mode : bool) (test_limit : nat)
  : run :=
  let existing_tickers_before := load_existing_tickers file in
  let appended := append_stage file working fetch_new test_mode test_limit in
  match raised appended with
  | Some e => appended
  | None =>
      if Py.truthy existing_tickers_before
      then roll_prices_for_existing_tickers (file_after appended) fetch_roll
      else appended
  end.

(** The row the loop leaves at a position whose ticker has a fetched price:
    the writes of [roll_at], applied to the row itself. *)
Definition roll_row (row : Row) (current_price : float) : Row :=
  let previous_today_price := cell row Today_col in
  let shifted :=
    fold_left
      (fun r i => set_cell (DaysAgo_col i) (cell row (DaysAgo_col (i - 1))) r)
      (Py.range_down 31 1) row in
  set_cell Month_move_col (move current_price (cell row (DaysAgo_col 30)))
    (set_cell Week_move_col (move current_price (cell row (DaysAgo_col 7)))
      (set_cell Day_move_col (move current_price previous_today_price)
        (set_cell Today_col current_price
          (set_cell (DaysAgo_col 1) previous_today_price shifted)))).

Definition roll_or_keep (ticker_prices : PyDict.t float) (row : Row) : Row :=
  match PyDict.get ticker_prices (ticker row) with
  | Some current_price => roll_row row current_price
  | None => row
  end.

End Prices.

(** ** Concrete stores and fetchers used to run the definitions *)

Module Examples.

Import Prices.

(** A row with a 6-day-old price of 20, a 7-day-old price of 10 and a
    current price of 22; every other lagged cell is empty. *)
Definition aaa : Row :=
  mkRow "AAA"
        (fun i => if Nat.eqb i 6 then 20%float
                  else if Nat.eqb i 7 then 10%float else PrimFloat.nan)
        22%float 2%float 12%float 0%float.

(** A row with a 29-day-old price of 8 and a 30-day-old price of 5. *)
Definition mmm : Row :=
  mkRow "MMM"
        (fun i => if Nat.eqb i 29 then 8%float
                  else if Nat.eqb i 30 then 5%float else PrimFloat.nan)
        9%float 0%float 0%float 4%float.

Definition bbb : Row := row_data "BBB" 7.5%float.

(** A fetcher that answers [p] for every ticker. *)
Definition always (p : float) : fetcher := fun _ _ => Py.Ok (Some p).

(** A fetcher that only knows ticker [t]. *)
Definition only (t : string) (p : float) : fetcher :=
  fun _ ticker =>
    if String.eqb ticker t then Py.Ok (Some p) else Py.Ok None.

(** A fetcher that knows ticker [t] and raises on every other one. *)
Definition only_or_raise (t : string) (p : float) : fetcher :=
  fun _ ticker =>
    if String.eqb ticker t then Py.Ok (Some p) else Py.Raise Py.TypeError.

End Examples.

(** ** The append path for one ticker *)

Module Append.

Import Prices.

(** The discovery, fetch and append stages of [run_daily_update] on a day
    when the working feed offers the single ticker [t] and the price fetch
    for it answers [price]. *)
Definition append_ticker (file : csv_file) (t : string) (price : float)
    (test_mode : bool) (test_limit : nat) : run :=
  append_stage file (Some [Some t]) (fun _ _ => Py.Ok (Some price))
               test_mode test_limit.

End Append.

(** ** The price fetcher ([PolygonPriceFetcher.get_ticker_price]) *)

Module Fetcher.

Import Py.

(** What one [session.get] meets: a request that raises (connection error,
    timeout), or an HTTP response with its status code and its body, [None]
    when the body is not JSON. *)
Inductive response : Type :=
| ConnectionFailed
| Response (status_code : nat) (body : option value).

(** How one iteration of the retry loop ends. *)
Inductive flow : Type :=
| Returns (price : option float)
| Propagates (e : exn)
| Next.

(** What a call of [get_ticker_price] did: the value it returned or the
    exception it let through, and the number of requests it sent. *)
Record outcome : Type := mkOutcome {
  returned : result (option float);
  requests : nat
}.

Section WithStrtod.

(** [float(s)] for a string, [None] when it raises [ValueError]. *)
Variable float_of_str : string -> option float.

(** [float(v)] *)
Definition py_float (v : value) : result float :=
  match v with
  | VFloat x => Ok x
  | VInt z => float_of_int z
  | VBool b => Ok (if b then 1%float else 0%float)
  | VStr s =>
      match float_of_str s with
      | Some x => Ok x
      | None => Raise ValueError
      end
  | _ => Raise TypeError
  end.

(** [response.raise_for_status()] *)
Definition raise_for_status (status_code : nat) : result unit :=
  if (400 <=? status_code)%nat && (status_code <? 600)%nat
  then Raise RequestException
  else Ok tt.

(** [response.json()] *)
Definition json (body : option value) : result value :=
  match body with
  | Some data => Ok data
  | None => Raise RequestException
  end.

(** ['bar' in ticker_data and 'c' in ticker_data['bar']] *)
Definition has_close (ticker_data : value) (bar : string) : result bool :=
  has_bar ← contains bar ticker_data;
  if has_bar : bool
  then bar_data ← getitem_str ticker_data bar; contains "c" bar_data
  else mret false.

(** The body of the [try] block. *)
Definition try_block (resp : response) : result (option float) :=
  match resp with
  | ConnectionFailed => Raise RequestException
  | Response status_code body =>
      if Nat.eqb status_code 404 then mret None
      else
        _ ← raise_for_status status_code;
        data ← json body;
        status ← dict_get data "status";
        has_ticker ← (if eq_str status "OK" then contains "ticker" data
                      else mret false);
        if has_ticker : bool then
          ticker_data ← getitem_str data "ticker";
          has_min ← has_close ticker_data "min";
          if has_min : bool then
            bar ← getitem_str ticker_data "min";
            c ← getitem_str bar "c";
            x ← py_float c;
            mret (Some x)
          else
            has_day ← has_close ticker_data "day";
            if has_day : bool then
              bar ← getitem_str ticker_data "day";
              c ← getitem_str bar "c";
              x ← py_float c;
              mret (Some x)
            else mret None
        else mret None
  end.

(** The [try] statement with its two handlers; every branch of the source
    ends in a [return], and an exception of another class goes through. *)
Definition loop_body (resp : response) : flow :=
  match try_block resp with
  | Ok price => Returns price
  | Raise RequestException => Returns None
  | Raise (ValueError | JSONDecodeError | KeyError) => Returns None
  | Raise e => Propagates e
  end.

(** [for attempt in range(max_retries): ...], then [return None].
    [upstream attempt] is what the request of that attempt meets. *)
Fixpoint retry_loop (upstream : nat -> response) (attempt remaining : nat)
  : outcome :=
  match remaining with
  | 0 => mkOutcome (Ok None) attempt
  | S remaining' =>
      match loop_body (upstream attempt) with
      | Returns price => mkOutcome (Ok price) (S attempt)
      | Propagates e => mkOutcome (Raise e) (S attempt)
      | Next => retry_loop upstream (S attempt) remaining'
      end
  end.

(** [get_ticker_price(ticker, max_retries)] against an upstream. *)
Definition get_ticker_price (upstream : nat -> response)
    (max_retries : nat) : outcome :=
  retry_loop upstream 0 max_retries.

(** The fetcher of the updaters: [self.polygon_fetcher.get_ticker_price(
    ticker)], with the default [max_retries = 2].  [upstream i ticker] is
    what the requests of the [i]-th call of a batch meet. *)
Definition polygon_fetcher (upstream : nat -> string -> nat -> response)
  : Prices.fetcher :=
  fun i ticker => returned (get_ticker_price (upstream i ticker) 2).

End WithStrtod.

(** The JSON object [{"status": "OK", "ticker": {bar: {"c": c}}}]. *)
Definition snapshot (bar : string) (c : value) : value :=
  VDict [(VStr "status", VStr "OK");
         (VStr "ticker", VDict [(VStr bar, VDict [(VStr "c", c)])])].

(** An upstream whose first request fails at the network level and whose
    second request is answered with a closing price of 10. *)
Definition flaky_upstream (attempt : nat) : response :=
  match attempt with
  | 0 => ConnectionFailed
  | _ => Response 200 (Some (snapshot "min" (VFloat 10%float)))
  end.

(** A [float(s)] that knows no string; enough for bodies whose closing
    price is a JSON number. *)
Definition no_strtod (s : string) : option float := None.

(** An upstream for a batch: every ticker meets the flaky upstream. *)
Definition flaky_batch (i : nat) (ticker : string) : nat -> response :=
  flaky_upstream.

End Fetcher.

(** ** De-duplication of the combined table
       ([DailyScriptPuller.update_rolling_data]) *)

Module Combined.

(** A cell of the [filedAt] column: the text read from the CSV or received
    from the filing search, a timestamp (nanoseconds since the epoch) once
    [pd.to_datetime] has converted the column, or a missing value. *)
Inductive stamp : Type :=
| Text (s : string)
| Time (t : Z)
| NaT.

(** A row of the combined table: its ticker ([None] for a missing value),
    its filing timestamp and its remaining cells. *)
Record Row : Type := mkRow {
  ticker : option string;
  filedAt : stamp;
  other : list (string * string)
}.

(** The table with the two facts about its columns the code tests. *)
Record frame : Type := mkFrame {
  has_ticker : bool;
  has_filedAt : bool;
  rows : list Row
}.

(** Order of the [ticker] key, ascending, missing values last. *)
Definition ticker_cmp (a b : option string) : comparison :=
  match a, b with
  | Some x, Some y => String.compare x y
  | Some _, None => Lt
  | None, Some _ => Gt
  | None, None => Eq
  end.

(** Order of the [filedAt] key, descending, missing values last.  The
    column is sorted after its conversion, when no cell is a [Text]; such a
    cell is given the place of a missing one. *)
Definition filedAt_cmp (a b : stamp) : comparison :=
  match a, b with
  | Time x, Time y => Z.compare y x
  | Time _, _ => Lt
  | _, Time _ => Gt
  | _, _ => Eq
  end.

(** The key order of
    [sort_values(['ticker', 'filedAt'], ascending=[True, False])]. *)
Definition row_cmp (r1 r2 : Row) : comparison :=
  match ticker_cmp (ticker r1) (ticker r2) with
  | Eq => filedAt_cmp (filedAt r1) (filedAt r2)
  | c => c
  end.

Definition row_le (r1 r2 : Row) : bool :=
  match row_cmp r1 r2 with Gt => false | _ => true end.

Definition le : relation Row := fun r1 r2 => row_le r1 r2 = true.

(** [sort_values(['ticker', 'filedAt'], ascending=[True, False])] *)
Definition sort_values (l : list Row) : list Row := Pd.sort_by row_le l.

(** [duplicated(subset=['ticker'], keep='first')]: a row is marked when its
    ticker occurred in an earlier row; missing tickers count as equal. *)
Fixpoint duplicated_from (seen : list (option string)) (l : list Row)
  : list bool :=
  match l with
  | [] => []
  | r :: l' =>
      bool_decide (ticker r ∈ seen) :: duplicated_from (ticker r :: seen) l'
  end.

Definition duplicated (l : list Row) : list bool := duplicated_from [] l.

(** [.sum()] of a boolean column. *)
Definition sum (marks : list bool) : nat :=
  length (filter (fun b => b = true) marks).

(** [drop_duplicates(subset=['ticker'], keep='first')] *)
Fixpoint drop_duplicates_from (seen : list (option string)) (l : list Row)
  : list Row :=
  match l with
  | [] => []
  | r :: l' =>
      if bool_decide (ticker r ∈ seen)
      then drop_duplicates_from seen l'
      else r :: drop_duplicates_from (ticker r :: seen) l'
  end.

Definition drop_duplicates (l : list Row) : list Row :=
  drop_duplicates_from [] l.

Section WithParser.

(** The timestamp [pd.to_datetime] reads from a text of a column, [None]
    when it reads none.  The column is an argument because the format may
    be inferred from it. *)
Variable parse_datetime : list stamp -> string -> option Z.

(** [pd.to_datetime(column, errors='coerce')], cell by cell: a text that
    is not read as a date becomes [NaT]. *)
Definition to_datetime (column : list stamp) (c : stamp) : stamp :=
  match c with
  | Text s =>
      match parse_datetime column s with
      | Some t => Time t
      | None => NaT
      end
  | Time t => Time t
  | NaT => NaT
  end.

Definition convert_filedAt (column : list stamp) (r : Row) : Row :=
  mkRow (ticker r) (to_datetime column (filedAt r)) (other r).

(** [combined_df['filedAt'] = pd.to_datetime(combined_df['filedAt'],
    errors='coerce')] *)
Definition convert_column (l : list Row) : list Row :=
  map (convert_filedAt (map filedAt l)) l.

(** The de-duplication step of [update_rolling_data]. *)
Definition dedup (combined_df : frame) : frame :=
  if has_ticker combined_df then
    if has_filedAt combined_df then
      let converted := convert_column (rows combined_df) in
      let sorted := sort_values converted in
      let duplicate_count := sum (duplicated sorted) in
      if (0 <? duplicate_count)%nat
      then mkFrame true true (drop_duplicates sorted)
      else mkFrame true true sorted
    else
      let duplicate_count := sum (duplicated (rows combined_df)) in
      if (0 <? duplicate_count)%nat
      then mkFrame true false (drop_duplicates (rows combined_df))
      else combined_df
  else combined_df.

End WithParser.

(** A row whose [filedAt] cell holds no text, as every row does once the
    column is converted. *)
Definition converted_cell (r : Row) : Prop :=
  match filedAt r with Text _ => False | _ => True end.

(** Whether a row has a given ticker. *)
Definition has (k : option string) (r : Row) : bool :=
  bool_decide (ticker r = k).

(** The first row of a table with a given ticker. *)
Definition first_with (k : option string) (l : list Row) : option Row :=
  List.find (has k) l.

(** *** The rule in its own words

    What follows is not read off the code: it says which row the rule
    "most recently filed wins" names, for comparison with what [dedup]
    keeps. *)

(** The filing timestamp of a cell of a column: the instant
    [pd.to_datetime] reads from its text, the instant itself when the cell
    holds one, none for a missing value and for a text that is no date. *)
Definition filed (parse_datetime : list stamp -> string -> option Z)
    (column : list stamp) (c : stamp) : option Z :=
  match c with
  | Text s => parse_datetime column s
  | Time t => Some t
  | NaT => None
  end.

(** [a] is later than [b]; any timestamp is later than none. *)
Definition more_recent (a b : option Z) : bool :=
  match a, b with
  | Some x, Some y => (y <? x)%Z
  | Some _, None => true
  | None, _ => false
  end.

(** The most recently filed row of a ticker: of the rows of the table with
    that ticker, one whose timestamp no other exceeds, the first of them in
    table order when several share it; a row without a timestamp only when
    no row of the ticker has one. *)
Fixpoint most_recent (time : Row -> option Z) (k : option string)
    (l : list Row) : option Row :=
  match l with
  | [] => None
  | r :: l' =>
      if has k r then
        match most_recent time k l' with
        | Some r' => if more_recent (time r') (time r) then Some r' else Some r
        | None => Some r
        end
      else most_recent time k l'
  end.

(** A row with its timestamp in the place of its [filedAt] cell. *)
Definition stamped (time : Row -> option Z) (r : Row) : Row :=
  mkRow (ticker r)
        match time r with Some t => Time t | None => NaT end
        (other r).

End Combined.

(** ** Concrete combined tables *)

Module CombinedExamples.

Import Combined.

(** A [pd.to_datetime] that knows the three texts of the example, in any
    column. *)
Definition parse_datetime (column : list stamp) (s : string) : option Z :=
  if String.eqb s "2024-01-02" then Some 1704153600000000000%Z
  else if String.eqb s "2024-03-05" then Some 1709596800000000000%Z
  else if String.eqb s "2024-02-10" then Some 1707523200000000000%Z
  else None.

Definition bbb_jan : Row :=
  mkRow (Some "BBB") (Text "2024-01-02") [("formType", "S-1")].
Definition aaa_feb : Row :=
  mkRow (Some "AAA") (Text "2024-02-10") [("formType", "S-1")].
Definition bbb_mar : Row :=
  mkRow (Some "BBB") (Text "2024-03-05") [("formType", "S-1/A")].
Definition aaa_bad : Row :=
  mkRow (Some "AAA") (Text "not a date") [("formType", "S-1/A")].

(** Two filings for each of two tickers, with and without the [filedAt]
    column. *)
Definition filings : frame :=
  mkFrame true true [bbb_jan; aaa_feb; bbb_mar; aaa_bad].

Definition no_dates : frame :=
  mkFrame true false [bbb_jan; aaa_feb; bbb_mar; aaa_bad].

End CombinedExamples.

(** ** Ticker extraction and the outer merge
       ([DailyScriptPuller.combine_sec_and_yahoo_data]) *)

Module Filings.

Import Py.

(** The characters [str.strip()] removes, within ASCII: tab to carriage
    return, the four separators and the space. *)
Definition is_space (a : ascii) : bool :=
  let n := nat_of_ascii a in
  ((9 <=? n)%nat && (n <=? 13)%nat) || ((28 <=? n)%nat && (n <=? 32)%nat).

Fixpoint lstrip (s : string) : string :=
  match s with
  | String a s' => if is_space a then lstrip s' else s
  | EmptyString => EmptyString
  end.

Fixpoint rstrip (s : string) : string :=
  match s with
  | EmptyString => EmptyString
  | String a s' =>
      match rstrip s' with
      | EmptyString => if is_space a then EmptyString else String a EmptyString
      | t => String a t
      end
  end.

(** [s.strip()] *)
Definition strip (s : string) : string := lstrip (rstrip s).

(** [str(v).strip() in texts], for lists of texts taken from ['[]'],
    ['nan'], ['None'] and ['']: the text of a [str] is itself, of [None] is
    ['None'], of a NaN is ['nan'], of the empty list is ['[]'], and the text
    of any other value is none of the four. *)
Definition stripped_text_in (v : value) (texts : list string) : bool :=
  match v with
  | VStr s => existsb (String.eqb (strip s)) texts
  | VNone => existsb (String.eqb "None") texts
  | VFloat x => PrimFloat.is_nan x && existsb (String.eqb "nan") texts
  | VList [] => existsb (String.eqb "[]") texts
  | _ => false
  end.

Definition is_None (v : value) : bool :=
  match v with VNone => true | _ => false end.

(** The test the code calls [is_valid]. *)
Definition is_valid (ticker_value : value) : bool :=
  negb (is_None ticker_value)
  && negb (stripped_text_in ticker_value ["[]"; "nan"; "None"; EmptyString])
  && negb (stripped_text_in ticker_value ["nan"]).

(** Truthiness of a value. *)
Definition truthy (v : value) : bool :=
  match v with
  | VNone => false
  | VBool b => b
  | VInt z => negb (Z.eqb z 0)
  | VFloat x => ne0 x
  | VStr s => negb (String.eqb s EmptyString)
  | VList l | VTuple l => match l with [] => false | _ => true end
  | VDict items => match items with [] => false | _ => true end
  end.

(** The first character of a string held as UTF-8 bytes: the lead byte
    tells how many bytes the character has. *)
Definition first_char (s : string) : string :=
  match s with
  | EmptyString => EmptyString
  | String a _ =>
      let n := nat_of_ascii a in
      let len := if (n <? 192)%nat then 1
                 else if (n <? 224)%nat then 2
                 else if (n <? 240)%nat then 3 else 4 in
      String.substring 0 len s
  end.

(** Whether a value can be hashed: lists and dicts cannot, a tuple can
    when its elements can. *)
Fixpoint hashable (v : value) : bool :=
  match v with
  | VList _ | VDict _ => false
  | VTuple l => forallb hashable l
  | _ => true
  end.

(** A key of a [dict] that equals the integer 0. *)
Definition eq_zero (k : value) : bool :=
  match k with
  | VInt z => Z.eqb z 0
  | VBool b => negb b
  | VFloat x => PrimFloat.eqb x 0%float
  | _ => false
  end.

(** [v[0]] *)
Definition getitem0 (v : value) : result value :=
  match v with
  | VList (x :: _) | VTuple (x :: _) => Ok x
  | VList [] | VTuple [] => Raise IndexError
  | VStr EmptyString => Raise IndexError
  | VStr s => Ok (VStr (first_char s))
  | VDict items =>
      match List.find (fun kv => eq_zero kv.1) items with
      | Some kv => Ok kv.2
      | None => Raise KeyError
      end
  | _ => Raise TypeError
  end.

Definition is_dict (v : value) : bool :=
  match v with VDict _ => true | _ => false end.

Definition is_str (v : value) : bool :=
  match v with VStr _ => true | _ => false end.

(** [ticker_list and isinstance(ticker_list[0], dict)
     and 'ticker' in ticker_list[0]] *)
Definition first_is_ticker_dict (ticker_list : value) : result bool :=
  if truthy ticker_list then
    x ← getitem0 ticker_list;
    if is_dict x then contains "ticker" x else mret false
  else mret false.

(** [ticker_list and isinstance(ticker_list[0], str)] *)
Definition first_is_str (ticker_list : value) : result bool :=
  if truthy ticker_list then
    x ← getitem0 ticker_list; mret (is_str x)
  else mret false.

(** The [if / elif / else] that picks the ticker out of the decoded
    value. *)
Definition pick (ticker_list : value) : result value :=
  c ← first_is_ticker_dict ticker_list;
  if c : bool then
    x ← getitem0 ticker_list; getitem_str x "ticker"
  else
    c' ← first_is_str ticker_list;
    if c' : bool then getitem0 ticker_list else mret (VStr EmptyString).

(** The ways [ast.literal_eval] rejects a text. *)
Inductive literal_error : Type :=
| MalformedNode
| InvalidSyntax
| Unhashable.

Definition exn_of (err : literal_error) : exn :=
  match err with
  | MalformedNode => ValueError
  | InvalidSyntax => SyntaxError
  | Unhashable => TypeError
  end.

(** A filing record as the filing search returns it, and a row of the
    finance table. *)
Record Filing : Type := mkFiling {
  tickers : value;
  fields : list (string * value)
}.

Record Finance : Type := mkFinance {
  ticker : string;
  attrs : list (string * value)
}.

(** A row of the outer merge: its join key and the two sides, [None] for a
    side without a match. *)
Record Merged : Type := mkMerged {
  key : value;
  filing : option Filing;
  finance : option Finance
}.

(** What [combine_sec_and_yahoo_data] returns: the empty frame, one of its
    arguments as it is, or the merged table. *)
Inductive combined : Type :=
| Empty_frame
| Finance_frame (yahoo_df : list Finance)
| Filing_frame (sec_df : list Filing)
| Merged_frame (combined_df : list Merged).

(** The integer a float is equal to, if it is one. *)
Definition int_of_float (x : float) : option Z :=
  match Prim2SF x with
  | SpecFloat.S754_zero _ => Some 0%Z
  | SpecFloat.S754_finite negative m e =>
      let sign := if negative then (-1)%Z else 1%Z in
      if (0 <=? e)%Z then Some (sign * Z.pos m * 2 ^ e)%Z
      else if Z.eqb (Z.pos m mod 2 ^ (- e)) 0
           then Some (sign * (Z.pos m / 2 ^ (- e)))%Z
           else None
  | _ => None
  end.

(** The number a value is, an [int] or a [float]; a [bool] is an [int]. *)
Definition number_of (v : value) : option (Z + float) :=
  match v with
  | VBool b => Some (inl (if b then 1%Z else 0%Z))
  | VInt z => Some (inl z)
  | VFloat x => Some (inr x)
  | _ => None
  end.

Definition number_same (n1 n2 : Z + float) : bool :=
  match n1, n2 with
  | inl a, inl b => Z.eqb a b
  | inr x, inr y =>
      PrimFloat.eqb x y || (PrimFloat.is_nan x && PrimFloat.is_nan y)
  | inl a, inr x | inr x, inl a =>
      match int_of_float x with
      | Some b => Z.eqb a b
      | None => false
      end
  end.

(** Whether two hashable values are the same key for
    [duplicated]: equal as Python values, two NaN counting as equal. *)
Fixpoint key_same (k1 k2 : value) : bool :=
  match k1, k2 with
  | VNone, VNone => true
  | VStr a, VStr b => String.eqb a b
  | VTuple l1, VTuple l2 =>
      (fix all_same (l1 l2 : list value) : bool :=
         match l1, l2 with
         | [], [] => true
         | x :: l1', y :: l2' => key_same x y && all_same l1' l2'
         | _, _ => false
         end) l1 l2
  | _, _ =>
      match number_of k1, number_of k2 with
      | Some n1, Some n2 => number_same n1 n2
      | _, _ => false
      end
  end.

(** [duplicated(subset=['ticker'], keep='first')] on the merged table. *)
Fixpoint duplicated_from (seen : list value) (l : list Merged) : list bool :=
  match l with
  | [] => []
  | m :: l' =>
      existsb (key_same (key m)) seen :: duplicated_from (key m :: seen) l'
  end.

(** [drop_duplicates(subset=['ticker'], keep='first')] on the merged
    table. *)
Fixpoint drop_duplicates_from (seen : list value) (l : list Merged)
  : list Merged :=
  match l with
  | [] => []
  | m :: l' =>
      if existsb (key_same (key m)) seen
      then drop_duplicates_from seen l'
      else m :: drop_duplicates_from (key m :: seen) l'
  end.

Section WithDecoders.

(** [json.loads], [None] when it raises [json.JSONDecodeError]. *)
Variable json_loads : string -> option value.

(** [ast.literal_eval] *)
Variable literal_eval : string -> value + literal_error.

(** The innermost [try] of the loop body, for a valid value. *)
Definition try_decode (ticker_data : value) : result value :=
  match ticker_data with
  | VStr s =>
      match json_loads s with
      | Some ticker_list => pick ticker_list
      | None =>
          match literal_eval s with
          | inl ticker_list => pick ticker_list
          | inr err =>
              match exn_of err with
              | ValueError | SyntaxError => mret (VStr EmptyString)
              | e => Raise e
              end
          end
      end
  | VList _ => pick ticker_data
  | _ => mret (VStr EmptyString)
  end.

(** [except (KeyError, IndexError, TypeError, AttributeError)] *)
Definition inner_handler (r : result value) : result value :=
  match r with
  | Raise (KeyError | IndexError | TypeError | AttributeError) =>
      Ok (VStr EmptyString)
  | _ => r
  end.

(** [except (KeyError, TypeError, AttributeError)] *)
Definition outer_handler (r : result value) : result value :=
  match r with
  | Raise (KeyError | TypeError | AttributeError) => Ok (VStr EmptyString)
  | _ => r
  end.

(** The body of the loop over the filing rows: the value it appends to
    [sec_tickers], or the exception that leaves the loop. *)
Definition sec_ticker (ticker_value : value) : result value :=
  outer_handler
    (if is_valid ticker_value
     then inner_handler (try_decode ticker_value)
     else Ok (VStr EmptyString)).

(** One iteration: the body appends its value to [sec_tickers]. *)
Definition extract_step (acc : result (list value)) (row : Filing)
  : result (list value) :=
  sec_tickers ← acc;
  t ← sec_ticker (tickers row);
  mret (sec_tickers ++ [t]).

(** The loop. *)
Definition extract (sec_df : list Filing) : result (list value) :=
  fold_left extract_step sec_df (Ok []).

(** The adjustment of the list to the length of the frame. *)
Definition fix_length (sec_tickers : list value) (n : nat) : list value :=
  if Nat.eqb (length sec_tickers) n then sec_tickers
  else take n (sec_tickers
               ++ replicate (n - length sec_tickers) (VStr EmptyString)).

(** The order in which the merge sorts its keys. *)
Variable key_le : value -> value -> bool.

(** [pd.merge(left, right, on='ticker', how='outer')]: every left row with
    each right row of its key, or alone; then the right rows without a
    match; the whole sorted on the key.  The join hashes its keys, and a
    key that cannot be hashed raises a [TypeError]. *)
Definition merge_outer (left : list (value * Filing))
    (right : list Finance) : result (list Merged) :=
  if forallb (fun kv => hashable kv.1) left then
    let matched :=
      flat_map
        (fun '(k, row) =>
           match filter (fun r => eq_str k (ticker r) = true) right with
           | [] => [mkMerged k (Some row) None]
           | rs => map (fun r => mkMerged k (Some row) (Some r)) rs
           end)
        left in
    let right_only :=
      filter
        (fun r => existsb (fun kv => eq_str kv.1 (ticker r)) left = false)
        right in
    Ok (Pd.sort_by (fun m1 m2 => key_le (key m1) (key m2))
          (matched
           ++ map (fun r => mkMerged (VStr (ticker r)) None (Some r))
                  right_only))
  else Raise TypeError.

(** The [try] block of [combine_sec_and_yahoo_data] for two frames with
    rows, down to the merge. *)
Definition try_merge (sec_df : list Filing) (yahoo_df : list Finance)
  : result (list Merged) :=
  sec_tickers ← extract sec_df;
  let sec_tickers := fix_length sec_tickers (length sec_df) in
  let sec_df_copy := zip sec_tickers sec_df in
  merge_outer sec_df_copy yahoo_df.

(** With the handler of the block: [except Exception] returns the empty
    frame. *)
Definition extract_and_merge (sec_df : list Filing)
    (yahoo_df : list Finance) : list Merged :=
  match try_merge sec_df yahoo_df with
  | Ok combined_df => combined_df
  | Raise _ => []
  end.

(** The whole [try] block: the merge, then the removal of the rows whose
    ticker occurred in an earlier row. *)
Definition try_block (sec_df : list Filing) (yahoo_df : list Finance)
  : result (list Merged) :=
  combined_df ← try_merge sec_df yahoo_df;
  let duplicate_count :=
    length (filter (fun b => b = true) (duplicated_from [] combined_df)) in
  if (0 <? duplicate_count)%nat
  then mret (drop_duplicates_from [] combined_df)
  else mret combined_df.

(** [combine_sec_and_yahoo_data] *)
Definition combine_sec_and_yahoo_data (sec_df : list Filing)
    (yahoo_df : list Finance) : combined :=
  match sec_df, yahoo_df with
  | [], [] => Empty_frame
  | [], _ => Finance_frame yahoo_df
  | _, [] => Filing_frame sec_df
  | _, _ =>
      match try_block sec_df yahoo_df with
      | Ok combined_df => Merged_frame combined_df
      | Raise _ => Empty_frame
      end
  end.

End WithDecoders.

End Filings.

(** ** Reference decoders

    Executable stand-ins for [json.loads] and [ast.literal_eval], used to
    run the extraction on concrete texts.  They read the literals the
    filing feed is made of: [null]/[true]/[false] or [None]/[True]/[False],
    decimal numbers, quoted strings with the common escapes, lists, tuples
    and dicts.  The statements about the extraction quantify over every
    decoder and do not depend on them. *)

Module Decoders.

Import Py.

Inductive syntax : Type := Json | Python.

(** What the parser is reading: a value, the rest of a bracketed sequence
    closed by [close], or the rest of the items of a dict. *)
Inductive goal : Type :=
| GValue
| GElems (close : ascii) (acc : list value)
| GItems (acc : list (value * value)).

Inductive failure : Type := Rejected | UnhashableKey.

Definition is_json (syn : syntax) : bool :=
  match syn with Json => true | Python => false end.

Definition dq : ascii := "034"%char.
Definition sq : ascii := "039"%char.
Definition backslash : ascii := "092"%char.

Definition is_ws (a : ascii) : bool :=
  match nat_of_ascii a with
  | 32 | 9 | 10 | 13 => true
  | _ => false
  end.

Fixpoint skip_ws (s : string) : string :=
  match s with
  | String a s' => if is_ws a then skip_ws s' else s
  | EmptyString => EmptyString
  end.

Definition digit (a : ascii) : option Z :=
  let n := nat_of_ascii a in
  if (48 <=? n)%nat && (n <=? 57)%nat
  then Some (Z.of_nat (n - 48)) else None.

(** The digits at the head of a text: their value, their number, the
    rest. *)
Fixpoint digits (acc : Z) (count : nat) (s : string) : Z * nat * string :=
  match s with
  | String a s' =>
      match digit a with
      | Some d => digits (10 * acc + d) (S count) s'
      | None => (acc, count, s)
      end
  | EmptyString => (acc, count, s)
  end.

(** The binary64 number nearest to [m * 10^e], ties to even: the quotient
    is taken with 64 bits to spare and a sticky bit. *)
Definition decimal (negative : bool) (m : Z) (e : Z) : float :=
  let sign := if negative then (-1)%Z else 1%Z in
  if (0 <=? e)%Z then
    SF2Prim (SpecFloat.binary_normalize FloatOps.prec FloatOps.emax
               (sign * m * 10 ^ e) 0 negative)
  else
    let den := (10 ^ (- e))%Z in
    let shift := (Z.log2 den + 64)%Z in
    let num := Z.shiftl m shift in
    let sticky := if Z.eqb (num mod den) 0 then 0%Z else 1%Z in
    SF2Prim (SpecFloat.binary_normalize FloatOps.prec FloatOps.emax
               (sign * (2 * (num / den) + sticky)) (- shift - 1) negative).

(** A number: an integer, or a float when it has a fraction or an
    exponent. *)
Definition number (s : string) : option (value * string) :=
  let '(negative, s1) :=
    match s with
    | String "-" s' => (true, s')
    | _ => (false, s)
    end in
  let '(int_part, n_int, s2) := digits 0 0 s1 in
  let leading_zero :=
    match s1 with
    | String "0" _ => (1 <? n_int)%nat
    | _ => false
    end in
  if Nat.eqb n_int 0 || leading_zero then None
  else
    let '(mantissa, n_frac, s3, has_frac) :=
      match s2 with
      | String "." s' =>
          let '(m, n, r) := digits int_part 0 s' in (m, n, r, true)
      | _ => (int_part, 0, s2, false)
      end in
    if has_frac && Nat.eqb n_frac 0 then None
    else
      let exponent : option (option Z * string) :=
        match s3 with
        | String ("e" | "E") s' =>
            let '(neg_e, s'') :=
              match s' with
              | String "-" r => (true, r)
              | String "+" r => (false, r)
              | _ => (false, s')
              end in
            let '(e, n_e, r) := digits 0 0 s'' in
            if Nat.eqb n_e 0 then None
            else Some (Some (if neg_e then (- e)%Z else e), r)
        | _ => Some (None, s3)
        end in
      match exponent with
      | None => None
      | Some (None, r) =>
          if has_frac
          then Some (VFloat (decimal negative mantissa (- Z.of_nat n_frac)), r)
          else Some (VInt (if negative then - int_part else int_part)%Z, r)
      | Some (Some e, r) =>
          Some (VFloat (decimal negative mantissa (e - Z.of_nat n_frac)), r)
      end.

(** The character an escape stands for. *)
Definition unescape (syn : syntax) (a : ascii) : option ascii :=
  match nat_of_ascii a, syn with
  | 34, _ => Some dq
  | 92, _ => Some backslash
  | 110, _ => Some "010"%char
  | 116, _ => Some "009"%char
  | 114, _ => Some "013"%char
  | 98, _ => Some "008"%char
  | 102, _ => Some "012"%char
  | 47, Json => Some "/"%char
  | 39, Python => Some sq
  | _, _ => None
  end.

(** The text of a string literal after its opening quote [q], and the
    rest after its closing quote. *)
Fixpoint str_body (syn : syntax) (q : ascii) (s : string)
  : option (string * string) :=
  match s with
  | EmptyString => None
  | String a s' =>
      if Ascii.eqb a q then Some (EmptyString, s')
      else if Ascii.eqb a backslash then
        match s' with
        | String b s'' =>
            match unescape syn b, str_body syn q s'' with
            | Some c, Some (t, r) => Some (String c t, r)
            | _, _ => None
            end
        | EmptyString => None
        end
      else if (nat_of_ascii a <? 32)%nat then None
      else
        match str_body syn q s' with
        | Some (t, r) => Some (String a t, r)
        | None => None
        end
  end.

(** [s] without the prefix [w], when it starts with it. *)
Fixpoint after (w s : string) : option string :=
  match w, s with
  | EmptyString, _ => Some s
  | String a w', String b s' => if Ascii.eqb a b then after w' s' else None
  | String _ _, EmptyString => None
  end.

Definition keyword (syn : syntax) (s : string) : option (value * string) :=
  let try_word (w : string) (v : value) (k : option (value * string)) :=
    match after w s with
    | Some r => Some (v, r)
    | None => k
    end in
  match syn with
  | Json =>
      try_word "null" VNone
        (try_word "true" (VBool true)
           (try_word "false" (VBool false)
              (try_word "NaN" (VFloat PrimFloat.nan)
                 (try_word "Infinity" (VFloat PrimFloat.infinity)
                    (try_word "-Infinity" (VFloat PrimFloat.neg_infinity)
                       None)))))
  | Python =>
      try_word "None" VNone
        (try_word "True" (VBool true) (try_word "False" (VBool false) None))
  end.

(** [d[k] = v] on the items read so far. *)
Fixpoint items_set (items : list (value * value)) (k v : value)
  : list (value * value) :=
  match items with
  | [] => [(k, v)]
  | (k', v') :: items' =>
      match k, k' with
      | VStr s, VStr s' =>
          if String.eqb s s' then (k', v) :: items'
          else (k', v') :: items_set items' k v
      | _, _ => (k', v') :: items_set items' k v
      end
  end.

(** The closing of a bracketed sequence: a list, or a tuple, a single
    parenthesised value being the value itself. *)
Definition closed (close : ascii) (trailing_comma : bool) (l : list value)
  : value :=
  if Ascii.eqb close "]" then VList l
  else match l with
       | [v] => if trailing_comma then VTuple l else v
       | _ => VTuple l
       end.

Fixpoint parse (syn : syntax) (fuel : nat) (g : goal) (s : string)
  : (value * string) + failure :=
  match fuel with
  | 0 => inr Rejected
  | S fuel' =>
      let s := skip_ws s in
      match g with
      | GValue =>
          match s with
          | String "[" r =>
              match skip_ws r with
              | String "]" r' => inl (VList [], r')
              | _ => parse syn fuel' (GElems "]" []) r
              end
          | String "(" r =>
              match syn, skip_ws r with
              | Json, _ => inr Rejected
              | Python, String ")" r' => inl (VTuple [], r')
              | Python, _ => parse syn fuel' (GElems ")" []) r
              end
          | String "{" r =>
              match skip_ws r with
              | String "}" r' => inl (VDict [], r')
              | _ => parse syn fuel' (GItems []) r
              end
          | String a r =>
              if Ascii.eqb a dq || (Ascii.eqb a sq && negb (is_json syn))
              then match str_body syn a r with
                   | Some (t, r') => inl (VStr t, r')
                   | None => inr Rejected
                   end
              else match keyword syn s with
                   | Some res => inl res
                   | None => match number s with
                             | Some res => inl res
                             | None => inr Rejected
                             end
                   end
          | EmptyString => inr Rejected
          end
      | GElems close acc =>
          match parse syn fuel' GValue s with
          | inl (v, r) =>
              match skip_ws r with
              | String "," r' =>
                  match syn, skip_ws r' with
                  | Python, String c r'' =>
                      if Ascii.eqb c close
                      then inl (closed close true (acc ++ [v]), r'')
                      else parse syn fuel' (GElems close (acc ++ [v])) r'
                  | _, _ => parse syn fuel' (GElems close (acc ++ [v])) r'
                  end
              | String c r' =>
                  if Ascii.eqb c close
                  then inl (closed close false (acc ++ [v]), r')
                  else inr Rejected
              | EmptyString => inr Rejected
              end
          | inr e => inr e
          end
      | GItems acc =>
          match parse syn fuel' GValue s with
          | inl (k, r) =>
              match syn, k with
              | Json, VStr _ | Python, _ =>
                  match skip_ws r with
                  | String ":" r1 =>
                      match parse syn fuel' GValue r1 with
                      | inl (v, r2) =>
                          if Filings.hashable k then
                            let acc := items_set acc k v in
                            match skip_ws r2 with
                            | String "," r3 =>
                                match syn, skip_ws r3 with
                                | Python, String "}" r4 =>
                                    inl (VDict acc, r4)
                                | _, _ => parse syn fuel' (GItems acc) r3
                                end
                            | String "}" r3 => inl (VDict acc, r3)
                            | _ => inr Rejected
                            end
                          else inr UnhashableKey
                      | inr e => inr e
                      end
                  | _ => inr Rejected
                  end
              | Json, _ => inr Rejected
              end
          | inr e => inr e
          end
      end
  end.

(** A whole text: one value and nothing after it. *)
Definition decode (syn : syntax) (s : string) : value + failure :=
  match parse syn (2 * String.length s + 2) GValue s with
  | inl (v, r) =>
      match skip_ws r with
      | EmptyString => inl v
      | _ => inr Rejected
      end
  | inr e => inr e
  end.

(** The stand-in for [json.loads]. *)
Definition json_loads (s : string) : option value :=
  match decode Json s with
  | inl v => Some v
  | inr _ => None
  end.

(** The stand-in for [ast.literal_eval]; a text it does not read is
    reported as a malformed node. *)
Definition literal_eval (s : string) : value + Filings.literal_error :=
  match decode Python s with
  | inl v => inl v
  | inr Rejected => inr Filings.MalformedNode
  | inr UnhashableKey => inr Filings.Unhashable
  end.

(** A text between double quotes. *)
Definition quoted (s : string) : string :=
  String dq (s ++ String dq EmptyString).

(** The two texts of the filing-ticker example. *)
Definition ticker_abc : string :=
  "[{" ++ quoted "ticker" ++ ": " ++ quoted "ABC" ++ "}]".

Definition garbage : string := "not json or literal".

End Decoders.

(** ** Concrete filings *)

Module FilingExamples.

Import Py Filings.

(** Three filing rows: one with a JSON list of ticker objects, one with a
    text no decoder reads, one with a missing value. *)
Definition abc_row : Filing :=
  mkFiling (VStr Decoders.ticker_abc) [("formType", VStr "S-1")].

Definition garbage_row : Filing :=
  mkFiling (VStr Decoders.garbage) [("formType", VStr "S-1")].

(** A second filing whose tickers no decoder reads. *)
Definition garbage_row' : Filing :=
  mkFiling (VStr Decoders.garbage) [("formType", VStr "S-1/A")].

Definition missing_row : Filing :=
  mkFiling (VFloat PrimFloat.nan) [("formType", VStr "S-1/A")].

Definition sec_df : list Filing := [abc_row; garbage_row; missing_row].

Definition yahoo_df : list Finance :=
  [mkFinance "ABC" [("name", VStr "ABC Corp")]].

(** Keys that are strings in lexicographic order, anything else last. *)
Definition key_le (k1 k2 : value) : bool :=
  match k1, k2 with
  | VStr s1, VStr s2 => String.leb s1 s2
  | VStr _, _ => true
  | _, VStr _ => false
  | _, _ => true
  end.

End FilingExamples.

(** ** Runs on consecutive days *)

Module History.

Import Prices.

(** The price series of a row, newest first: position 0 is [Today_price],
    position [j] is the cell of [f'{j}DaysAgo_price']. *)
Definition slot (row : Row) (j : nat) : float :=
  match j with
  | 0 => Today_price row
  | _ => DaysAgo_price row j
  end.

(** [roll_prices_for_existing_tickers] called once a day, each day against
    the fetcher of that day; the file of one day is the file the next day
    reads. *)
Definition roll_days (file : csv_file) (days : list fetcher) : csv_file :=
  fold_left
    (fun file get_ticker_price =>
       file_after (roll_prices_for_existing_tickers file get_ticker_price))
    days file.

End History.


(** ** A fetcher that answers by call *)

Module BatchExamples.

Import Prices.

(** The first call of the batch is answered 10, the third 12, and every
    other call fails. *)
Definition by_call : fetcher :=
  fun i _ =>
    match i with
    | 0 => Py.Ok (Some 10%float)
    | 2 => Py.Ok (Some 12%float)
    | _ => Py.Ok None
    end.

End BatchExamples.


(** ** A snapshot with two bars *)

Module SnapshotExamples.

Import Py Fetcher.

(** A snapshot whose minute bar has an open but no close and whose day
    bar closes at 9.5. *)
Definition bars : list (value * value) :=
  [(VStr "ticker", VStr "ABC");
   (VStr "todaysChange", VFloat 0.25%float);
   (VStr "min", VDict [(VStr "o", VFloat 9.25%float)]);
   (VStr "day", VDict [(VStr "c", VFloat 9.5%float)])].

Definition body : list (value * value) :=
  [(VStr "status", VStr "OK"); (VStr "ticker", VDict bars)].

Definition upstream (attempt : nat) : response :=
  Response 200 (Some (VDict body)).

End SnapshotExamples.


(** ** The updater of recent IPOs ([recentIPOTickersAndPrices.py]) *)

Module RecentIPO.

Import Prices.

(** [get_tickers_from_recent_ipo(limit)]: the statements of
    [get_new_tickers_from_working_rolling], on the [Symbol] column of
    [recentIPOS.csv]. *)
Definition get_tickers_from_recent_ipo
    (file : csv_file) (recent : option (list (option string)))
    (limit : option nat) : list string :=
  get_new_tickers_from_working_rolling file recent limit.

(** What [row.get('Scraped Date', '')] gives: the text of the cell, or NaN
    for an empty cell. *)
Inductive cell : Type :=
| Text (s : string)
| NaN.

Record upcoming_row : Type := mkUpcomingRow {
  Symbol : option string;
  Scraped_Date : cell
}.

(** [upcomingIPOS.csv] as read: whether it has a [Scraped Date] column,
    and its rows. *)
Record upcoming : Type := mkUpcoming {
  has_Scraped_Date : bool;
  rows : list upcoming_row
}.

(** [timedelta.days] of a difference given in microseconds: the days are
    counted downwards, so a negative difference has negative days. *)
Definition days (microseconds : Z) : Z := (microseconds / 86400000000)%Z.

Section WithClock.

(** [datetime.strptime(s, '%Y-%m-%d %H:%M:%S')] in microseconds, [None]
    when it raises [ValueError]. *)
Variable strptime : string -> option Z.

(** [datetime.now()] in microseconds, as read in the iteration for the
    [i]-th symbol. *)
Variable now : nat -> Z.

(** The body of the loop over the symbols of the feed. *)
Definition missing_step (existing_tickers : gset string)
    (df_upcoming : upcoming) (acc : Py.result (list string))
    (it : nat * string) : Py.result (list string) :=
  missing_tickers ← acc;
  let '(i, ticker) := it in
  if bool_decide (ticker ∈ existing_tickers) then mret missing_tickers
  else
    match List.find (fun r => bool_decide (Symbol r = Some ticker))
                    (rows df_upcoming) with
    | None => mret missing_tickers
    | Some row =>
        let scraped_date_str :=
          if has_Scraped_Date df_upcoming then Scraped_Date row
          else Text EmptyString in
        match scraped_date_str with
        | Text EmptyString => mret missing_tickers
        | Text s =>
            match strptime s with
            | Some scraped_date =>
                let days_ago := days (now i - scraped_date) in
                if (days_ago <=? 7)%Z
                then mret (missing_tickers ++ [ticker])
                else mret missing_tickers
            | None => mret (missing_tickers ++ [ticker])
            end
        | NaN => Py.Raise Py.TypeError
        end
    end.

(** The condition under which the body adds the symbol [ticker] in the
    iteration of position [i]: it is not on file, and the first row of the
    feed with that symbol has a scrape date that is not in the format or is
    at most seven days old. *)
Definition offered (existing_tickers : gset string) (df_upcoming : upcoming)
    (i : nat) (ticker : string) : Prop :=
  (ticker ∉ existing_tickers)
  /\ has_Scraped_Date df_upcoming = true
  /\ exists row s,
       List.find (fun r => bool_decide (Symbol r = Some ticker))
                 (rows df_upcoming) = Some row
       /\ Scraped_Date row = Text s
       /\ s <> EmptyString
       /\ (strptime s = None
           \/ exists scraped_date,
                strptime s = Some scraped_date
                /\ (days (now i - scraped_date) <= 7)%Z).

(** [get_missing_tickers_from_upcoming].  [df_upcoming] is [None] when the
    file does not exist or cannot be read with a [Symbol] column. *)
Definition get_missing_tickers_from_upcoming (file : csv_file)
    (df_upcoming : option upcoming) : list string :=
  match df_upcoming with
  | None => []
  | Some df_upcoming =>
      let existing_tickers : gset string :=
        list_to_set (load_existing_tickers file) in
      let all_upcoming_tickers := omap Symbol (rows df_upcoming) in
      match fold_left (missing_step existing_tickers df_upcoming)
                      (Py.enumerate all_upcoming_tickers) (Py.Ok []) with
      | Py.Ok missing_tickers => missing_tickers
      | Py.Raise _ => []
      end
  end.

(** [list(set(l))]: the elements of [l] in an order the code does not
    choose. *)
Variable list_set : list string -> list string.

(** [run_daily_update] *)
Definition run_daily_update (file : csv_file)
    (recent : option (list (option string)))
    (df_upcoming : option upcoming)
    (fetch_new fetch_roll : fetcher) (test_mode : bool) (test_limit : nat)
  : run :=
  let existing_tickers_before := load_existing_tickers file in
  let new_tickers :=
    if test_mode
    then get_tickers_from_recent_ipo file recent (Some test_limit)
    else get_tickers_from_recent_ipo file recent None in
  let missing_tickers := get_missing_tickers_from_upcoming file df_upcoming in
  let new_tickers :=
    if Py.truthy missing_tickers
    then list_set (new_tickers ++ missing_tickers)
    else new_tickers in
  let appended :=
    if Py.truthy new_tickers then
      match fetch_prices_for_tickers fetch_new new_tickers with
      | Py.Ok new_ticker_prices =>
          if Py.truthy new_ticker_prices
          then mkRun (update_csv_with_new_tickers file new_ticker_prices) None
          else mkRun file None
      | Py.Raise e => mkRun file (Some e)
      end
    else mkRun file None in
  match raised appended with
  | Some e => appended
  | None =>
      if Py.truthy existing_tickers_before
      then roll_prices_for_existing_tickers (file_after appended) fetch_roll
      else appended
  end.

End WithClock.

End RecentIPO.

(** ** A feed of upcoming IPOs *)

Module RecentIPOExamples.

Import RecentIPO.

(** A [strptime] that knows two texts: midnight of day 100 and of day
    110, counted from some first day. *)
Definition strptime (s : string) : option Z :=
  if String.eqb s "2024-04-10 00:00:00" then Some (100 * 86400000000)%Z
  else if String.eqb s "2024-04-20 00:00:00" then Some (110 * 86400000000)%Z
  else None.

(** A clock that stands at noon of day 112. *)
Definition now (i : nat) : Z := (112 * 86400000000 + 43200000000)%Z.

(** [OLD] was scraped twelve days ago, [NEW] two days ago, [ODD] has a
    date that is not in the format, and [AAA] is on file. *)
Definition feed : upcoming :=
  mkUpcoming true
    [mkUpcomingRow (Some "OLD") (Text "2024-04-10 00:00:00");
     mkUpcomingRow (Some "NEW") (Text "2024-04-20 00:00:00");
     mkUpcomingRow (Some "ODD") (Text "04/20/2024");
     mkUpcomingRow (Some "AAA") (Text "2024-04-20 00:00:00");
     mkUpcomingRow None (Text "2024-04-20 00:00:00")].

(** The same feed with one more symbol, whose date cell is empty. *)
Definition feed_with_gap : upcoming :=
  mkUpcoming true (rows feed ++ [mkUpcomingRow (Some "GAP") NaN]).

(** One [list(set(l))]: the distinct elements of [l], from the last to
    the first. *)
Definition list_set (l : list string) : list string :=
  reverse (remove_dups l).

End RecentIPOExamples.


(** ** The filing search ([DailyScriptPuller.get_sec_filings_data]) *)

Module SecSearch.

Import Py Fetcher.

Definition batch_size : nat := 50.

(** A byte that continues a UTF-8 character. *)
Definition is_continuation (a : ascii) : bool :=
  let n := nat_of_ascii a in (128 <=? n)%nat && (n <? 192)%nat.

(** The characters of a string held as UTF-8 bytes. *)
Fixpoint chars (s : string) : list string :=
  match s with
  | EmptyString => []
  | String a s' =>
      match s' with
      | String b _ =>
          if is_continuation b then
            match chars s' with
            | c :: cs => String a c :: cs
            | [] => [String a EmptyString]
            end
          else String a EmptyString :: chars s'
      | EmptyString => [String a EmptyString]
      end
  end.

(** [data.get('data', [])] *)
Definition get_data (data : value) : result value :=
  match data with
  | VDict items =>
      Ok (match dict_lookup items "data" with
          | Some filings => filings
          | None => VList []
          end)
  | _ => Raise AttributeError
  end.

(** What [for x in v] goes through: the elements of a list or tuple, the
    characters of a string, the keys of a dict; a [TypeError] on a value
    that is not iterable. *)
Definition iterate (v : value) : result (list value) :=
  match v with
  | VList l | VTuple l => Ok l
  | VStr s => Ok (map VStr (chars s))
  | VDict items => Ok (map fst items)
  | _ => Raise TypeError
  end.

(** [all_filings.extend(filings)] *)
Definition extend (all_filings : list value) (filings : value)
  : result (list value) :=
  xs ← iterate filings; mret (all_filings ++ xs).

(** [len(filings)] *)
Definition len (filings : value) : result nat :=
  xs ← iterate filings; mret (length xs).

(** One request and what the loop body reads from its answer:
    [requests.post], [raise_for_status], [response.json()] and
    [data.get('data', [])]. *)
Definition page (resp : response) : result value :=
  match resp with
  | ConnectionFailed => Raise RequestException
  | Response status_code body =>
      _ ← raise_for_status status_code;
      data ← json body;
      get_data data
  end.

(** The [while offset < max_results] loop.  [post offset] is what the
    request with ["from": offset] meets; [sent] counts the requests.  The
    loop returns the list it gathered or the exception that left it.  Each
    iteration that goes on adds [batch_size] to [offset], so [fuel]
    iterations are enough when [max_results - offset <= fuel]. *)
Fixpoint search_loop (post : nat -> response) (max_results fuel : nat)
    (offset : nat) (all_filings : list value) (sent : nat)
  : result (list value) * nat :=
  match fuel with
  | 0 => (Ok all_filings, sent)
  | S fuel' =>
      if (offset <? max_results)%nat then
        match page (post offset) with
        | Raise e => (Raise e, S sent)
        | Ok filings =>
            if negb (Filings.truthy filings) then (Ok all_filings, S sent)
            else
              match extend all_filings filings, len filings with
              | Ok all_filings', Ok n =>
                  if (n <? batch_size)%nat then (Ok all_filings', S sent)
                  else search_loop post max_results fuel'
                         (offset + batch_size) all_filings' (S sent)
              | Raise e, _ | _, Raise e => (Raise e, S sent)
              end
        end
      else (Ok all_filings, sent)
  end.

(** [get_sec_filings_data(start_date, end_date, max_results)]: the records
    handed to [pd.DataFrame], the empty list standing for the empty frame,
    and the number of requests sent. *)
Definition get_sec_filings_data (post : nat -> response) (max_results : nat)
  : list value * nat :=
  let '(r, sent) := search_loop post max_results max_results 0 [] 0 in
  (match r with
   | Ok all_filings => all_filings
   | Raise _ => []
   end, sent).

(** The request at [offset] is answered with a list of [batch_size]
    records or more, after which the loop goes on. *)
Definition full_page (post : nat -> response) (offset : nat)
    (filings : list value) : Prop :=
  page (post offset) = Ok (VList filings) /\ batch_size <= length filings.

(** The answer to a request that carries the given records. *)
Definition answer (filings : list value) : response :=
  Response 200 (Some (VDict [(VStr "total", VInt (Z.of_nat (length filings)));
                             (VStr "data", VList filings)])).

End SecSearch.


(** ** Answers of the filing search *)

Module SearchExamples.

Import Py Fetcher SecSearch.

(** The record of the filing number [i]. *)
Definition filing (i : nat) : value :=
  VDict [(VStr "accessionNo", VInt (Z.of_nat i));
         (VStr "formType", VStr "S-1")].

(** The [j]-th full page: 50 records. *)
Definition full (j : nat) : list value :=
  map (fun i => filing (batch_size * j + i)) (seq 0 batch_size).

(** Three records. *)
Definition short : list value := [filing 100; filing 101; filing 102].

(** Two full pages, then a short one. *)
Definition ends_short (offset : nat) : response :=
  if (offset <? 100)%nat then answer (full (offset / batch_size))
  else answer short.

(** One full page, then a server error. *)
Definition breaks (offset : nat) : response :=
  if (offset <? 50)%nat then answer (full 0)
  else Response 500 None.

(** Full pages without end. *)
Definition endless (offset : nat) : response :=
  answer (full (offset / batch_size)).

End SearchExamples.


(** ** The snapshot and reference fetchers of [DailyScriptPuller.py]
       ([PolygonSnapshotFetcher], [PolygonTickerFetcher]) *)

Module Polygon.

Import Py Fetcher.

(** [except requests.exceptions.RequestException: return None] *)
Definition handler (r : result (option value)) : result (option value) :=
  match r with
  | Raise RequestException => Ok None
  | _ => r
  end.

(** [data.get('status') == 'OK' and key in data], then [data[key]]. *)
Definition ok_entry (data : value) (key : string) : result (option value) :=
  status ← dict_get data "status";
  has_key ← (if eq_str status "OK" then contains key data else mret false);
  if has_key : bool then x ← getitem_str data key; mret (Some x)
  else mret None.

(** [PolygonSnapshotFetcher.get_ticker_snapshot] on what its request
    meets. *)
Definition get_ticker_snapshot (resp : response) : result (option value) :=
  handler
    match resp with
    | ConnectionFailed => Raise RequestException
    | Response status_code body =>
        if Nat.eqb status_code 404 then mret None
        else
          _ ← raise_for_status status_code;
          data ← json body;
          ok_entry data "ticker"
    end.

(** [PolygonTickerFetcher.get_ticker_info] on what its request meets. *)
Definition get_ticker_info (resp : response) : result (option value) :=
  handler
    match resp with
    | ConnectionFailed => Raise RequestException
    | Response status_code body =>
        _ ← raise_for_status status_code;
        data ← json body;
        ok_entry data "results"
    end.

(** One iteration of [process_tickers]: the result is kept when it is
    truthy. *)
Definition process_step (upstream : string -> response)
    (acc : result (list value)) (ticker : string) : result (list value) :=
  results ← acc;
  ticker_info ← get_ticker_info (upstream ticker);
  match ticker_info with
  | Some info => if Filings.truthy info then mret (results ++ [info])
                 else mret results
  | None => mret results
  end.

(** [PolygonTickerFetcher.process_tickers] *)
Definition process_tickers (upstream : string -> response)
    (tickers : list string) : result (list value) :=
  fold_left (process_step upstream) tickers (Ok []).

End Polygon.

(** ** The finance side of the pipeline
       ([DailyScriptPuller.filter_sec_data_by_ticker], [get_ticker_info],
        [process_polygon_tickers], [get_polygon_finance_data]) *)

Module Puller.

Import Py Fetcher Filings.

(** [notna] on a cell of an object column. *)
Definition notna (v : value) : bool :=
  match v with
  | VNone => false
  | VFloat x => negb (PrimFloat.is_nan x)
  | _ => true
  end.

(** [filter_sec_data_by_ticker], on a frame with a [tickers] column: the
    rows whose cell is not missing and is not the text ['[]']. *)
Definition filter_sec_data_by_ticker (sec_df : list Filing) : list Filing :=
  filter (fun row => notna (tickers row) && negb (eq_str (tickers row) "[]")
                     = true)
         sec_df.

(** [v.get(key, default)]: only a [dict] has the method. *)
Definition get_default (v : value) (key : string) (default : value)
  : result value :=
  match v with
  | VDict items =>
      Ok (match dict_lookup items key with Some x => x | None => default end)
  | _ => Raise AttributeError
  end.

Definition empty_str : value := VStr EmptyString.

(** The four prices read from a bar. *)
Definition bar_prices (bar : value) : result (PyDict.t value) :=
  c ← get_default bar "c" empty_str;
  o ← get_default bar "o" empty_str;
  l ← get_default bar "l" empty_str;
  h ← get_default bar "h" empty_str;
  mret [("current_price", c); ("open", o); ("day_low", l); ("day_high", h)].

(** [price_data] *)
Definition price_data (snapshot_info : option value)
  : result (PyDict.t value) :=
  match snapshot_info with
  | Some info =>
      if truthy info then
        has_min ← contains "min" info;
        if has_min : bool then
          min_data ← getitem_str info "min"; bar_prices min_data
        else
          has_day ← contains "day" info;
          if has_day : bool then
            day_data ← getitem_str info "day"; bar_prices day_data
          else mret []
      else mret []
  | None => mret []
  end.

(** [company_data] *)
Definition company_data (ticker_info : option value)
  : result (PyDict.t value) :=
  match ticker_info with
  | Some info =>
      if truthy info then
        symbol ← get_default info "ticker" empty_str;
        name ← get_default info "name" empty_str;
        short_name ← get_default info "name" empty_str;
        exchange ← get_default info "primary_exchange" empty_str;
        sector ← get_default info "sic_description" empty_str;
        industry ← get_default info "sic_description" empty_str;
        market_cap ← get_default info "market_cap" empty_str;
        employees_yahoo ← get_default info "total_employees" empty_str;
        website ← get_default info "homepage_url" empty_str;
        business_summary ← get_default info "description" empty_str;
        mret [("symbol", symbol); ("name", name); ("short_name", short_name);
              ("exchange", exchange); ("sector", sector);
              ("industry", industry); ("market_cap", market_cap);
              ("employees_yahoo", employees_yahoo); ("website", website);
              ("business_summary", business_summary)]
      else mret []
  | None => mret []
  end.

(** [d.get(key, '')] on a dict the method built itself. *)
Definition field (d : PyDict.t value) (key : string) : value :=
  match PyDict.get d key with Some x => x | None => empty_str end.

(** [ticker_data] *)
Definition ticker_data (ticker : value) (company price : PyDict.t value)
  : PyDict.t value :=
  [("ticker", ticker);
   ("symbol", field company "symbol");
   ("name", field company "name");
   ("short_name", field company "short_name");
   ("exchange", field company "exchange");
   ("sector", field company "sector");
   ("industry", field company "industry");
   ("current_price", field price "current_price");
   ("open", field price "open");
   ("day_low", field price "day_low");
   ("day_high", field price "day_high");
   ("market_cap", field company "market_cap");
   ("debt_to_equity", empty_str);
   ("current_ratio", empty_str);
   ("quick_ratio", empty_str);
   ("book_value", empty_str);
   ("52_week_change", empty_str);
   ("employees_yahoo", field company "employees_yahoo");
   ("website", field company "website");
   ("business_summary", field company "business_summary")].

(** [has_data] *)
Definition has_data (d : PyDict.t value) : bool :=
  existsb truthy
    [field d "current_price"; field d "name"; field d "market_cap";
     field d "business_summary"].

(** The [try] block of [get_ticker_info]. *)
Definition ticker_info_block (ticker : value) (info_resp snap_resp : response)
  : result (option (PyDict.t value)) :=
  ticker_info ← Polygon.get_ticker_info info_resp;
  snapshot_info ← Polygon.get_ticker_snapshot snap_resp;
  price ← price_data snapshot_info;
  company ← company_data ticker_info;
  let d := ticker_data ticker company price in
  if has_data d then mret (Some d) else mret None.

(** [DailyScriptPuller.get_ticker_info]: every exception gives [None]. *)
Definition get_ticker_info (ticker : value) (info_resp snap_resp : response)
  : option (PyDict.t value) :=
  match ticker_info_block ticker info_resp snap_resp with
  | Ok r => r
  | Raise _ => None
  end.

(** [process_polygon_tickers]: the rows of the frame it returns.
    [reference t] and [snapshot t] are what the two requests for ticker
    [t] meet. *)
Definition process_polygon_tickers (reference snapshot : value -> response)
    (tickers : list value) : list (PyDict.t value) :=
  omap (fun ticker => get_ticker_info ticker (reference ticker)
                                      (snapshot ticker))
       tickers.

(** What the inner loop appends for one element of the decoded list. *)
Definition element_tickers (ticker_info : value) : list value :=
  match ticker_info with
  | VDict items =>
      match dict_lookup items "ticker" with
      | Some t => [t]
      | None => []
      end
  | VStr _ => [ticker_info]
  | _ => []
  end.

Section WithDecoders.

Variable json_loads : string -> option value.
Variable literal_eval : string -> value + literal_error.

(** The decoding of a valid cell: the decoded value, [None] where the code
    goes on to the next row, or the exception that leaves the [try]. *)
Definition decoded (ticker_data : value) : result (option value) :=
  match ticker_data with
  | VStr s =>
      match json_loads s with
      | Some ticker_list => Ok (Some ticker_list)
      | None =>
          match literal_eval s with
          | inl ticker_list => Ok (Some ticker_list)
          | inr err =>
              match exn_of err with
              | ValueError | SyntaxError => Ok None
              | e => Raise e
              end
          end
      end
  | VList _ => Ok (Some ticker_data)
  | _ => Ok None
  end.

(** The [try] body of the loop over the filing rows: the tickers it
    appends. *)
Definition row_tickers (ticker_value : value) : result (list value) :=
  if is_valid ticker_value then
    ticker_list ← decoded ticker_value;
    match ticker_list with
    | Some ticker_list =>
        xs ← SecSearch.iterate ticker_list;
        mret (flat_map element_tickers xs)
    | None => mret []
    end
  else mret [].

(** [except (KeyError, TypeError, AttributeError): continue] *)
Definition row_handler (r : result (list value)) : result (list value) :=
  match r with
  | Raise (KeyError | TypeError | AttributeError) => Ok []
  | _ => r
  end.

Definition collect_step (acc : result (list value)) (row : Filing)
  : result (list value) :=
  collected ← acc;
  new ← row_handler (row_tickers (tickers row));
  mret (collected ++ new).

(** The loop of [get_polygon_finance_data]: the list [tickers]. *)
Definition collect (sec_df : list Filing) : result (list value) :=
  fold_left collect_step sec_df (Ok []).

(** [list(set(tickers))] on values that can be hashed: the elements in an
    order the code does not choose. *)
Variable list_set : list value -> list value.

(** [get_polygon_finance_data]: the rows of the frame it returns, or the
    [TypeError] of [set] on a ticker that cannot be hashed. *)
Definition get_polygon_finance_data (reference snapshot : value -> response)
    (sec_df : list Filing) : result (list (PyDict.t value)) :=
  match sec_df with
  | [] => Ok []
  | _ =>
      collected ← collect sec_df;
      if forallb hashable collected then
        let unique_tickers := list_set collected in
        match unique_tickers with
        | [] => Ok []
        | _ => Ok (process_polygon_tickers reference snapshot unique_tickers)
        end
      else Raise TypeError
  end.

End WithDecoders.

End Puller.


(** ** Answers of the reference and snapshot requests *)

Module PullerExamples.

Import Py Fetcher Puller.

(** A reference record for [ABC] with a name and a market capitalisation. *)
Definition abc_reference : response :=
  Response 200
    (Some (VDict [(VStr "status", VStr "OK");
                  (VStr "results",
                   VDict [(VStr "ticker", VStr "ABC");
                          (VStr "name", VStr "ABC Corp");
                          (VStr "market_cap", VFloat 1000000%float)])])).

(** No snapshot: the source does not know the ticker. *)
Definition no_snapshot : response := Response 404 None.

(** The record [get_ticker_info] builds from them. *)
Definition abc_record : PyDict.t value :=
  [("ticker", VStr "ABC");
   ("symbol", VStr "ABC");
   ("name", VStr "ABC Corp");
   ("short_name", VStr "ABC Corp");
   ("exchange", empty_str);
   ("sector", empty_str);
   ("industry", empty_str);
   ("current_price", empty_str);
   ("open", empty_str);
   ("day_low", empty_str);
   ("day_high", empty_str);
   ("market_cap", VFloat 1000000%float);
   ("debt_to_equity", empty_str);
   ("current_ratio", empty_str);
   ("quick_ratio", empty_str);
   ("book_value", empty_str);
   ("52_week_change", empty_str);
   ("employees_yahoo", empty_str);
   ("website", empty_str);
   ("business_summary", empty_str)].

(** Upstreams that know [ABC] and nothing else. *)
Definition reference (ticker : value) : response :=
  if eq_str ticker "ABC" then abc_reference else Response 404 None.

Definition snapshot (ticker : value) : response := no_snapshot.

(** One [list(set(l))] on strings: the distinct elements, from the last to
    the first. *)
Definition list_set (l : list value) : list value :=
  map VStr (reverse (remove_dups
                       (omap (fun v => match v with
                                       | VStr s => Some s
                                       | _ => None
                                       end) l))).

End PullerExamples.


(** ** The tickers looked up for the combined table
       ([DailyScriptPuller.get_polygon_data]) *)

Module PolygonData.

Import Py Filings.

(** [combined_df.empty] *)
Definition empty (combined_df : combined) : bool :=
  match combined_df with
  | Empty_frame | Finance_frame [] | Filing_frame [] | Merged_frame [] => true
  | _ => false
  end.

(** The [ticker] column of the frame, [None] when it has none.  The finance
    frame and the merged frame have one.  The frame of the filings has one
    when some record has a [ticker] field, and a record without the field
    has NaN there. *)
Definition ticker_column (combined_df : combined) : option (list value) :=
  match combined_df with
  | Empty_frame => None
  | Finance_frame yahoo_df => Some (map (fun r => VStr (ticker r)) yahoo_df)
  | Filing_frame sec_df =>
      if existsb (fun row => bool_decide (is_Some (PyDict.get (fields row)
                                                              "ticker")))
                 sec_df
      then Some (map (fun row => match PyDict.get (fields row) "ticker" with
                                 | Some v => v
                                 | None => VFloat PrimFloat.nan
                                 end) sec_df)
      else None
  | Merged_frame combined_df => Some (map key combined_df)
  end.

(** [.unique()] on values that can be hashed: the first occurrences, in
    order. *)
Fixpoint unique_from (seen : list value) (l : list value) : list value :=
  match l with
  | [] => []
  | x :: l' =>
      if existsb (key_same x) seen then unique_from seen l'
      else x :: unique_from (x :: seen) l'
  end.

Definition unique (l : list value) : list value := unique_from [] l.

(** [len(t)] on a string. *)
Definition len (s : string) : nat := length (SecSearch.chars s).

(** The body of the loop over the tickers. *)
Definition valid_step (acc : result (list string)) (t : value)
  : result (list string) :=
  valid_tickers ← acc;
  match t with
  | VStr s =>
      if truthy t && truthy (VStr (strip s)) then
        if negb (is_prefix "001-" s || is_prefix "000-" s
                 || (15 <? len s)%nat)
        then mret (valid_tickers ++ [strip s])
        else mret valid_tickers
      else mret valid_tickers
  | _ => if truthy t then Raise AttributeError else mret valid_tickers
  end.

(** The strings for which the body adds a ticker: not empty, not white
    space only, not beginning with [001-] or [000-], and of 15 characters
    at most. *)
Definition passes (s : string) : Prop :=
  s <> EmptyString
  /\ strip s <> EmptyString
  /\ is_prefix "001-" s = false
  /\ is_prefix "000-" s = false
  /\ len s <= 15.

(** [get_polygon_data] up to its requests: the list [valid_tickers] it hands
    to [process_tickers], the empty list when it returns before, or the
    exception that leaves it.  The key of the service is a constant that is
    not empty. *)
Definition valid_tickers (combined_df : combined) : result (list string) :=
  if empty combined_df then Ok []
  else
    match ticker_column combined_df with
    | None => Raise KeyError
    | Some column =>
        let present := filter (fun v => Puller.notna v = true) column in
        if forallb hashable present
        then fold_left valid_step (unique present) (Ok [])
        else Raise TypeError
    end.

End PolygonData.


(** ** The rolling table ([DailyScriptPuller.update_rolling_data],
       [load_existing_rolling_data]) *)

Module Rolling.

Import Combined.

(** A table: the frame with its [ticker] and [filedAt] columns, and whether
    it has a [polygon_list_date] column. *)
Record table : Type := mkTable {
  frame_of : frame;
  has_polygon_list_date : bool
}.

(** [pd.DataFrame()] *)
Definition empty_table : table := mkTable (mkFrame false false []) false.

(** [load_existing_rolling_data]: the table of [workingRolling.csv], the
    empty frame when the file does not exist, holds one byte at most or
    cannot be read. *)
Definition load_existing_rolling_data (file : option table) : table :=
  match file with
  | Some df => df
  | None => empty_table
  end.

(** [df.empty] *)
Definition is_empty (df : table) : bool :=
  match rows (frame_of df) with [] => true | _ => false end.

(** [set(df['ticker'].dropna().unique()) if 'ticker' in df.columns
     else set()] *)
Definition ticker_set (df : table) : gset string :=
  if has_ticker (frame_of df)
  then list_to_set (omap ticker (rows (frame_of df)))
  else ∅.

(** A row of [df] in a frame with more columns: the cells of the columns
    [df] does not have are missing. *)
Definition fill (df : table) (r : Row) : Row :=
  mkRow (if has_ticker (frame_of df) then ticker r else None)
        (if has_filedAt (frame_of df) then filedAt r else NaT)
        (other r).

(** [pd.concat([a, b], ignore_index=True)] *)
Definition concat (a b : table) : table :=
  mkTable
    (mkFrame (has_ticker (frame_of a) || has_ticker (frame_of b))
             (has_filedAt (frame_of a) || has_filedAt (frame_of b))
             (map (fill a) (rows (frame_of a))
              ++ map (fill b) (rows (frame_of b))))
    (has_polygon_list_date a || has_polygon_list_date b).

(** [df['ticker'].isin(tickers)] on one row. *)
Definition ticker_in (tickers : gset string) (r : Row) : bool :=
  match ticker r with
  | Some t => bool_decide (t ∈ tickers)
  | None => false
  end.

(** [df[df['ticker'].isin(tickers)]] *)
Definition isin (df : table) (tickers : gset string) : table :=
  mkTable
    (mkFrame (has_ticker (frame_of df)) (has_filedAt (frame_of df))
             (filter (fun r => ticker_in tickers r = true)
                     (rows (frame_of df))))
    (has_polygon_list_date df).

Section WithParsers.

Variable parse_datetime : list stamp -> string -> option Z.

(** The last step: the conversion of the [polygon_list_date] column and the
    sort on it, newest first.  The sort on one column does not say in which
    order it leaves rows with equal dates. *)
Variable by_list_date : list Row -> list Row.

(** The end of [update_rolling_data], from the de-duplication on. *)
Definition tidy (combined_df : table) : table :=
  let deduplicated := dedup parse_datetime (frame_of combined_df) in
  if has_polygon_list_date combined_df
  then mkTable (mkFrame (has_ticker deduplicated) (has_filedAt deduplicated)
                        (by_list_date (rows deduplicated)))
               true
  else mkTable deduplicated false.

(** [update_rolling_data] *)
Definition update_rolling_data (file : option table) (new_data : table)
  : table :=
  if is_empty new_data then load_existing_rolling_data file
  else
    let existing_df := load_existing_rolling_data file in
    if is_empty existing_df then new_data
    else
      let existing_tickers := ticker_set existing_df in
      let new_tickers := ticker_set new_data in
      let truly_new_tickers := new_tickers ∖ existing_tickers in
      let combined_df :=
        if bool_decide (truly_new_tickers ≠ ∅)
        then concat existing_df (isin new_data truly_new_tickers)
        else existing_df in
      tidy combined_df.

End WithParsers.

End Rolling.

(** ** Rolling tables *)

Module RollingExamples.

Import Combined CombinedExamples Rolling.

(** The table on file: the four filings of the example. *)
Definition on_file : table := mkTable filings false.

(** Today's data: a newer filing for [AAA], which is on file, and a filing
    for [CCC], which is not. *)
Definition aaa_apr : Row :=
  mkRow (Some "AAA") (Text "2024-04-01") [("formType", "S-1/A")].
Definition ccc_apr : Row :=
  mkRow (Some "CCC") (Text "2024-04-01") [("formType", "S-1")].

Definition today : table :=
  mkTable (mkFrame true true [aaa_apr; ccc_apr]) false.

(** Today's data without the filing for [CCC]. *)
Definition nothing_new : table := mkTable (mkFrame true true [aaa_apr]) false.

(** A [pd.to_datetime] that also knows the first of April. *)
Definition parse_datetime (column : list stamp) (s : string) : option Z :=
  if String.eqb s "2024-04-01" then Some 1711929600000000000%Z
  else CombinedExamples.parse_datetime column s.

End RollingExamples.


(* ================================================================== *)
(** * Properties *)
(* ================================================================== *)

Import Prices.

(** ** Python primitives *)

Lemma elem_of_range_down (start stop j : nat) :
  j ∈ Py.range_down start stop <-> stop < j /\ j <= start.
Proof.
  unfold Py.range_down. rewrite list_elem_of_In, <- in_rev, in_seq. lia.
Qed.

(** ** Dictionaries *)

Section DictFacts.

Context {V : Type}.

Lemma dict_get_set_eq (d : PyDict.t V) (k : string) (v : V) :
  PyDict.get (PyDict.set d k v) k = Some v.
Proof.
  induction d as [|[k' v'] d IH]; simpl.
  - by rewrite String.eqb_refl.
  - destruct (String.eqb k' k) eqn:E; simpl; rewrite E; [done | exact IH].
Qed.

Lemma dict_get_set_ne (d : PyDict.t V) (k k0 : string) (v : V) :
  k <> k0 -> PyDict.get (PyDict.set d k v) k0 = PyDict.get d k0.
Proof.
  intros Hne. induction d as [|[k' v'] d IH]; simpl.
  - destruct (String.eqb_spec k k0); [done | reflexivity].
  - destruct (String.eqb_spec k' k) as [->|Hk]; simpl.
    + destruct (String.eqb_spec k k0); [done | reflexivity].
    + destruct (String.eqb_spec k' k0); [reflexivity | exact IH].
Qed.

End DictFacts.

(** ** The daily roll *)

Section RollFacts.

Implicit Types (df pre post : list Row) (row r : Row) (p v : float)
  (c : column).

Lemma df_at_set_middle pre r post c v :
  df_at_set (pre ++ r :: post) (length pre) c v
  = pre ++ set_cell c v r :: post.
Proof.
  unfold df_at_set. induction pre as [|x pre IH]; simpl; [done|].
  f_equal. exact IH.
Qed.

Lemma fold_df_at_set_middle (ks : list nat) (val : nat -> float) pre r post :
  fold_left (fun df i => df_at_set df (length pre) (DaysAgo_col i) (val i))
            ks (pre ++ r :: post)
  = pre ++ fold_left (fun r i => set_cell (DaysAgo_col i) (val i) r) ks r
        :: post.
Proof.
  revert r. induction ks as [|i ks IH]; intros r; simpl; [done|].
  by rewrite df_at_set_middle, IH.
Qed.

(** On the frame, the writes of one iteration replace the row at [index] by
    [roll_row row p] and touch nothing else. *)
Lemma roll_at_middle pre row post p :
  roll_at (pre ++ row :: post) (length pre) row p
  = pre ++ roll_row row p :: post.
Proof.
  unfold roll_at, roll_row.
  rewrite fold_df_at_set_middle.
  by rewrite !df_at_set_middle.
Qed.

Lemma roll_loop_from (d : PyDict.t float) pre l :
  fold_left
    (fun df' '(index, row) =>
       match PyDict.get d (ticker row) with
       | Some current_price => roll_at df' index row current_price
       | None => df'
       end)
    (Py.enumerate_from (length pre) l) (pre ++ l)
  = pre ++ map (roll_or_keep d) l.
Proof.
  revert pre. induction l as [|row l IH]; intros pre; simpl; [done|].
  unfold roll_or_keep at 1.
  destruct (PyDict.get d (ticker row)) as [p|].
  - rewrite roll_at_middle.
    specialize (IH (pre ++ [roll_row row p])).
    rewrite length_app in IH. simpl in IH.
    replace (length pre + 1) with (S (length pre)) in IH by lia.
    rewrite <- !app_assoc in IH. exact IH.
  - specialize (IH (pre ++ [row])).
    rewrite length_app in IH. simpl in IH.
    replace (length pre + 1) with (S (length pre)) in IH by lia.
    rewrite <- !app_assoc in IH. exact IH.
Qed.

(** The loop is a row-wise map: every row is rolled with its own fetched
    price or kept. *)
Lemma roll_loop_map (d : PyDict.t float) df :
  roll_loop d df = map (roll_or_keep d) df.
Proof. exact (roll_loop_from d [] df). Qed.

Lemma set_cell_slot c v r (j : nat) :
  DaysAgo_price (set_cell c v r) j
  = match c with
    | DaysAgo_col i => if Nat.eqb j i then v else DaysAgo_price r j
    | _ => DaysAgo_price r j
    end.
Proof. by destruct c. Qed.

Lemma shift_fold_slot (ks : list nat) (val : nat -> float) r (j : nat) :
  DaysAgo_price
    (fold_left (fun r i => set_cell (DaysAgo_col i) (val i) r) ks r) j
  = if decide (j ∈ ks) then val j else DaysAgo_price r j.
Proof.
  revert r. induction ks as [|i ks IH]; intros r; simpl.
  - destruct (decide (j ∈ [])) as [H|_]; [by apply elem_of_nil in H | done].
  - rewrite IH. simpl.
    destruct (decide (j ∈ ks)) as [Hin|Hnin].
    + rewrite decide_True; [done | by right].
    + destruct (Nat.eqb_spec j i) as [->|Hne].
      * rewrite decide_True; [done | by left].
      * rewrite decide_False; [done|].
        intros [?|?]%elem_of_cons; done.
Qed.

Lemma roll_row_ticker row p : ticker (roll_row row p) = ticker row.
Proof. reflexivity. Qed.

Lemma roll_row_Today row p : Today_price (roll_row row p) = p.
Proof. reflexivity. Qed.

Lemma roll_row_1DaysAgo row p :
  DaysAgo_price (roll_row row p) 1 = Today_price row.
Proof. reflexivity. Qed.

(** The left shift: every older slot takes the value of the slot one day
    more recent. *)
Lemma roll_row_shift row p (j : nat) :
  2 <= j <= 31 ->
  DaysAgo_price (roll_row row p) j = DaysAgo_price row (j - 1).
Proof.
  intros Hj. unfold roll_row.
  rewrite !set_cell_slot. lazy beta iota.
  destruct (Nat.eqb_spec j 1) as [->|_]; [lia|].
  rewrite (shift_fold_slot _ (fun i => cell row (DaysAgo_col (i - 1)))).
  rewrite decide_True; [done|].
  apply elem_of_range_down. lia.
Qed.

Lemma roll_row_Day_move row p :
  Day_move (roll_row row p) = move p (Today_price row).
Proof. reflexivity. Qed.

Lemma roll_row_Week_move row p :
  Week_move (roll_row row p) = move p (DaysAgo_price row 7).
Proof. reflexivity. Qed.

Lemma roll_row_Month_move row p :
  Month_move (roll_row row p) = move p (DaysAgo_price row 30).
Proof. reflexivity. Qed.

Lemma roll_or_keep_ticker (d : PyDict.t float) row :
  ticker (roll_or_keep d row) = ticker row.
Proof.
  unfold roll_or_keep. destruct (PyDict.get d (ticker row)); [|done].
  apply roll_row_ticker.
Qed.

Lemma roll_loop_tickers (d : PyDict.t float) df :
  map ticker (roll_loop d df) = map ticker df.
Proof.
  rewrite roll_loop_map, map_map.
  apply map_ext. intros row. apply roll_or_keep_ticker.
Qed.

Lemma roll_loop_lookup (d : PyDict.t float) df (i : nat) :
  roll_loop d df !! i = roll_or_keep d <$> df !! i.
Proof. rewrite roll_loop_map. apply list_lookup_fmap. Qed.

End RollFacts.

(** ** One batch of fetches *)

Section FetchFacts.

Implicit Types (f : fetcher) (d : PyDict.t float) (t : string).

Lemma fetch_from_Raise f (its : list (nat * string)) (e : Py.exn) :
  fold_left (fetch_step f) its (Py.Raise e) = Py.Raise e.
Proof. induction its as [|it its IH]; simpl; [done | exact IH]. Qed.

(** In a batch that returns, a ticker gets no entry exactly when it had
    none before and every call made for it failed. *)
Lemma fetch_from_None f (k : nat) (l : list string) d d' t :
  fold_left (fetch_step f) (Py.enumerate_from k l) (Py.Ok d) = Py.Ok d' ->
  PyDict.get d' t = None
  <-> PyDict.get d t = None
      /\ forall i, l !! i = Some t -> f (k + i) t = Py.Ok None.
Proof.
  revert k d. induction l as [|x l IH]; intros k d; cbn [Py.enumerate_from fold_left].
  - intros [= ->]. split; [intros H; split; [done | intros i Hi; done] | by intros [H _]].
  - unfold fetch_step at 2. simpl.
    destruct (f k x) as [[px|]|e] eqn:Efx; simpl.
    + intros Hfold. rewrite (IH _ _ Hfold). split.
      * intros [Hd Hl]. destruct (decide (x = t)) as [->|Hne].
        { by rewrite dict_get_set_eq in Hd. }
        rewrite dict_get_set_ne in Hd by done. split; [done|].
        intros [|i] Hi; simpl in Hi; [congruence|].
        replace (k + S i) with (S k + i) by lia. by apply Hl.
      * intros [Hd Hl]. split.
        { destruct (decide (x = t)) as [->|Hne].
          - specialize (Hl 0 eq_refl). replace (k + 0) with k in Hl by lia.
            congruence.
          - by rewrite dict_get_set_ne. }
        intros i Hi. specialize (Hl (S i) Hi).
        by replace (k + S i) with (S k + i) in Hl by lia.
    + intros Hfold. rewrite (IH _ _ Hfold). split.
      * intros [Hd Hl]. split; [done|]. intros [|i] Hi; simpl in Hi.
        { replace (k + 0) with k by lia. congruence. }
        replace (k + S i) with (S k + i) by lia. by apply Hl.
      * intros [Hd Hl]. split; [done|].
        intros i Hi. specialize (Hl (S i) Hi).
        by replace (k + S i) with (S k + i) in Hl by lia.
    + by rewrite fetch_from_Raise.
Qed.

Lemma fetch_prices_None f tickers d t :
  fetch_prices_for_tickers f tickers = Py.Ok d ->
  PyDict.get d t = None
  <-> forall i, tickers !! i = Some t -> f i t = Py.Ok None.
Proof.
  unfold fetch_prices_for_tickers, Py.enumerate. intros Hfold.
  rewrite (fetch_from_None _ _ _ _ _ _ Hfold). simpl.
  split; [by intros [_ H] | by intros H].
Qed.

End FetchFacts.

(** ** Claims about the daily roll *)

Section RollClaims.

Implicit Types (df : list Row) (f : fetcher) (r : Row) (p : float)
  (d : PyDict.t float).

(** Rolling a row twice, with [p1] and then [p2]. *)
Lemma roll_row_twice r (p1 p2 : float) :
  let r2 := roll_row (roll_row r p1) p2 in
  ticker r2 = ticker r
  /\ DaysAgo_price r2 2 = Today_price r
  /\ DaysAgo_price r2 1 = p1
  /\ Today_price r2 = p2.
Proof. repeat split. Qed.

(** C1.  Two daily rolls in sequence, the first batch holding the fetched
    price [p1] for the ticker of a row and the second batch [p2]: the row is
    still at its position, its [2DaysAgo_price] is the initial
    [Today_price], its [1DaysAgo_price] is [p1] and its [Today_price] is
    [p2]. *)
Theorem roll_twice_shifts df (f1 f2 : fetcher) (d1 d2 : PyDict.t float)
    (i : nat) r (p1 p2 : float) :
  df !! i = Some r ->
  fetch_prices_for_tickers f1 (map ticker df) = Py.Ok d1 ->
  PyDict.get d1 (ticker r) = Some p1 ->
  fetch_prices_for_tickers f2 (map ticker df) = Py.Ok d2 ->
  PyDict.get d2 (ticker r) = Some p2 ->
  exists df2 r2,
    file_after
      (roll_prices_for_existing_tickers
         (file_after (roll_prices_for_existing_tickers (Some df) f1)) f2)
    = Some df2
    /\ df2 !! i = Some r2
    /\ ticker r2 = ticker r
    /\ DaysAgo_price r2 2 = Today_price r
    /\ DaysAgo_price r2 1 = p1
    /\ Today_price r2 = p2.
Proof.
  intros Hi Hf1 H1 Hf2 H2. simpl. rewrite Hf1. simpl.
  rewrite roll_loop_tickers, Hf2. simpl.
  eexists _, (roll_row (roll_row r p1) p2). split; [reflexivity|].
  split; [|apply roll_row_twice].
  rewrite !roll_loop_lookup, Hi. simpl.
  unfold roll_or_keep at 2. rewrite H1.
  unfold roll_or_keep. rewrite roll_row_ticker, H2. reflexivity.
Qed.

Lemma roll_twice_shifts_witness :
  exists df2 r2,
    file_after
      (roll_prices_for_existing_tickers
         (file_after
            (roll_prices_for_existing_tickers
               (Some [Examples.aaa; Examples.bbb])
               (Examples.always 23%float)))
         (Examples.only "AAA" 25%float))
    = Some df2
    /\ df2 !! 0 = Some r2
    /\ ticker r2 = "AAA"
    /\ DaysAgo_price r2 2 = 22%float
    /\ DaysAgo_price r2 1 = 23%float
    /\ Today_price r2 = 25%float.
Proof.
  apply (roll_twice_shifts [Examples.aaa; Examples.bbb]
           (Examples.always 23%float) (Examples.only "AAA" 25%float)
           [("AAA", 23%float); ("BBB", 23%float)] [("AAA", 25%float)]
           0 Examples.aaa 23%float 25%float); reflexivity.
Defined.

(** A row whose ticker has no entry in the batch is left as it is. *)
Lemma roll_loop_keeps_absent d df (i : nat) r :
  df !! i = Some r ->
  PyDict.get d (ticker r) = None ->
  roll_loop d df !! i = Some r.
Proof.
  intros Hi Hd. rewrite roll_loop_lookup, Hi. simpl.
  unfold roll_or_keep. by rewrite Hd.
Qed.

(** C4.  A row whose ticker got no fresh price in the batch -- every call
    made for it failed -- is the same row after the roll: all 31 lagged
    cells, [Today_price] and the three moves keep their values. *)
Theorem roll_keeps_unfetched_rows df f (i : nat) r :
  df !! i = Some r ->
  (forall k, map ticker df !! k = Some (ticker r) ->
             f k (ticker r) = Py.Ok None) ->
  exists df',
    file_after (roll_prices_for_existing_tickers (Some df) f) = Some df'
    /\ df' !! i = Some r.
Proof.
  intros Hi Hfail. simpl.
  destruct (fetch_prices_for_tickers f (map ticker df)) as [d|e] eqn:Ef;
    simpl.
  - eexists. split; [reflexivity|].
    apply roll_loop_keeps_absent; [done|].
    by apply (fetch_prices_None _ _ _ _ Ef).
  - by exists df.
Qed.

Lemma roll_keeps_unfetched_rows_witness :
  exists df',
    file_after
      (roll_prices_for_existing_tickers
         (Some [Examples.aaa; Examples.bbb]) (Examples.only "AAA" 25%float))
    = Some df'
    /\ df' !! 1 = Some Examples.bbb.
Proof.
  apply (roll_keeps_unfetched_rows [Examples.aaa; Examples.bbb]
           (Examples.only "AAA" 25%float) 1 Examples.bbb).
  - reflexivity.
  - intros k _. reflexivity.
Defined.

(** A roll that a fetch interrupts writes nothing. *)
Lemma roll_interrupted df f (e : Py.exn) :
  fetch_prices_for_tickers f (map ticker df) = Py.Raise e ->
  roll_prices_for_existing_tickers (Some df) f = mkRun (Some df) (Some e).
Proof. intros Hf. simpl. by rewrite Hf. Qed.

(** The fetch for the first ticker succeeds, the one for the second raises:
    the first row is not rolled either. *)
Lemma roll_interrupted_example :
  roll_prices_for_existing_tickers
    (Some [Examples.aaa; Examples.bbb])
    (Examples.only_or_raise "AAA" 25%float)
  = mkRun (Some [Examples.aaa; Examples.bbb]) (Some Py.TypeError).
Proof. reflexivity. Qed.

(** C10.  The roll keeps the rows of the table: the same tickers, in the
    same order and number, whatever the fetches answer; a missing file
    stays missing. *)
Theorem roll_preserves_tickers (file : csv_file) f :
  map ticker <$> file_after (roll_prices_for_existing_tickers file f)
    = map ticker <$> file
  /\ length <$> file_after (roll_prices_for_existing_tickers file f)
     = length <$> file
  /\ load_existing_tickers
       (file_after (roll_prices_for_existing_tickers file f))
     = load_existing_tickers file.
Proof.
  destruct file as [df|]; simpl; [|done].
  destruct (fetch_prices_for_tickers f (map ticker df)) as [d|e]; simpl;
    [|done].
  rewrite roll_loop_tickers. repeat split.
  by rewrite roll_loop_map, length_map.
Qed.

End RollClaims.

(** ** Claims about the moves *)

Section MoveClaims.

Implicit Types (r : Row) (p : float).

(** [Day_move] is taken against the cell that is [1DaysAgo_price] after the
    roll. *)
Lemma day_move_baseline r p :
  Day_move (roll_row r p)
  = move (Today_price (roll_row r p)) (DaysAgo_price (roll_row r p) 1).
Proof. reflexivity. Qed.

(** [Week_move] is taken against the cell that is [8DaysAgo_price] after the
    roll: the code reads [row['7DaysAgo_price']] before the shift. *)
Lemma week_move_baseline r p :
  Week_move (roll_row r p)
  = move (Today_price (roll_row r p)) (DaysAgo_price (roll_row r p) 8).
Proof. reflexivity. Qed.

(** [Month_move] is taken against the cell that is [31DaysAgo_price] after
    the roll. *)
Lemma month_move_baseline r p :
  Month_move (roll_row r p)
  = move (Today_price (roll_row r p)) (DaysAgo_price (roll_row r p) 31).
Proof. reflexivity. Qed.

Lemma float_neq (x y : float) : Prim2SF x <> Prim2SF y -> x <> y.
Proof. intros H ->. by apply H. Qed.

(** C2, at a failing input.  The store holds one row with
    [6DaysAgo_price = 20], [7DaysAgo_price = 10], [Today_price = 22]; the
    fetched price is 25.  After the roll [7DaysAgo_price] is 20 (present and
    non-zero) and [Today_price] is 25, yet [Week_move] is 15, not
    [25 - 20 = 5]; [Day_move] is [Today_price - 1DaysAgo_price = 3]. *)
Theorem week_move_off_by_one :
  exists r',
    file_after
      (roll_prices_for_existing_tickers
         (Some [Examples.aaa]) (Examples.always 25%float)) = Some [r']
    /\ DaysAgo_price r' 7 = 20%float
    /\ Today_price r' = 25%float
    /\ Week_move r' = 15%float
    /\ move (Today_price r') (DaysAgo_price r' 7) = 5%float
    /\ Week_move r' <> move (Today_price r') (DaysAgo_price r' 7)
    /\ DaysAgo_price r' 1 = 22%float
    /\ Day_move r' = 3%float.
Proof.
  exists (roll_row Examples.aaa 25%float).
  repeat split; try reflexivity.
  apply float_neq. vm_compute. discriminate.
Qed.

(** The same slip on the month: with [29DaysAgo_price = 8] and
    [30DaysAgo_price = 5] before the roll and a fetched price of 10,
    [30DaysAgo_price] is 8 afterwards and [Month_move] is 5, not 2. *)
Lemma month_move_off_by_one :
  let r' := roll_row Examples.mmm 10%float in
  DaysAgo_price r' 30 = 8%float
  /\ Month_move r' = 5%float
  /\ move (Today_price r') (DaysAgo_price r' 30) = 2%float.
Proof. repeat split. Qed.

(** A fresh row rolled once has no 7-day baseline after the roll, and the
    guard gives [Week_move = 0]; the first day's [Day_move] is a real
    delta. *)
Lemma first_roll_example :
  let r' := roll_row (row_data "XYZ" 12.5%float) 13%float in
  DaysAgo_price r' 1 = 12.5%float /\ Today_price r' = 13%float
  /\ Day_move r' = 0.5%float /\ Week_move r' = 0%float
  /\ Month_move r' = 0%float.
Proof. repeat split. Qed.

End MoveClaims.

(** ** Claims about appending new tickers *)

Section AppendClaims.

Implicit Types (file : csv_file) (f : fetcher) (t : string) (p : float).

(** What [update_csv_with_new_tickers] does is unconditional: one fresh row
    per entry of the batch, after the rows on file. *)
Lemma update_csv_rows file (ticker_prices : PyDict.t float) :
  update_csv_with_new_tickers file ticker_prices
  = Some (default [] file
          ++ map (fun kv => row_data kv.1 kv.2) ticker_prices).
Proof.
  unfold update_csv_with_new_tickers, PyDict.items.
  rewrite (map_ext (fun '(ticker, price) => row_data ticker price)
                   (fun kv => row_data kv.1 kv.2)) by (by intros [k v]).
  by destruct file.
Qed.

(** The loop that removes repeated tickers only ever yields tickers of its
    input. *)
Lemma unique_loop_subset (l : list string) (seen : gset string)
    (acc : list string) t :
  t ∈ (fold_left unique_step l (seen, acc)).2 -> t ∈ acc \/ t ∈ l.
Proof.
  revert seen acc. induction l as [|x l IH]; intros seen acc; simpl.
  - by left.
  - case_bool_decide; intros Hin; apply IH in Hin as [Hin|Hin].
    + by left.
    + right. by right.
    + apply elem_of_app in Hin as [Hin|Hin]; [by left|].
      apply list_elem_of_singleton in Hin as ->. right. by left.
    + right. by right.
Qed.

(** Discovery never proposes a ticker that is on file. *)
Lemma new_tickers_not_on_file file working (limit : option nat) t :
  t ∈ get_new_tickers_from_working_rolling file working limit ->
  t ∉ load_existing_tickers file.
Proof.
  unfold get_new_tickers_from_working_rolling.
  destruct working as [col|]; [|by intros H%elem_of_nil].
  intros Hin.
  assert (Hu : t ∈ (fold_left unique_step
                      (filter (fun ticker =>
                                 ticker ∉ (list_to_set
                                   (load_existing_tickers file)
                                   : gset string))
                              (omap id col)) (∅, [])).2).
  { destruct limit as [[|n]|]; [done| |done].
    eapply subseteq_take, Hin. }
  apply unique_loop_subset in Hu as [Hu|Hu]; [by apply elem_of_nil in Hu|].
  apply list_elem_of_filter in Hu as [Hu _].
  by rewrite elem_of_list_to_set in Hu.
Qed.

(** When every ticker the feed offers is on file, nothing is discovered. *)
Lemma nothing_new file (col : list (option string)) (limit : option nat) :
  (forall t, Some t ∈ col -> t ∈ load_existing_tickers file) ->
  get_new_tickers_from_working_rolling file (Some col) limit = [].
Proof.
  intros Hall.
  destruct (get_new_tickers_from_working_rolling file (Some col) limit)
    as [|t l] eqn:E; [done|].
  assert (Hin : t ∈ get_new_tickers_from_working_rolling
                      file (Some col) limit) by (rewrite E; by left).
  pose proof (new_tickers_not_on_file _ _ _ _ Hin) as Hnot.
  exfalso. apply Hnot, Hall.
  revert Hin. unfold get_new_tickers_from_working_rolling. intros Hin.
  assert (Hu : t ∈ (fold_left unique_step
                      (filter (fun ticker =>
                                 ticker ∉ (list_to_set
                                   (load_existing_tickers file)
                                   : gset string))
                              (omap id col)) (∅, [])).2).
  { destruct limit as [[|n]|]; [done| |done].
    eapply subseteq_take, Hin. }
  apply unique_loop_subset in Hu as [Hu|Hu]; [by apply elem_of_nil in Hu|].
  apply list_elem_of_filter in Hu as [_ Hu].
  apply list_elem_of_omap in Hu as (o & Ho & Hid). simpl in Hid.
  by subst o.
Qed.

(** The append stage on a day when the feed offers only tickers on file
    leaves the file as it is. *)
Lemma append_stage_nothing_new file (col : list (option string)) f
    (test_mode : bool) (test_limit : nat) :
  (forall t, Some t ∈ col -> t ∈ load_existing_tickers file) ->
  append_stage file (Some col) f test_mode test_limit = mkRun file None.
Proof.
  intros Hall. unfold append_stage.
  destruct test_mode; by rewrite nothing_new.
Qed.

(** Every key of a batch that returned is one of the requested tickers. *)
Lemma fetch_prices_keys f (tickers : list string) (d : PyDict.t float)
    (k : string) (v : float) :
  fetch_prices_for_tickers f tickers = Py.Ok d ->
  (k, v) ∈ d -> k ∈ tickers.
Proof.
  intros Hf Hkv.
  destruct (decide (k ∈ tickers)) as [|Hk]; [done|]. exfalso.
  assert (Hnone : PyDict.get d k = None).
  { apply (fetch_prices_None _ _ _ _ Hf). intros i Hi.
    exfalso. apply Hk. eapply list_elem_of_lookup_2, Hi. }
  clear Hf. induction d as [|[k' v'] d IH]; simpl in *.
  - by apply elem_of_nil in Hkv.
  - apply elem_of_cons in Hkv as [Heq|Hin].
    + injection Heq as -> ->. by rewrite String.eqb_refl in Hnone.
    + destruct (String.eqb k' k); [done | by apply IH].
Qed.

(** The append stage never touches a row on file and never appends a row
    for a ticker on file. *)
Lemma append_stage_extends file working f (test_mode : bool)
    (test_limit : nat) :
  file_after (append_stage file working f test_mode test_limit) = file
  \/ exists new_rows,
       file_after (append_stage file working f test_mode test_limit)
       = Some (default [] file ++ new_rows)
       /\ Forall (fun r => ticker r ∉ load_existing_tickers file) new_rows.
Proof.
  unfold append_stage.
  set (new_tickers :=
         if test_mode
         then get_new_tickers_from_working_rolling file working
                (Some test_limit)
         else get_new_tickers_from_working_rolling file working None).
  assert (Hnew : forall t, t ∈ new_tickers ->
                           t ∉ load_existing_tickers file).
  { intros t. subst new_tickers.
    destruct test_mode; apply new_tickers_not_on_file. }
  destruct (Py.truthy new_tickers); [|by left].
  destruct (fetch_prices_for_tickers f new_tickers) as [d|e] eqn:Ef;
    [|by left].
  destruct (Py.truthy d); [|by left].
  right. eexists. split; [apply update_csv_rows|].
  apply Forall_forall. intros r Hr.
  apply list_elem_of_fmap in Hr as ([k v] & -> & Hkv). simpl.
  apply Hnew. by eapply fetch_prices_keys.
Qed.

End AppendClaims.

Section AppendTicker.

Implicit Types (file : csv_file) (t : string) (p : float).

Lemma discover_single_new file t (limit : option nat) :
  t ∉ load_existing_tickers file ->
  get_new_tickers_from_working_rolling file (Some [Some t]) limit = [t].
Proof.
  intros Hnew. unfold get_new_tickers_from_working_rolling. simpl.
  rewrite filter_cons_True by (by rewrite elem_of_list_to_set).
  rewrite filter_nil. simpl.
  rewrite bool_decide_eq_false_2 by apply not_elem_of_empty. simpl.
  destruct limit as [[|n]|]; [done| |done]. by rewrite take_nil.
Qed.

(** The method that writes the rows does not look at the file: handed a
    ticker that is on file it adds a second row for it.  The guard is in
    discovery. *)
Lemma update_csv_does_not_check :
  update_csv_with_new_tickers
    (Some [Examples.aaa]) (PyDict.set PyDict.empty "AAA" 99%float)
  = Some [Examples.aaa; row_data "AAA" 99%float].
Proof. reflexivity. Qed.

(** C3.  Appending a ticker that is on file, whatever the price, leaves the
    store as it was: discovery filters the ticker out, no fetch is made and
    nothing is written. *)
Theorem append_present_ticker_noop file t p (test_mode : bool)
    (test_limit : nat) :
  t ∈ load_existing_tickers file ->
  Append.append_ticker file t p test_mode test_limit = mkRun file None.
Proof.
  intros Hin. unfold Append.append_ticker.
  apply append_stage_nothing_new.
  intros t' Ht'. apply list_elem_of_singleton in Ht'. by injection Ht' as ->.
Qed.

Lemma append_present_ticker_noop_witness :
  Append.append_ticker (Some [Examples.aaa; Examples.bbb]) "AAA" 99%float
                       false 100
  = mkRun (Some [Examples.aaa; Examples.bbb]) None.
Proof.
  apply (append_present_ticker_noop
           (Some [Examples.aaa; Examples.bbb]) "AAA" 99%float false 100).
  apply (bool_decide_unpack _). reflexivity.
Defined.

(** C5.  Appending a ticker that is not on file adds exactly one row, after
    the rows on file: all 31 lagged cells empty, [Today_price] the fetched
    price, and the three moves 0. *)
Theorem append_new_ticker_row file t p (test_mode : bool) (test_limit : nat) :
  t ∉ load_existing_tickers file ->
  exists r,
    Append.append_ticker file t p test_mode test_limit
    = mkRun (Some (default [] file ++ [r])) None
    /\ ticker r = t
    /\ (forall i, 1 <= i <= 31 -> DaysAgo_price r i = PrimFloat.nan)
    /\ Today_price r = p
    /\ Day_move r = 0%float
    /\ Week_move r = 0%float
    /\ Month_move r = 0%float.
Proof.
  intros Hnew. exists (row_data t p).
  split; [|by repeat split].
  unfold Append.append_ticker, append_stage.
  assert (Hd : forall limit,
             get_new_tickers_from_working_rolling file (Some [Some t]) limit
             = [t]) by (intros; by apply discover_single_new).
  destruct test_mode; rewrite Hd; simpl; by destruct file.
Qed.

Lemma append_new_ticker_row_witness :
  exists r,
    Append.append_ticker (Some [Examples.aaa]) "XYZ" 12.5%float false 100
    = mkRun (Some ([Examples.aaa] ++ [r])) None
    /\ ticker r = "XYZ"
    /\ (forall i, 1 <= i <= 31 -> DaysAgo_price r i = PrimFloat.nan)
    /\ Today_price r = 12.5%float
    /\ Day_move r = 0%float
    /\ Week_move r = 0%float
    /\ Month_move r = 0%float.
Proof.
  apply (append_new_ticker_row (Some [Examples.aaa]) "XYZ" 12.5%float
                               false 100).
  apply (bool_decide_unpack _). reflexivity.
Defined.

(** On an empty store the appended row is the only one. *)
Lemma append_to_missing_file :
  Append.append_ticker None "XYZ" 12.5%float false 100
  = mkRun (Some [row_data "XYZ" 12.5%float]) None.
Proof. reflexivity. Qed.

End AppendTicker.

(** ** Whole runs *)

Section DailyRun.

(** Two days on an empty store.  On the first day the feed offers [XYZ] and
    the fetch answers 12.50: the row is appended and, no ticker having been
    on file when the run began, nothing is rolled.  On the second day the
    fetch answers 13.00: the row is rolled. *)
Lemma two_days_example :
  let day1 :=
    run_daily_update None (Some [Some "XYZ"])
      (Examples.always 12.5%float) (Examples.always 12.5%float) false 100 in
  let day2 :=
    run_daily_update (file_after day1) (Some [Some "XYZ"])
      (Examples.always 13%float) (Examples.always 13%float) false 100 in
  day1 = mkRun (Some [row_data "XYZ" 12.5%float]) None
  /\ exists r,
       day2 = mkRun (Some [r]) None
       /\ ticker r = "XYZ"
       /\ DaysAgo_price r 1 = 12.5%float
       /\ Today_price r = 13%float
       /\ Day_move r = 0.5%float
       /\ Week_move r = 0%float
       /\ Month_move r = 0%float.
Proof. split; [reflexivity|]. eexists. repeat split. Qed.

(** On a store that is not empty the roll reads the file the append stage
    wrote: a ticker appended in a run is rolled in the same run, its
    [1DaysAgo_price] taking the price of the append. *)
Lemma appended_ticker_rolled_same_run :
  exists r1 r2,
    run_daily_update (Some [Examples.bbb]) (Some [Some "XYZ"])
      (Examples.always 12.5%float) (Examples.always 13%float) false 100
    = mkRun (Some [r1; r2]) None
    /\ ticker r1 = "BBB" /\ ticker r2 = "XYZ"
    /\ DaysAgo_price r2 1 = 12.5%float
    /\ Today_price r2 = 13%float
    /\ Day_move r2 = 0.5%float.
Proof. eexists _, _. repeat split. Qed.

End DailyRun.

(** ** Claims about the price fetch *)

Section FetcherClaims.

Import Py Fetcher.

Variable float_of_str : string -> option float.

(** Every path through the [try] statement ends in a [return] or lets an
    exception through: no iteration hands over to a next one. *)
Lemma loop_body_never_next (resp : response) :
  loop_body float_of_str resp <> Next.
Proof.
  unfold loop_body.
  destruct (try_block float_of_str resp) as [price|[]]; discriminate.
Qed.

Lemma retry_loop_one_request (upstream : nat -> response)
    (attempt remaining : nat) :
  requests (retry_loop float_of_str upstream attempt (S remaining))
  = S attempt.
Proof.
  simpl.
  pose proof (loop_body_never_next (upstream attempt)) as Hnext.
  by destruct (loop_body float_of_str (upstream attempt)).
Qed.

(** Whatever [max_retries] allows, the fetch sends one request: the answer
    to the first one decides. *)
Lemma get_ticker_price_one_request (upstream : nat -> response)
    (max_retries : nat) :
  requests (get_ticker_price float_of_str upstream (S max_retries)) = 1.
Proof. apply retry_loop_one_request. Qed.

Lemma get_ticker_price_first_answer (upstream : nat -> response)
    (max_retries : nat) :
  get_ticker_price float_of_str upstream (S max_retries)
  = get_ticker_price float_of_str upstream 1.
Proof.
  unfold get_ticker_price. simpl.
  pose proof (loop_body_never_next (upstream 0)) as Hnext.
  by destruct (loop_body float_of_str (upstream 0)).
Qed.

(** A network-level failure of the first request is answered with [None]
    at once. *)
Lemma connection_failure_returns_None (upstream : nat -> response)
    (max_retries : nat) :
  upstream 0 = ConnectionFailed ->
  get_ticker_price float_of_str upstream (S max_retries)
  = mkOutcome (Ok None) 1.
Proof. intros H. unfold get_ticker_price. simpl. by rewrite H. Qed.

(** An HTTP 404 gives [None]. *)
Lemma not_found_returns_None (upstream : nat -> response)
    (body : option value) (max_retries : nat) :
  upstream 0 = Response 404 body ->
  get_ticker_price float_of_str upstream (S max_retries)
  = mkOutcome (Ok None) 1.
Proof. intros H. unfold get_ticker_price. simpl. by rewrite H. Qed.

(** A well-formed snapshot gives the closing price of the minute bar. *)
Lemma snapshot_returns_close (upstream : nat -> response) (x : float)
    (max_retries : nat) :
  upstream 0 = Response 200 (Some (snapshot "min" (VFloat x))) ->
  get_ticker_price float_of_str upstream (S max_retries)
  = mkOutcome (Ok (Some x)) 1.
Proof. intros H. unfold get_ticker_price. simpl. by rewrite H. Qed.

End FetcherClaims.

(** C9, at a failing input.  The first request fails at the network level
    and a second one would be answered with a closing price of 10.  With
    [max_retries = 2] the fetch returns [None] after a single request: the
    handler returns instead of leaving the retry to the loop. *)
Theorem get_ticker_price_gives_up_early :
  Fetcher.get_ticker_price Fetcher.no_strtod Fetcher.flaky_upstream 2
  = Fetcher.mkOutcome (Py.Ok None) 1
  /\ Fetcher.loop_body Fetcher.no_strtod (Fetcher.flaky_upstream 1)
     = Fetcher.Returns (Some 10%float).
Proof. split; reflexivity. Qed.

(** Seen from the daily roll: with an upstream whose every first request
    fails, no price is fetched and the table is written back as it was,
    although every second request would have been answered. *)
Lemma flaky_batch_rolls_nothing :
  Prices.roll_prices_for_existing_tickers
    (Some [Examples.aaa; Examples.bbb])
    (Fetcher.polygon_fetcher Fetcher.no_strtod Fetcher.flaky_batch)
  = Prices.mkRun (Some [Examples.aaa; Examples.bbb]) None.
Proof. reflexivity. Qed.

(** A body of the expected shape whose closing price is [null] is not
    answered with [None]: [float(None)] raises a [TypeError] that neither
    handler catches. *)
Lemma null_close_raises :
  Fetcher.get_ticker_price Fetcher.no_strtod
    (fun _ => Fetcher.Response 200 (Some (Fetcher.snapshot "min" Py.VNone)))
    2
  = Fetcher.mkOutcome (Py.Raise Py.TypeError) 1.
Proof. reflexivity. Qed.

(** ** The key order of the combined table *)

Section KeyOrder.

Import Combined.

Lemma string_compare_refl (s : string) : String.compare s s = Eq.
Proof.
  pose proof (String.compare_antisym s s) as H.
  destruct (String.compare s s); simpl in H; congruence.
Qed.

Lemma string_compare_lt_trans (a b c : string) :
  String.compare a b = Lt -> String.compare b c = Lt ->
  String.compare a c = Lt.
Proof.
  intros Hab Hbc.
  apply OrderedTypeEx.String_as_OT.cmp_lt.
  eapply OrderedTypeEx.String_as_OT.lt_trans;
    apply OrderedTypeEx.String_as_OT.cmp_lt; eassumption.
Qed.

Lemma ticker_cmp_antisym (a b : option string) :
  ticker_cmp a b = CompOpp (ticker_cmp b a).
Proof.
  destruct a as [x|], b as [y|]; simpl; try done.
  apply String.compare_antisym.
Qed.

Lemma ticker_cmp_eq (a b : option string) :
  ticker_cmp a b = Eq <-> a = b.
Proof.
  destruct a as [x|], b as [y|]; simpl; split; try done.
  - by intros ->%String.compare_eq_iff.
  - intros [= ->]. apply string_compare_refl.
Qed.

Lemma ticker_cmp_lt_trans (a b c : option string) :
  ticker_cmp a b = Lt -> ticker_cmp b c = Lt -> ticker_cmp a c = Lt.
Proof.
  destruct a as [x|], b as [y|], c as [z|]; simpl; try done.
  apply string_compare_lt_trans.
Qed.

Lemma filedAt_cmp_antisym (a b : stamp) :
  filedAt_cmp a b = CompOpp (filedAt_cmp b a).
Proof.
  destruct a as [s|x|], b as [s'|y|]; simpl; try done.
  apply Z.compare_antisym.
Qed.

Lemma filedAt_cmp_refl (a : stamp) : filedAt_cmp a a = Eq.
Proof. destruct a; simpl; try done. apply Z.compare_refl. Qed.

Lemma filedAt_le_trans (a b c : stamp) :
  filedAt_cmp a b <> Gt -> filedAt_cmp b c <> Gt -> filedAt_cmp a c <> Gt.
Proof.
  destruct a as [s|x|], b as [s'|y|], c as [s''|z|]; simpl; try done.
  rewrite !Z.compare_gt_iff. lia.
Qed.

Lemma row_le_refl (r : Row) : row_le r r = true.
Proof.
  unfold row_le, row_cmp.
  rewrite (proj2 (ticker_cmp_eq _ _) eq_refl), filedAt_cmp_refl. done.
Qed.

Lemma row_le_total (r1 r2 : Row) : row_le r1 r2 = false -> row_le r2 r1 = true.
Proof.
  unfold row_le, row_cmp.
  rewrite (ticker_cmp_antisym (ticker r2)), (filedAt_cmp_antisym (filedAt r2)).
  destruct (ticker_cmp (ticker r1) (ticker r2)); simpl; try done.
  by destruct (filedAt_cmp (filedAt r1) (filedAt r2)).
Qed.

Lemma row_le_trans (r1 r2 r3 : Row) :
  row_le r1 r2 = true -> row_le r2 r3 = true -> row_le r1 r3 = true.
Proof.
  unfold row_le, row_cmp.
  destruct (ticker_cmp (ticker r1) (ticker r2)) eqn:E12;
    destruct (ticker_cmp (ticker r2) (ticker r3)) eqn:E23; try done.
  - apply ticker_cmp_eq in E12, E23. rewrite E12, E23.
    rewrite (proj2 (ticker_cmp_eq _ _) eq_refl).
    pose proof (filedAt_le_trans (filedAt r1) (filedAt r2) (filedAt r3)) as H.
    destruct (filedAt_cmp (filedAt r1) (filedAt r2)); try done;
      destruct (filedAt_cmp (filedAt r2) (filedAt r3)); try done;
      destruct (filedAt_cmp (filedAt r1) (filedAt r3)); try done;
      intros _ _; exfalso; by apply H.
  - apply ticker_cmp_eq in E12. rewrite E12, E23. done.
  - apply ticker_cmp_eq in E23. rewrite <- E23, E12. done.
  - by rewrite (ticker_cmp_lt_trans _ _ _ E12 E23).
Qed.

End KeyOrder.

(** ** Sorting and dropping duplicates *)

Section SortFacts.

Import Combined.

Implicit Types (l : list Row) (r : Row) (seen : list (option string)).

Lemma insert_perm {A : Type} (cmp : A -> A -> bool) (x : A) (xs : list A) :
  Pd.insert cmp x xs ≡ₚ x :: xs.
Proof.
  induction xs as [|y xs IH]; simpl; [done|].
  destruct (cmp x y); [done|].
  rewrite IH. apply Permutation_swap.
Qed.

Lemma sort_by_perm {A : Type} (cmp : A -> A -> bool) (xs : list A) :
  Pd.sort_by cmp xs ≡ₚ xs.
Proof.
  induction xs as [|x xs IH]; simpl; [done|].
  by rewrite insert_perm, IH.
Qed.

Lemma sort_values_perm l : sort_values l ≡ₚ l.
Proof. apply sort_by_perm. Qed.

Lemma insert_sorted r l :
  StronglySorted le l -> StronglySorted le (Pd.insert row_le r l).
Proof.
  induction l as [|r' l IH]; intros Hs; simpl.
  - repeat constructor.
  - apply StronglySorted_inv in Hs as [Hs Hall].
    destruct (row_le r r') eqn:E.
    + constructor; [by constructor|].
      constructor; [exact E|].
      eapply Forall_impl; [exact Hall|].
      intros r'' Hle. by eapply row_le_trans.
    + constructor; [by apply IH|].
      rewrite insert_perm. constructor; [|done].
      by apply row_le_total.
Qed.

Lemma sort_values_sorted l : StronglySorted le (sort_values l).
Proof.
  unfold sort_values.
  induction l as [|r l IH]; simpl; [constructor|].
  by apply insert_sorted.
Qed.

(** Sorting a table that is in key order changes nothing. *)
Lemma sort_values_id l : StronglySorted le l -> sort_values l = l.
Proof.
  unfold sort_values.
  induction 1 as [|r l Hs IH Hall]; simpl; [done|].
  rewrite IH. destruct l as [|r' l]; simpl; [done|].
  apply Forall_cons in Hall as [Hle _]. unfold le in Hle. by rewrite Hle.
Qed.

Lemma drop_duplicates_from_subseteq seen l r :
  r ∈ drop_duplicates_from seen l -> r ∈ l.
Proof.
  revert seen. induction l as [|r' l IH]; intros seen; simpl; [done|].
  case_bool_decide.
  - intros Hin. right. by eapply IH.
  - intros [->|Hin]%elem_of_cons; [by left|]. right. by eapply IH.
Qed.

Lemma drop_duplicates_from_sorted seen l :
  StronglySorted le l -> StronglySorted le (drop_duplicates_from seen l).
Proof.
  intros Hs. revert seen.
  induction Hs as [|r l Hs IH Hall]; intros seen; simpl; [constructor|].
  case_bool_decide; [apply IH|].
  constructor; [apply IH|].
  apply Forall_forall. intros r' Hin.
  apply drop_duplicates_from_subseteq in Hin.
  by eapply Forall_forall in Hall.
Qed.

(** After dropping, no ticker occurs twice, and none that was seen
    before. *)
Lemma drop_duplicates_from_NoDup seen l :
  NoDup (map ticker (drop_duplicates_from seen l))
  /\ forall k, k ∈ map ticker (drop_duplicates_from seen l) -> k ∉ seen.
Proof.
  revert seen. induction l as [|r l IH]; intros seen; simpl.
  - split; [constructor | by intros k H%elem_of_nil].
  - case_bool_decide as Hseen; [apply IH|].
    destruct (IH (ticker r :: seen)) as [Hnd Hfresh]. simpl. split.
    + constructor; [|done].
      intros Hin. apply Hfresh in Hin. apply Hin. by left.
    + intros k [->|Hin]%elem_of_cons; [done|].
      apply Hfresh in Hin. intros Hk. apply Hin. by right.
Qed.

(** A table without repeated tickers has no row marked, and dropping
    changes nothing. *)
Lemma NoDup_not_duplicated seen l :
  NoDup (map ticker l) ->
  (forall k, k ∈ map ticker l -> k ∉ seen) ->
  sum (duplicated_from seen l) = 0
  /\ drop_duplicates_from seen l = l.
Proof.
  revert seen. induction l as [|r l IH]; intros seen Hnd Hfresh; simpl.
  - done.
  - apply NoDup_cons in Hnd as [Hr Hnd].
    assert (Hseen : ticker r ∉ seen) by (apply Hfresh; by left).
    rewrite bool_decide_eq_false_2 by done.
    destruct (IH (ticker r :: seen)) as [Hsum Hdrop]; [done| |].
    { intros k Hk [->|Hin]%elem_of_cons; [done|].
      revert Hin. apply Hfresh. by right. }
    split; [|by rewrite Hdrop].
    unfold sum in *. rewrite filter_cons_False by done. exact Hsum.
Qed.

(** No row marked means dropping changes nothing. *)
Lemma not_duplicated_drop seen l :
  sum (duplicated_from seen l) = 0 -> drop_duplicates_from seen l = l.
Proof.
  revert seen. induction l as [|r l IH]; intros seen; simpl; [done|].
  unfold sum. case_bool_decide.
  - rewrite filter_cons_True by done. simpl. lia.
  - rewrite filter_cons_False by done. intros H0. f_equal. by apply IH.
Qed.

(** Every row of the table has its ticker represented after dropping, by a
    row that comes no later. *)
Lemma drop_duplicates_from_first seen l r :
  StronglySorted le l -> r ∈ l -> ticker r ∉ seen ->
  exists r0, r0 ∈ drop_duplicates_from seen l
             /\ ticker r0 = ticker r /\ le r0 r.
Proof.
  intros Hs. revert seen.
  induction Hs as [|r' l Hs IH Hall]; intros seen Hin Hseen; simpl.
  - by apply elem_of_nil in Hin.
  - destruct (decide (ticker r' = ticker r)) as [Heq|Hne].
    + rewrite bool_decide_eq_false_2 by (by rewrite Heq).
      exists r'. split; [by left|]. split; [done|].
      apply elem_of_cons in Hin as [->|Hin]; [apply row_le_refl|].
      by eapply Forall_forall in Hall.
    + apply elem_of_cons in Hin as [->|Hin]; [done|].
      case_bool_decide.
      * by apply IH.
      * destruct (IH (ticker r' :: seen) Hin) as (r0 & H0 & Ht & Hle).
        { intros [?|?]%elem_of_cons; [congruence | done]. }
        exists r0. split; [by right | done].
Qed.

(** Dropping keeps, for every ticker, the first row that has it. *)
Lemma drop_duplicates_from_find seen l (k : option string) :
  k ∉ seen ->
  first_with k (drop_duplicates_from seen l) = first_with k l.
Proof.
  unfold first_with. revert seen.
  induction l as [|r l IH]; intros seen Hk; simpl; [done|].
  destruct (decide (ticker r = k)) as [<-|Hr].
  - rewrite bool_decide_eq_false_2 by done. simpl.
    unfold has. by rewrite !bool_decide_eq_true_2.
  - assert (Hhas : has k r = false) by (by apply bool_decide_eq_false_2).
    rewrite Hhas. case_bool_decide as Hseen.
    + by apply IH.
    + simpl. rewrite Hhas.
      apply IH. intros [?|?]%elem_of_cons; [congruence | done].
Qed.

End SortFacts.

(** ** Claims about the de-duplication *)

Section DedupClaims.

Import Combined.

Variable parse_datetime : list stamp -> string -> option Z.

#[local] Abbreviation convert := (convert_column parse_datetime).
#[local] Abbreviation dedup := (Combined.dedup parse_datetime).

Implicit Types (l : list Row) (r : Row) (f : frame).

Lemma drop_duplicates_from_sublist (seen : list (option string)) l :
  drop_duplicates_from seen l `sublist_of` l.
Proof.
  revert seen. induction l as [|r l IH]; intros seen; simpl; [done|].
  case_bool_decide; [by apply sublist_cons | by apply sublist_skip].
Qed.

Lemma map_fixed (g : Row -> Row) l :
  Forall (fun r => g r = r) l -> map g l = l.
Proof. induction 1 as [|r l Hr _ IH]; simpl; [done | by rewrite Hr, IH]. Qed.

Lemma convert_filedAt_converted (column : list stamp) r :
  converted_cell (convert_filedAt parse_datetime column r).
Proof.
  destruct r as [k [s|t|] o]; unfold converted_cell; simpl; try done.
  by destruct (parse_datetime column s).
Qed.

Lemma convert_filedAt_fixed (column : list stamp) r :
  converted_cell r -> convert_filedAt parse_datetime column r = r.
Proof. destruct r as [k [s|t|] o]; unfold converted_cell; simpl; done. Qed.

Lemma convert_converted l : Forall converted_cell (convert l).
Proof.
  apply Forall_forall. intros r Hin.
  apply list_elem_of_fmap in Hin as (r' & -> & _).
  apply convert_filedAt_converted.
Qed.

(** Converting a converted column changes nothing. *)
Lemma convert_fixed l : Forall converted_cell l -> convert l = l.
Proof.
  intros Hall. unfold convert_column. apply map_fixed.
  eapply Forall_impl; [exact Hall|].
  intros r Hr. by apply convert_filedAt_fixed.
Qed.


(** With a [filedAt] column the step always yields the sorted table with
    the later rows of every ticker dropped. *)
Lemma dedup_with_filedAt f :
  has_ticker f = true -> has_filedAt f = true ->
  dedup f
  = mkFrame true true (drop_duplicates (sort_values (convert (rows f)))).
Proof.
  intros Ht Hf. unfold Combined.dedup. rewrite Ht, Hf.
  destruct (Nat.ltb_spec 0
              (sum (duplicated (sort_values (convert (rows f))))))
    as [Hpos|Hzero]; [done|].
  f_equal. symmetry. apply not_duplicated_drop.
  unfold duplicated in Hzero. lia.
Qed.

(** Without it the step yields the table with the later rows of every
    ticker dropped, in input order. *)
Lemma dedup_without_filedAt f :
  has_ticker f = true -> has_filedAt f = false ->
  dedup f = mkFrame true false (drop_duplicates (rows f)).
Proof.
  intros Ht Hf. unfold Combined.dedup. rewrite Ht, Hf.
  destruct (Nat.ltb_spec 0 (sum (duplicated (rows f)))) as [Hpos|Hzero];
    [done|].
  unfold drop_duplicates. rewrite not_duplicated_drop.
  - destruct f as [ht hf rs]. simpl in *. by subst.
  - unfold duplicated in Hzero. lia.
Qed.

(** Conversion puts the timestamp of a row in its [filedAt] cell. *)
Lemma convert_filedAt_stamped (column : list stamp) r :
  convert_filedAt parse_datetime column r
  = stamped (fun r => filed parse_datetime column (filedAt r)) r.
Proof.
  destruct r as [k [s|t|] o]; unfold convert_filedAt, stamped; simpl; done.
Qed.

(** Of two converted rows of a ticker, the key order puts first the one
    that is not less recent. *)
Lemma row_le_more_recent (column : list stamp) r1 r2 :
  ticker r1 = ticker r2 ->
  let time r := filed parse_datetime column (filedAt r) in
  row_le (stamped time r1) (stamped time r2)
  = negb (more_recent (time r2) (time r1)).
Proof.
  intros Hk time. unfold row_le, row_cmp, stamped. cbn [ticker filedAt].
  rewrite (proj2 (ticker_cmp_eq _ _) Hk).
  destruct (time r1) as [x|], (time r2) as [y|]; simpl; try done.
  destruct (Z.compare_spec y x) as [->|Hlt|Hgt].
  - by rewrite Z.ltb_irrefl.
  - by rewrite (proj2 (Z.ltb_ge x y)) by lia.
  - by rewrite (proj2 (Z.ltb_lt x y)) by lia.
Qed.

Lemma first_with_elem_of (k : option string) l r :
  first_with k l = Some r -> r ∈ l /\ ticker r = k.
Proof.
  unfold first_with. intros [Hin Hk]%List.find_some.
  split; [by apply list_elem_of_In|].
  unfold has in Hk. by apply bool_decide_eq_true in Hk.
Qed.

(** In a table without repeated tickers every row is the first of its
    ticker. *)
Lemma first_with_NoDup l r :
  NoDup (map ticker l) -> r ∈ l -> first_with (ticker r) l = Some r.
Proof.
  unfold first_with.
  induction l as [|x l IH]; intros Hnd Hin; [by apply elem_of_nil in Hin|].
  apply NoDup_cons in Hnd as [Hx Hnd]. simpl. unfold has at 1.
  case_bool_decide as Hk.
  - apply elem_of_cons in Hin as [->|Hin]; [done|].
    exfalso. apply Hx. rewrite Hk. apply list_elem_of_fmap. by exists r.
  - apply elem_of_cons in Hin as [->|Hin]; [done | by apply IH].
Qed.

(** Inserting a row of another ticker does not change the first row of a
    ticker. *)
Lemma first_with_insert_other (k : option string) r l :
  has k r = false ->
  first_with k (Pd.insert row_le r l) = first_with k l.
Proof.
  unfold first_with. intros Hr.
  induction l as [|y l IH]; simpl; [by rewrite Hr|].
  destruct (row_le r y); simpl; [by rewrite Hr|].
  by rewrite IH.
Qed.

(** Inserting a row of the ticker into a sorted table makes it the first
    row of its ticker unless the first so far goes strictly before it. *)
Lemma first_with_insert_same (k : option string) r l :
  StronglySorted le l -> has k r = true ->
  first_with k (Pd.insert row_le r l)
  = match first_with k l with
    | Some r' => if row_le r r' then Some r else Some r'
    | None => Some r
    end.
Proof.
  unfold first_with. intros Hs Hr.
  induction Hs as [|y l Hs IH Hall]; simpl; [by rewrite Hr|].
  destruct (row_le r y) eqn:Hle; simpl.
  - rewrite Hr. destruct (has k y); [by rewrite Hle|].
    destruct (List.find (has k) l) as [r'|] eqn:Hfind; [|done].
    apply List.find_some in Hfind as [Hin _].
    apply list_elem_of_In in Hin.
    eapply Forall_forall in Hall; [|exact Hin].
    by rewrite (row_le_trans r y r' Hle Hall).
  - destruct (has k y); [by rewrite Hle | exact IH].
Qed.

(** What the rule names: a row of the table with the ticker, whose
    timestamp no row of the ticker exceeds. *)
Lemma most_recent_spec (time : Row -> option Z) (k : option string) l r0 :
  most_recent time k l = Some r0 ->
  r0 ∈ l /\ ticker r0 = k
  /\ forall r t, r ∈ l -> ticker r = k -> time r = Some t ->
       exists t0, time r0 = Some t0 /\ (t <= t0)%Z.
Proof.
  revert r0. induction l as [|x l IH]; intros r0; simpl; [done|].
  unfold has at 1. case_bool_decide as Hx.
  2: { intros H0. destruct (IH r0 H0) as (Hin & Hk & Hmax).
       split; [by right|]. split; [done|].
       intros r t [->|Hr]%elem_of_cons Hrk Ht; [done | by eapply Hmax]. }
  destruct (most_recent time k l) as [r1|] eqn:E1.
  - destruct (IH r1 eq_refl) as (Hin & Hk & Hmax).
    destruct (more_recent (time r1) (time x)) eqn:Hmore; intros [= <-].
    + split; [by right|]. split; [done|].
      intros r t [->|Hr]%elem_of_cons Hrk Ht; [|by eapply Hmax].
      rewrite Ht in Hmore. destruct (time r1) as [t1|]; [|done].
      exists t1. split; [done|]. simpl in Hmore. lia.
    + split; [by left|]. split; [done|].
      intros r t [->|Hr]%elem_of_cons Hrk Ht.
      * exists t. split; [done | lia].
      * destruct (Hmax r t Hr Hrk Ht) as (t1 & Ht1 & Hle).
        rewrite Ht1 in Hmore. destruct (time x) as [tx|]; [|done].
        exists tx. split; [done|]. simpl in Hmore. lia.
  - intros [= <-]. split; [by left|]. split; [done|].
    intros r t [->|Hr]%elem_of_cons Hrk Ht.
    + exists t. split; [done | lia].
    + exfalso. clear IH Ht. revert E1.
      induction l as [|y l IHl]; [by apply elem_of_nil in Hr|]. simpl.
      unfold has at 1. case_bool_decide as Hy.
      * by destruct (most_recent time k l) as [r1|];
          [destruct (more_recent _ _)|].
      * apply elem_of_cons in Hr as [->|Hr]; [done | by apply IHl].
Qed.

(** Sorting the converted table by ticker ascending and timestamp
    descending puts first, for every ticker, the most recently filed row
    of the table. *)
Lemma sorted_first_most_recent (column : list stamp) (k : option string) l :
  let time r := filed parse_datetime column (filedAt r) in
  first_with k (sort_values (map (convert_filedAt parse_datetime column) l))
  = stamped time <$> most_recent time k l.
Proof.
  intros time. unfold sort_values.
  induction l as [|r l IH]; [done|]. cbn [map Pd.sort_by most_recent].
  rewrite convert_filedAt_stamped. fold time.
  assert (Hhas : has k (stamped time r) = has k r) by done.
  destruct (has k r) eqn:Hr.
  - rewrite first_with_insert_same; [|apply sort_values_sorted|done].
    rewrite IH.
    destruct (most_recent time k l) as [r'|] eqn:E; [|done].
    apply most_recent_spec in E as (_ & Hk' & _).
    cbn [fmap option_fmap option_map].
    assert (Hk : ticker r = ticker r').
    { unfold has in Hr. apply bool_decide_eq_true in Hr. congruence. }
    pose proof (row_le_more_recent column r r' Hk) as Hle.
    change (row_le (stamped time r) (stamped time r')
            = negb (more_recent (time r') (time r))) in Hle.
    rewrite Hle. by destruct (more_recent (time r') (time r)).
  - by rewrite first_with_insert_other.
Qed.

(** C6.  On a table with a [ticker] column the step leaves one row per
    ticker of the table.  With a [filedAt] column the rows are sorted by
    ticker ascending and timestamp descending and the first row of every
    ticker is kept, and that row is the most recently filed row of the
    ticker: a row of the table, with the timestamp [pd.to_datetime] reads
    from it, that no row of its ticker exceeds (a row without a timestamp
    is kept only when no row of its ticker has one, and of several rows
    with the latest timestamp the first of the table is kept).  Without the
    column the first row of every ticker in input order is kept. *)
Theorem dedup_keeps_one_row_per_ticker f :
  has_ticker f = true ->
  let out := rows (dedup f) in
  NoDup (map ticker out)
  /\ (forall r, r ∈ rows f -> ticker r ∈ map ticker out)
  /\ if has_filedAt f then
       let time r :=
         filed parse_datetime (map filedAt (rows f)) (filedAt r) in
       let converted := convert (rows f) in
       let sorted := sort_values converted in
       sorted ≡ₚ converted
       /\ StronglySorted le sorted
       /\ out = drop_duplicates sorted
       /\ (forall k, first_with k out = first_with k sorted)
       /\ (forall r, r ∈ out -> r ∈ converted)
       /\ (forall k,
             first_with k out = stamped time <$> most_recent time k (rows f))
       /\ (forall r0, r0 ∈ out ->
             exists r', r' ∈ rows f /\ r0 = stamped time r'
               /\ forall r t,
                    r ∈ rows f -> ticker r = ticker r' -> time r = Some t ->
                    exists t0, time r' = Some t0 /\ (t <= t0)%Z)
     else
       out = drop_duplicates (rows f)
       /\ out `sublist_of` rows f
       /\ (forall k, first_with k out = first_with k (rows f)).
Proof.
  intros Ht. destruct (has_filedAt f) eqn:Hf; simpl.
  - rewrite dedup_with_filedAt by done. simpl.
    set (time := fun r =>
           filed parse_datetime (map filedAt (rows f)) (filedAt r)).
    assert (Hnd : NoDup (map ticker
                    (drop_duplicates (sort_values (convert (rows f))))))
      by apply drop_duplicates_from_NoDup.
    assert (Hfirst : forall k,
      first_with k (drop_duplicates (sort_values (convert (rows f))))
      = stamped time <$> most_recent time k (rows f)).
    { intros k. unfold drop_duplicates.
      rewrite drop_duplicates_from_find by apply not_elem_of_nil.
      apply sorted_first_most_recent. }
    split; [exact Hnd|].
    split.
    { intros r Hin.
      destruct (drop_duplicates_from_first []
                  (sort_values (convert (rows f)))
                  (convert_filedAt parse_datetime (map filedAt (rows f)) r))
        as (r0 & H0 & Hk & _).
      - apply sort_values_sorted.
      - rewrite sort_values_perm. apply list_elem_of_fmap. by exists r.
      - apply not_elem_of_nil.
      - apply list_elem_of_fmap. by exists r0. }
    split; [apply sort_values_perm|].
    split; [apply sort_values_sorted|].
    split; [done|].
    split; [intros k; apply drop_duplicates_from_find, not_elem_of_nil|].
    split.
    { intros r Hin. apply drop_duplicates_from_subseteq in Hin.
      by rewrite sort_values_perm in Hin. }
    split; [exact Hfirst|].
    intros r0 Hin.
    pose proof (first_with_NoDup _ r0 Hnd Hin) as H0.
    rewrite Hfirst in H0.
    destruct (most_recent time (ticker r0) (rows f)) as [r'|] eqn:E;
      [|done].
    injection H0 as <-.
    apply most_recent_spec in E as (Hin' & Hk & Hmax).
    exists r'. split; [done|]. split; [done|].
    intros r t Hr Hrk. apply Hmax; [done|]. by rewrite Hrk, Hk.
  - rewrite dedup_without_filedAt by done. simpl.
    split; [apply drop_duplicates_from_NoDup|].
    split.
    { intros r Hin. apply list_elem_of_fmap.
      destruct (first_with (ticker r) (drop_duplicates (rows f)))
        as [r0|] eqn:E.
      - apply first_with_elem_of in E as [H0 Hk]. by exists r0.
      - unfold drop_duplicates in E.
        rewrite drop_duplicates_from_find in E by apply not_elem_of_nil.
        unfold first_with in E.
        apply list_elem_of_In in Hin.
        eapply List.find_none in E; [|exact Hin].
        unfold has in E. by rewrite bool_decide_eq_true_2 in E. }
    split; [done|].
    split; [apply drop_duplicates_from_sublist|].
    intros k. apply drop_duplicates_from_find, not_elem_of_nil.
Qed.

(** C7.  The step applied to its own output gives that output again. *)
Theorem dedup_idempotent f : dedup (dedup f) = dedup f.
Proof.
  destruct (has_ticker f) eqn:Ht.
  2: { unfold Combined.dedup. by rewrite !Ht. }
  destruct (has_filedAt f) eqn:Hf.
  - rewrite (dedup_with_filedAt f) by done.
    rewrite dedup_with_filedAt by done. simpl. f_equal.
    set (kept := drop_duplicates (sort_values (convert (rows f)))).
    assert (Hfixed : convert kept = kept).
    { apply convert_fixed, Forall_forall. intros r Hin.
      apply drop_duplicates_from_subseteq in Hin.
      rewrite sort_values_perm in Hin.
      by eapply Forall_forall in Hin; [|apply convert_converted]. }
    assert (Hsorted : sort_values kept = kept).
    { apply sort_values_id, drop_duplicates_from_sorted, sort_values_sorted. }
    rewrite Hfixed, Hsorted.
    apply NoDup_not_duplicated.
    + apply drop_duplicates_from_NoDup.
    + intros k _. apply not_elem_of_nil.
  - rewrite (dedup_without_filedAt f) by done.
    rewrite dedup_without_filedAt by done. simpl. f_equal.
    apply NoDup_not_duplicated.
    + apply drop_duplicates_from_NoDup.
    + intros k _. apply not_elem_of_nil.
Qed.

End DedupClaims.

Section DedupExamples.

Import Combined CombinedExamples.

(** On the example with dates the newest filing of each ticker is kept, in
    ticker order; without the column the first row of each ticker is. *)
Lemma dedup_examples :
  rows (dedup parse_datetime filings)
  = [mkRow (Some "AAA") (Time 1707523200000000000) [("formType", "S-1")];
     mkRow (Some "BBB") (Time 1709596800000000000) [("formType", "S-1/A")]]
  /\ rows (dedup parse_datetime no_dates) = [bbb_jan; aaa_feb].
Proof. split; reflexivity. Qed.

Lemma dedup_keeps_one_row_per_ticker_witness :
  (let out := rows (dedup parse_datetime filings) in
   NoDup (map ticker out)
   /\ (forall r, r ∈ rows filings -> ticker r ∈ map ticker out)
   /\ let time r :=
        filed parse_datetime (map filedAt (rows filings)) (filedAt r) in
      let converted := convert_column parse_datetime (rows filings) in
      let sorted := sort_values converted in
      sorted ≡ₚ converted
      /\ StronglySorted le sorted
      /\ out = drop_duplicates sorted
      /\ (forall k, first_with k out = first_with k sorted)
      /\ (forall r, r ∈ out -> r ∈ converted)
      /\ (forall k,
            first_with k out
            = stamped time <$> most_recent time k (rows filings))
      /\ (forall r0, r0 ∈ out ->
            exists r', r' ∈ rows filings /\ r0 = stamped time r'
              /\ forall r t,
                   r ∈ rows filings -> ticker r = ticker r' ->
                   time r = Some t ->
                   exists t0, time r' = Some t0 /\ (t <= t0)%Z))
  /\ (let out := rows (dedup parse_datetime no_dates) in
      NoDup (map ticker out)
      /\ (forall r, r ∈ rows no_dates -> ticker r ∈ map ticker out)
      /\ out = drop_duplicates (rows no_dates)
      /\ out `sublist_of` rows no_dates
      /\ (forall k, first_with k out = first_with k (rows no_dates))).
Proof.
  split.
  - apply (dedup_keeps_one_row_per_ticker parse_datetime filings).
    reflexivity.
  - apply (dedup_keeps_one_row_per_ticker parse_datetime no_dates).
    reflexivity.
Defined.

End DedupExamples.

(** ** Claims about the ticker extraction *)

Section ExtractionFacts.

Import Py Filings.

Variable json_loads : string -> option value.
Variable literal_eval : string -> value + literal_error.

#[local] Abbreviation ticker_of := (sec_ticker json_loads literal_eval).

Implicit Types (v x ticker_list : value) (s : string).

Lemma getitem0_error v (e : exn) :
  getitem0 v = Raise e -> e = KeyError \/ e = IndexError \/ e = TypeError.
Proof.
  destruct v as [| | | |s|[|x l]|[|x l]|items]; simpl;
    try (intros [= <-]; auto); try done.
  - destruct s; [intros [= <-]; auto | done].
  - destruct (List.find _ items); [done | intros [= <-]; auto].
Qed.

(** Whatever the decoded value is, picking the ticker out of it raises
    nothing the handler around it lets through. *)
Lemma pick_handled ticker_list :
  exists t, inner_handler (pick ticker_list) = Ok t.
Proof.
  unfold pick, first_is_ticker_dict, first_is_str.
  destruct (truthy ticker_list); simpl; [|by eexists].
  destruct (getitem0 ticker_list) as [x|e] eqn:E; simpl.
  - destruct x as [| | | |s|l|l|items]; simpl; try (by eexists).
    destruct (dict_lookup items "ticker") as [t|]; simpl; by eexists.
  - apply getitem0_error in E as [->|[->| ->]]; by eexists.
Qed.



(** Every value gets a ticker: no exception leaves the loop body. *)
Lemma sec_ticker_total v : exists t, ticker_of v = Ok t.
Proof.
  unfold sec_ticker. destruct (is_valid v); [|by eexists].
  assert (H : exists t, inner_handler (try_decode json_loads literal_eval v)
                        = Ok t).
  { destruct v as [| | | |s|l|l|items]; simpl; try (by eexists).
    - destruct (json_loads s) as [tl|]; [apply pick_handled|].
      destruct (literal_eval s) as [tl|[]]; simpl; try (by eexists).
      apply pick_handled.
    - apply pick_handled. }
  destruct H as [t ->]. by eexists.
Qed.




(** The loop appends one ticker per filing row, in order. *)
Lemma extract_from (sec_df : list Filing) (acc : list value) :
  exists ts,
    fold_left (extract_step json_loads literal_eval) sec_df (Ok acc)
    = Ok (acc ++ ts)
    /\ Forall2 (fun row t => ticker_of (tickers row) = Ok t) sec_df ts.
Proof.
  revert acc. induction sec_df as [|row l IH]; intros acc; cbn [fold_left].
  - exists []. by rewrite app_nil_r.
  - destruct (sec_ticker_total (tickers row)) as [t Ht].
    assert (Hstep : extract_step json_loads literal_eval (Ok acc) row
                    = Ok (acc ++ [t])).
    { unfold extract_step. simpl. by rewrite Ht. }
    rewrite Hstep.
    destruct (IH (acc ++ [t])) as (ts & -> & Hall).
    exists (t :: ts). split; [by rewrite <- app_assoc | by constructor].
Qed.

Lemma extract_aligned (sec_df : list Filing) :
  exists ts,
    extract json_loads literal_eval sec_df = Ok ts
    /\ Forall2 (fun row t => ticker_of (tickers row) = Ok t) sec_df ts.
Proof. exact (extract_from sec_df []). Qed.

(** Every filing row is a row of the outer merge, under its extracted
    ticker, as long as the merge can hash the tickers. *)
Lemma merge_keeps_filings (key_le : value -> value -> bool)
    (sec_df : list Filing) (yahoo_df : list Finance) (row : Filing) :
  Forall (fun row => forall t, ticker_of (tickers row) = Ok t ->
                               hashable t = true) sec_df ->
  row ∈ sec_df ->
  exists m,
    m ∈ extract_and_merge json_loads literal_eval key_le sec_df yahoo_df
    /\ filing m = Some row
    /\ ticker_of (tickers row) = Ok (key m).
Proof.
  intros Hhash Hin. unfold extract_and_merge, try_merge.
  destruct (extract_aligned sec_df) as (ts & -> & Hall). simpl.
  pose proof (Forall2_length _ _ _ Hall) as Hlen.
  unfold fix_length. rewrite <- Hlen, Nat.eqb_refl.
  unfold merge_outer.
  assert (Hkeys : forallb (fun kv => hashable kv.1) (zip ts sec_df) = true).
  { clear Hin. induction Hall as [|r t l ts' Hr Hall IH]; simpl; [done|].
    apply Forall_cons in Hhash as [Hh Hhash].
    rewrite (Hh _ Hr). simpl. apply IH; [done | by simpl in Hlen; lia]. }
  rewrite Hkeys.
  assert (Hpair : exists t, (t, row) ∈ zip ts sec_df
                            /\ ticker_of (tickers row) = Ok t).
  { clear Hhash Hkeys Hlen.
    induction Hall as [|r t l ts' Hr Hall IH]; simpl.
    - by apply elem_of_nil in Hin.
    - apply elem_of_cons in Hin as [->|Hin].
      + exists t. split; [by left | done].
      + destruct (IH Hin) as (t' & Ht' & Hok).
        exists t'. split; [by right | done]. }
  destruct Hpair as (t & Hpair & Hok).
  set (joined := fun '(k, row) =>
         match filter (fun r => eq_str k (ticker r) = true) yahoo_df with
         | [] => [mkMerged k (Some row) None]
         | rs => map (fun r => mkMerged k (Some row) (Some r)) rs
         end).
  assert (Hm : exists m, m ∈ joined (t, row)
                         /\ filing m = Some row /\ key m = t).
  { unfold joined.
    destruct (filter (fun r => eq_str t (ticker r) = true) yahoo_df)
      as [|r rs].
    - eexists. split; [by left | done].
    - eexists. split; [by left | done]. }
  destruct Hm as (m & Hm & Hf & Hk).
  exists m. split; [|by rewrite Hk].
  rewrite sort_by_perm. apply elem_of_app. left.
  apply list_elem_of_In, in_flat_map.
  exists (t, row). split; by apply list_elem_of_In.
Qed.

(** Only a string is the same key as a string. *)
Lemma key_same_str (s : string) (k : value) :
  key_same (VStr s) k = true -> k = VStr s.
Proof.
  destruct k; simpl; try done.
  by intros ->%String.eqb_eq.
Qed.

Lemma merged_not_duplicated (seen : list value) (l : list Merged) :
  length (filter (fun b => b = true) (duplicated_from seen l)) = 0 ->
  drop_duplicates_from seen l = l.
Proof.
  revert seen. induction l as [|m l IH]; intros seen; simpl; [done|].
  destruct (existsb (key_same (key m)) seen).
  - rewrite filter_cons_True by done. simpl. lia.
  - rewrite filter_cons_False by done. intros H0. f_equal. by apply IH.
Qed.

Lemma merged_drop_sublist (seen : list value) (l : list Merged) :
  drop_duplicates_from seen l `sublist_of` l.
Proof.
  revert seen. induction l as [|m l IH]; intros seen; simpl; [done|].
  destruct (existsb _ seen); [by apply sublist_cons | by apply sublist_skip].
Qed.

(** Dropping keeps a row for every string key that was not seen before. *)
Lemma merged_drop_keeps_key (seen : list value) (l : list Merged)
    (m : Merged) (s : string) :
  existsb (key_same (VStr s)) seen = false ->
  m ∈ l -> key m = VStr s ->
  exists m', m' ∈ drop_duplicates_from seen l /\ key m' = VStr s.
Proof.
  revert seen. induction l as [|h l IH]; intros seen Hseen Hin Hk; simpl.
  - by apply elem_of_nil in Hin.
  - destruct (existsb (key_same (key h)) seen) eqn:Hdup.
    + apply elem_of_cons in Hin as [->|Hin]; [congruence | by apply IH].
    + destruct (key_same (VStr s) (key h)) eqn:Hsame.
      * exists h. split; [by left | by apply key_same_str].
      * apply elem_of_cons in Hin as [->|Hin].
        { rewrite Hk in Hsame. simpl in Hsame.
          by rewrite String.eqb_refl in Hsame. }
        destruct (IH (key h :: seen)) as (m' & Hm' & Hk'); [|done|done|].
        { cbn [existsb]. by rewrite Hsame, Hseen. }
        exists m'. split; [by right | done].
Qed.

(** The block returns the merge with the later rows of every ticker
    dropped. *)
Lemma try_block_drops (key_le : value -> value -> bool)
    (sec_df : list Filing) (yahoo_df : list Finance) :
  try_block json_loads literal_eval key_le sec_df yahoo_df
  = (combined_df ← try_merge json_loads literal_eval key_le sec_df yahoo_df;
     mret (drop_duplicates_from [] combined_df)).
Proof.
  unfold try_block.
  destruct (try_merge json_loads literal_eval key_le sec_df yahoo_df)
    as [merged|e]; simpl; [|done].
  destruct (Nat.ltb_spec 0
              (length (filter (fun b => b = true)
                              (duplicated_from [] merged))))
    as [Hpos|Hzero]; [done|].
  rewrite merged_not_duplicated; [done | lia].
Qed.

(** The table the method returns holds a row for the ticker of every
    filing row whose ticker is a string, and only rows of the merge. *)
Lemma combine_keeps_tickers (key_le : value -> value -> bool)
    (sec_df : list Filing) (yahoo_df : list Finance) (row : Filing)
    (s : string) :
  yahoo_df <> [] ->
  Forall (fun row => forall t, ticker_of (tickers row) = Ok t ->
                               hashable t = true) sec_df ->
  row ∈ sec_df ->
  ticker_of (tickers row) = Ok (VStr s) ->
  exists out m,
    combine_sec_and_yahoo_data json_loads literal_eval key_le sec_df yahoo_df
    = Merged_frame out
    /\ out `sublist_of`
         extract_and_merge json_loads literal_eval key_le sec_df yahoo_df
    /\ m ∈ out /\ key m = VStr s.
Proof.
  intros Hy Hhash Hin Hs.
  destruct (merge_keeps_filings key_le sec_df yahoo_df row Hhash Hin)
    as (m & Hm & _ & Hkey).
  unfold combine_sec_and_yahoo_data.
  destruct sec_df as [|r0 sec_df]; [by apply elem_of_nil in Hin|].
  destruct yahoo_df as [|y0 yahoo_df]; [done|].
  rewrite try_block_drops.
  revert Hm. unfold extract_and_merge.
  destruct (try_merge json_loads literal_eval key_le (r0 :: sec_df)
              (y0 :: yahoo_df)) as [merged|e]; simpl;
    [|by intros H%elem_of_nil].
  intros Hm.
  destruct (merged_drop_keeps_key [] merged m s) as (m' & Hm' & Hk');
    [done | done | congruence |].
  exists (drop_duplicates_from [] merged), m'.
  split; [done|]. split; [apply merged_drop_sublist | done].
Qed.

End ExtractionFacts.



(** The example, run: the three filing rows are in the merge, the two
    without a ticker under the empty key. *)
Lemma merge_example :
  map (fun m => (Filings.key m, Filings.filing m))
      (Filings.extract_and_merge Decoders.json_loads Decoders.literal_eval
         FilingExamples.key_le FilingExamples.sec_df FilingExamples.yahoo_df)
  = [(Py.VStr EmptyString, Some FilingExamples.garbage_row);
     (Py.VStr EmptyString, Some FilingExamples.missing_row);
     (Py.VStr "ABC", Some FilingExamples.abc_row)].
Proof. reflexivity. Qed.

(** What follows the merge is not part of the extraction: the method then
    removes repeated tickers from the merged table, keeping the first row
    of each.  Two filing rows whose tickers no decoder reads both get the
    empty ticker and both are rows of the merge; of the two, the table the
    method returns holds the first. *)
Lemma empty_ticker_rows_collapse :
  Filings.sec_ticker Decoders.json_loads Decoders.literal_eval
    (Filings.tickers FilingExamples.garbage_row')
  = Py.Ok (Py.VStr EmptyString)
  /\ map Filings.filing
       (Filings.extract_and_merge Decoders.json_loads Decoders.literal_eval
          FilingExamples.key_le
          [FilingExamples.garbage_row; FilingExamples.abc_row;
           FilingExamples.garbage_row']
          FilingExamples.yahoo_df)
     = [Some FilingExamples.garbage_row; Some FilingExamples.garbage_row';
        Some FilingExamples.abc_row]
  /\ exists out,
       Filings.combine_sec_and_yahoo_data Decoders.json_loads
         Decoders.literal_eval FilingExamples.key_le
         [FilingExamples.garbage_row; FilingExamples.abc_row;
          FilingExamples.garbage_row']
         FilingExamples.yahoo_df
       = Filings.Merged_frame out
       /\ map Filings.filing out
          = [Some FilingExamples.garbage_row; Some FilingExamples.abc_row]
       /\ Forall (fun m => Filings.filing m
                           <> Some FilingExamples.garbage_row') out.
Proof.
  split; [reflexivity|]. split; [reflexivity|].
  eexists. split; [reflexivity|]. split; [reflexivity|].
  repeat constructor; simpl; discriminate.
Qed.

(** A ticker entry that is itself a list cannot be hashed: the merge
    raises and the handler of the block returns the empty frame. *)
Lemma unhashable_ticker_empties_merge :
  Filings.combine_sec_and_yahoo_data Decoders.json_loads
    Decoders.literal_eval FilingExamples.key_le
    [FilingExamples.garbage_row;
     Filings.mkFiling
       (Py.VList [Py.VDict [(Py.VStr "ticker", Py.VList [Py.VStr "X"])]])
       []]
    FilingExamples.yahoo_df
  = Filings.Empty_frame.
Proof. reflexivity. Qed.

(** ** The price window over several days *)

Section HistoryFacts.

Import History.

Implicit Types (df : list Row) (r : Row) (p : float) (f : fetcher).

(** One roll moves the whole series one position towards the past and puts
    the fetched price in front. *)
Lemma slot_roll_row r p (j : nat) :
  j <= 31 ->
  slot (roll_row r p) j = match j with 0 => p | S j' => slot r j' end.
Proof.
  intros Hj. destruct j as [|[|j]]; [reflexivity | reflexivity |].
  cbn [slot]. rewrite roll_row_shift by lia.
  replace (S (S j) - 1) with (S j) by lia. reflexivity.
Qed.

Lemma roll_days_cons file f (days : list fetcher) :
  roll_days file (f :: days)
  = roll_days (file_after (roll_prices_for_existing_tickers file f)) days.
Proof. reflexivity. Qed.

End HistoryFacts.

(** X1.  After [n] daily rolls in which the ticker of a row was priced every
    day, the row holds, newest first, the [n] fetched prices followed by the
    series it had before: the price of [k] days ago is in the cell of
    [k] days ago as long as it is within the 31 lagged cells. *)
Theorem roll_days_history (df : list Row) (days : list fetcher)
    (prices : list float) (i : nat) (r : Row) :
  df !! i = Some r ->
  Forall2
    (fun f p =>
       exists d, fetch_prices_for_tickers f (map ticker df) = Py.Ok d
                 /\ PyDict.get d (ticker r) = Some p)
    days prices ->
  exists df' r',
    History.roll_days (Some df) days = Some df'
    /\ df' !! i = Some r'
    /\ map ticker df' = map ticker df
    /\ ticker r' = ticker r
    /\ forall j, j <= 31 ->
         History.slot r' j
         = if j <? length prices
           then nth j (rev prices) PrimFloat.nan
           else History.slot r (j - length prices).
Proof.
  intros Hi Hall.
  remember (map ticker df) as ts eqn:Hts.
  remember (ticker r) as t eqn:Ht0.
  revert df r Hi Hts Ht0.
  induction Hall as [|f p days prices (d & Hf & Hd) Hall IH];
    intros df r Hi -> ->.
  - exists df, r. repeat split; try done.
    intros j _. simpl. by rewrite Nat.sub_0_r.
  - rewrite roll_days_cons. simpl. rewrite Hf. simpl.
    assert (Hi' : roll_loop d df !! i = Some (roll_row r p)).
    { rewrite roll_loop_lookup, Hi. simpl. unfold roll_or_keep.
      by rewrite Hd. }
    destruct (IH (roll_loop d df) (roll_row r p))
      as (df' & r' & Hrun & Hr' & Ht & Htr & Hslots);
      [by rewrite ?roll_loop_tickers ..|].
    exists df', r'. split; [done|]. split; [done|].
    split; [exact Ht|]. split; [exact Htr|].
    intros j Hj. rewrite (Hslots j Hj). cbn [length rev].
    destruct (Nat.ltb_spec j (length prices)) as [Hlt|Hge].
    + rewrite (proj2 (Nat.ltb_lt j (S (length prices)))) by lia.
      rewrite app_nth1 by (rewrite length_rev; lia). reflexivity.
    + destruct (Nat.ltb_spec j (S (length prices))) as [Hlt'|Hge'].
      * assert (j = length prices) as -> by lia.
        rewrite Nat.sub_diag, app_nth2 by (rewrite length_rev; lia).
        rewrite length_rev, Nat.sub_diag. reflexivity.
      * rewrite slot_roll_row by lia.
        destruct (j - length prices) as [|k] eqn:Ek; [lia|].
        replace (j - S (length prices)) with k by lia. reflexivity.
Qed.

Lemma roll_days_history_witness :
  exists df' r',
    History.roll_days (Some [Examples.aaa; Examples.bbb])
      [Examples.always 23%float; Examples.only "AAA" 25%float;
       Examples.always 26%float]
    = Some df'
    /\ df' !! 0 = Some r'
    /\ map ticker df' = map ticker [Examples.aaa; Examples.bbb]
    /\ ticker r' = ticker Examples.aaa
    /\ forall j, j <= 31 ->
         History.slot r' j
         = if j <? length [23%float; 25%float; 26%float]
           then nth j (rev [23%float; 25%float; 26%float]) PrimFloat.nan
           else History.slot Examples.aaa
                  (j - length [23%float; 25%float; 26%float]).
Proof.
  apply (roll_days_history [Examples.aaa; Examples.bbb]
           [Examples.always 23%float; Examples.only "AAA" 25%float;
            Examples.always 26%float]
           [23%float; 25%float; 26%float] 0 Examples.aaa).
  - reflexivity.
  - repeat constructor; eexists; split; reflexivity.
Defined.

(** ** Discovery of new tickers *)

Section DiscoveryFacts.

Implicit Types (l acc : list string) (seen : gset string) (t : string).

(** The loop that keeps first occurrences: what it has kept and what it has
    seen are the same tickers, none twice, and it extends what it was given
    by a sublist of its input. *)
Lemma unique_loop_inv l seen acc :
  NoDup acc -> (forall t, t ∈ seen <-> t ∈ acc) ->
  let out := fold_left unique_step l (seen, acc) in
  NoDup out.2
  /\ (forall t, t ∈ out.2 <-> t ∈ acc \/ t ∈ l)
  /\ exists kept, out.2 = acc ++ kept /\ kept `sublist_of` l.
Proof.
  revert seen acc. induction l as [|x l IH]; intros seen acc Hnd Hseen; simpl.
  - split; [done|]. split.
    + intros t. split; [by left | by intros [?|?%elem_of_nil]].
    + exists []. by rewrite app_nil_r.
  - case_bool_decide as Hx.
    + destruct (IH seen acc Hnd Hseen) as (Hnd' & Hin & kept & Hk & Hsub).
      split; [done|]. split.
      * intros t. rewrite Hin. split.
        -- intros [?|?]; [by left | right; by right].
        -- intros [?|[->|?]%elem_of_cons]; [by left | | by right].
           left. by apply Hseen.
      * exists kept. split; [done | by apply sublist_cons].
    + destruct (IH ({[x]} ∪ seen) (acc ++ [x]))
        as (Hnd' & Hin & kept & Hk & Hsub).
      * apply NoDup_app. split; [done|]. split; [|apply NoDup_singleton].
        intros t Ht ->%list_elem_of_singleton. apply Hx. by apply Hseen.
      * intros t. rewrite elem_of_union, elem_of_singleton, elem_of_app,
          list_elem_of_singleton, Hseen. tauto.
      * split; [done|]. split.
        -- intros t. rewrite Hin, elem_of_app, list_elem_of_singleton,
             elem_of_cons. tauto.
        -- exists (x :: kept). split.
           ++ by rewrite Hk, <- app_assoc.
           ++ by apply sublist_skip.
Qed.

(** The loop keeps the tickers in the order in which they first occur in
    the feed: of two tickers it keeps, the one kept first occurs in the
    feed at a place before which the other does not occur.  The feed is
    taken before its filter, so that the places are those of the column. *)
Lemma unique_loop_order (P : string -> Prop) `{!forall t, Decision (P t)}
    (feed : list string) seen acc :
  exists kept,
    (fold_left unique_step (filter P feed) (seen, acc)).2 = acc ++ kept
    /\ (forall t, t ∈ kept -> P t /\ t ∉ seen)
    /\ (forall i j t u,
          kept !! i = Some t -> kept !! j = Some u -> i < j ->
          exists n, feed !! n = Some t /\ u ∉ take n feed).
Proof.
  revert seen acc. induction feed as [|x feed IH]; intros seen acc.
  - exists []. split; [by rewrite app_nil_r|].
    split; [by intros t Ht%elem_of_nil | by intros i j t u Hi].
  - assert (Hskip : forall seen' (kept : list string),
      (forall t, t ∈ kept -> P t /\ t ∉ seen') ->
      (~ P x \/ x ∈ seen') ->
      (forall i j t u,
         kept !! i = Some t -> kept !! j = Some u -> i < j ->
         exists n, feed !! n = Some t /\ u ∉ take n feed) ->
      forall i j t u,
        kept !! i = Some t -> kept !! j = Some u -> i < j ->
        exists n, (x :: feed) !! n = Some t /\ u ∉ take n (x :: feed)).
    { intros seen' kept Hkept Hx Hord i j t u Hi Hj Hij.
      destruct (Hord i j t u Hi Hj Hij) as (n & Hn & Hu).
      exists (S n). split; [done|]. cbn [take].
      intros [->|Hin]%elem_of_cons; [|done].
      apply list_elem_of_lookup_2, Hkept in Hj as [HP Hseen].
      by destruct Hx. }
    destruct (decide (P x)) as [HP|HP].
    2: { rewrite filter_cons_False by done.
         destruct (IH seen acc) as (kept & Hk & Hkept & Hord).
         exists kept. split; [done|]. split; [done|].
         eapply (Hskip seen); [done | by left | done]. }
    rewrite filter_cons_True by done. cbn [fold_left unique_step].
    case_bool_decide as Hx.
    + destruct (IH seen acc) as (kept & Hk & Hkept & Hord).
      exists kept. split; [done|]. split; [done|].
      eapply (Hskip seen); [done | by right | done].
    + destruct (IH ({[x]} ∪ seen) (acc ++ [x])) as (kept & Hk & Hkept & Hord).
      exists (x :: kept). split; [by rewrite Hk, <- app_assoc|]. split.
      * intros t [->|Ht]%elem_of_cons; [done|].
        apply Hkept in Ht as [Ht Hseen]. split; [done|].
        intros Hin. apply Hseen, elem_of_union. by right.
      * intros [|i] [|j] t u Hi Hj Hij; try lia.
        -- injection Hi as <-. exists 0. split; [done|]. cbn [take].
           apply not_elem_of_nil.
        -- eapply (Hskip ({[x]} ∪ seen) kept);
             [done | | done | exact Hi | exact Hj | lia].
           right. apply elem_of_union. left. by apply elem_of_singleton.
Qed.

(** Discovery without a limit: the tickers of the feed that are not on
    file, each once, in feed order. *)
Lemma discovery_all (file : csv_file) (col : list (option string)) :
  let all := get_new_tickers_from_working_rolling file (Some col) None in
  NoDup all
  /\ all `sublist_of` omap id col
  /\ forall t, t ∈ all <-> Some t ∈ col /\ t ∉ load_existing_tickers file.
Proof.
  intros all.
  set (existing := list_to_set (load_existing_tickers file) : gset string).
  set (fresh := filter (fun ticker => ticker ∉ existing) (omap id col)).
  destruct (unique_loop_inv fresh ∅ [])
    as (Hnd & Hin & kept & Hk & Hsub);
    [constructor | set_solver |].
  assert (Hall : all = (fold_left unique_step fresh (∅, [])).2) by done.
  split; [by rewrite Hall|]. split.
  - rewrite Hall, Hk. simpl. etrans; [exact Hsub|]. apply sublist_filter.
  - intros t. rewrite Hall, Hin. subst fresh existing.
    rewrite list_elem_of_filter, elem_of_list_to_set, list_elem_of_omap.
    split.
    + intros [Ht|[Hfile (o & Ho & Hid)]]; [by apply elem_of_nil in Ht|].
      simpl in Hid. by subst o.
    + intros [Hcol Hfile]. right. split; [done|]. by exists (Some t).
Qed.

(** A limit keeps a prefix; a limit of 0 is no limit. *)
Lemma discovery_limit (file : csv_file)
    (working : option (list (option string))) (limit : option nat) :
  get_new_tickers_from_working_rolling file working limit
  = match limit with
    | Some (S n) =>
        take (S n) (get_new_tickers_from_working_rolling file working None)
    | _ => get_new_tickers_from_working_rolling file working None
    end.
Proof.
  unfold get_new_tickers_from_working_rolling.
  destruct working as [col|]; by destruct limit as [[|n]|].
Qed.

Lemma discovery_sublist (file : csv_file)
    (working : option (list (option string))) (limit : option nat) :
  get_new_tickers_from_working_rolling file working limit
  `sublist_of` get_new_tickers_from_working_rolling file working None.
Proof.
  rewrite discovery_limit. destruct limit as [[|n]|]; try done.
  apply sublist_take.
Qed.

(** The tickers offered stand in the order of their first occurrence in
    the feed. *)
Lemma discovery_order (file : csv_file) (col : list (option string))
    (limit : option nat) (i j : nat) (t u : string) :
  let new := get_new_tickers_from_working_rolling file (Some col) limit in
  new !! i = Some t -> new !! j = Some u -> i < j ->
  exists n, omap id col !! n = Some t /\ u ∉ take n (omap id col).
Proof.
  intros new.
  set (existing := list_to_set (load_existing_tickers file) : gset string).
  destruct (unique_loop_order (fun ticker => ticker ∉ existing)
              (omap id col) ∅ [])
    as (kept & Hk & _ & Hord).
  assert (Hall : get_new_tickers_from_working_rolling file (Some col) None
                 = kept) by exact Hk.
  subst new. rewrite discovery_limit, Hall.
  destruct limit as [[|m]|]; try apply Hord.
  intros [Hi _]%lookup_take_Some [Hj _]%lookup_take_Some. by apply Hord.
Qed.

End DiscoveryFacts.

(** X2.  What discovery offers: tickers of the feed that are not on file, each
    once, in the order of their first occurrence: of two tickers offered,
    the one offered first occurs in the feed at a place before which the
    other does not occur.  Without a limit, and with a limit of 0, which
    the code treats as no limit, every such ticker is offered; a positive
    limit keeps the first tickers up to the limit.  A feed that cannot be
    read offers nothing. *)
Theorem discovery_offers (file : csv_file) (col : list (option string))
    (limit : option nat) :
  let new := get_new_tickers_from_working_rolling file (Some col) limit in
  let all := get_new_tickers_from_working_rolling file (Some col) None in
  NoDup new
  /\ new `sublist_of` omap id col
  /\ (forall i j t u,
        new !! i = Some t -> new !! j = Some u -> i < j ->
        exists n, omap id col !! n = Some t /\ u ∉ take n (omap id col))
  /\ (forall t, t ∈ new ->
        Some t ∈ col /\ t ∉ load_existing_tickers file)
  /\ (forall t, Some t ∈ col -> t ∉ load_existing_tickers file -> t ∈ all)
  /\ new = match limit with
           | Some (S n) => take (S n) all
           | _ => all
           end
  /\ get_new_tickers_from_working_rolling file None limit = [].
Proof.
  intros new all.
  destruct (discovery_all file col) as (Hnd & Hsub & Hin).
  pose proof (discovery_sublist file (Some col) limit) as Hsubnew.
  split; [eapply sublist_NoDup; [exact Hnd | exact Hsubnew]|].
  split; [by etrans|].
  split; [apply discovery_order|].
  split.
  { intros t Ht. apply Hin. by eapply elem_of_sublist. }
  split; [intros t Hcol Hfile; by apply Hin|].
  split; [apply discovery_limit | reflexivity].
Qed.

(** ** Batches of fetches *)

Section BatchFacts.

Implicit Types (f : fetcher) (d : PyDict.t float) (t : string) (p : float).

Lemma enumerate_from_app {A : Type} (k : nat) (l1 l2 : list A) :
  Py.enumerate_from k (l1 ++ l2)
  = Py.enumerate_from k l1 ++ Py.enumerate_from (k + length l1) l2.
Proof.
  revert k. induction l1 as [|x l1 IH]; intros k; simpl.
  - by rewrite Nat.add_0_r.
  - rewrite IH. by replace (S k + length l1) with (k + S (length l1)) by lia.
Qed.

(** The batch for a list with one more ticker is the batch for the list
    followed by one more iteration. *)
Lemma fetch_prices_snoc f (l : list string) (x : string) :
  fetch_prices_for_tickers f (l ++ [x])
  = fetch_step f (fetch_prices_for_tickers f l) (length l, x).
Proof.
  unfold fetch_prices_for_tickers, Py.enumerate.
  by rewrite enumerate_from_app, fold_left_app.
Qed.

(** Assigning to a key appends it when it is new and keeps the keys as
    they are otherwise. *)
Lemma dict_set_keys {V : Type} (d0 : PyDict.t V) (k : string) (v : V) :
  map fst (PyDict.set d0 k v)
  = if decide (k ∈ map fst d0) then map fst d0 else map fst d0 ++ [k].
Proof.
  induction d0 as [|[k' v'] d0 IH]; simpl; [done|].
  destruct (String.eqb_spec k' k) as [->|Hne]; simpl.
  - rewrite decide_True; [done | by left].
  - rewrite IH. destruct (decide (k ∈ map fst d0)) as [Hin|Hnin].
    + rewrite decide_True; [done | by right].
    + rewrite decide_False; [done|].
      intros [?|?]%elem_of_cons; [congruence | done].
Qed.

Lemma dict_set_NoDup {V : Type} (d0 : PyDict.t V) (k : string) (v : V) :
  NoDup (map fst d0) -> NoDup (map fst (PyDict.set d0 k v)).
Proof.
  intros Hnd. rewrite dict_set_keys.
  destruct (decide (k ∈ map fst d0)) as [Hin|Hnin]; [done|].
  apply NoDup_app. split; [done|]. split; [|apply NoDup_singleton].
  by intros x Hx ->%list_elem_of_singleton.
Qed.

(** The keys of a batch are distinct. *)
Lemma fetch_prices_NoDup f (tickers : list string) d :
  fetch_prices_for_tickers f tickers = Py.Ok d -> NoDup (map fst d).
Proof.
  revert d. induction tickers as [|x l IH] using rev_ind; intros d.
  - intros [= <-]. constructor.
  - rewrite fetch_prices_snoc. unfold fetch_step. simpl.
    destruct (fetch_prices_for_tickers f l) as [d0|e]; simpl; [|done].
    destruct (f (length l) x) as [[px|]|e]; simpl; [| |done].
    + intros [= <-]. by apply dict_set_NoDup, IH.
    + intros [= <-]. by apply IH.
Qed.

Lemma dict_get_keys {V : Type} (d0 : PyDict.t V) (k : string) :
  k ∈ map fst d0 <-> exists v, PyDict.get d0 k = Some v.
Proof.
  induction d0 as [|[k' v'] d0 IH]; simpl.
  - split; [by intros ?%elem_of_nil | by intros [v ?]].
  - destruct (String.eqb_spec k' k) as [->|Hne].
    + split; [by eexists | by left].
    + rewrite elem_of_cons, IH. split; [|by right].
      intros [?|?]; [congruence | done].
Qed.

(** Every key of a batch is one of the requested tickers. *)
Lemma fetch_prices_keys_requested f (tickers : list string) d t :
  fetch_prices_for_tickers f tickers = Py.Ok d ->
  t ∈ map fst d -> t ∈ tickers.
Proof.
  intros Hf [v Hv]%dict_get_keys.
  destruct (decide (t ∈ tickers)) as [|Hnot]; [done|]. exfalso.
  assert (PyDict.get d t = None); [|congruence].
  apply (fetch_prices_None _ _ _ _ Hf). intros i Hi.
  exfalso. apply Hnot. by eapply list_elem_of_lookup_2.
Qed.

End BatchFacts.

(** X3.  In a batch that returns, the price recorded for a ticker is the one of
    the last call for it that gave a price: a later call for the same
    ticker overwrites an earlier one, and a call that fails leaves the
    entry as it is. *)
Theorem fetch_prices_last_success (f : fetcher) (tickers : list string)
    (d : PyDict.t float) (t : string) (p : float) :
  fetch_prices_for_tickers f tickers = Py.Ok d ->
  PyDict.get d t = Some p
  <-> exists i,
        tickers !! i = Some t
        /\ f i t = Py.Ok (Some p)
        /\ forall j, i < j -> tickers !! j = Some t -> f j t = Py.Ok None.
Proof.
  revert d. induction tickers as [|x l IH] using rev_ind; intros d.
  - intros [= <-]. split; [done | by intros (i & Hi & _)].
  - rewrite fetch_prices_snoc. unfold fetch_step. simpl.
    destruct (fetch_prices_for_tickers f l) as [d0|e]; simpl; [|done].
    specialize (IH d0 eq_refl).
    assert (Hold : forall i, i < length l ->
                     (l ++ [x]) !! i = l !! i).
    { intros i Hi. by rewrite lookup_app_l. }
    assert (Hlast : (l ++ [x]) !! length l = Some x).
    { by rewrite lookup_app_r, Nat.sub_diag. }
    assert (Hrange : forall i y, (l ++ [x]) !! i = Some y ->
                       i < length l \/ i = length l).
    { intros i y Hi. apply lookup_lt_Some in Hi.
      rewrite length_app in Hi. simpl in Hi. lia. }
    destruct (f (length l) x) as [[px|]|e] eqn:Efx; simpl; [| |done];
      intros [= <-].
    + destruct (decide (x = t)) as [->|Hne].
      * rewrite dict_get_set_eq. split.
        -- intros [= <-]. exists (length l). split; [done|].
           split; [done|]. intros j Hj Hjt.
           apply Hrange in Hjt. lia.
        -- intros (i & Hi & Hfi & Hlater).
           destruct (Hrange _ _ Hi) as [Hlt| ->]; [|congruence].
           specialize (Hlater (length l) Hlt Hlast). congruence.
      * rewrite dict_get_set_ne by done. rewrite IH. split.
        -- intros (i & Hi & Hfi & Hlater).
           exists i. pose proof (lookup_lt_Some _ _ _ Hi) as Hlt.
           split; [by rewrite Hold|]. split; [done|].
           intros j Hj Hjt. destruct (Hrange _ _ Hjt) as [Hj'| ->].
           ++ apply Hlater; [done|]. by rewrite <- Hold.
           ++ congruence.
        -- intros (i & Hi & Hfi & Hlater).
           destruct (Hrange _ _ Hi) as [Hlt| ->]; [|congruence].
           exists i. split; [by rewrite <- Hold|]. split; [done|].
           intros j Hj Hjt. pose proof (lookup_lt_Some _ _ _ Hjt) as Hjl.
           apply Hlater; [done|]. by rewrite Hold.
    + rewrite IH. split.
      * intros (i & Hi & Hfi & Hlater).
        exists i. pose proof (lookup_lt_Some _ _ _ Hi) as Hlt.
        split; [by rewrite Hold|]. split; [done|].
        intros j Hj Hjt. destruct (Hrange _ _ Hjt) as [Hj'| ->].
        -- apply Hlater; [done|]. by rewrite <- Hold.
        -- rewrite Hlast in Hjt. by injection Hjt as ->.
      * intros (i & Hi & Hfi & Hlater).
        destruct (Hrange _ _ Hi) as [Hlt| ->].
        -- exists i. split; [by rewrite <- Hold|]. split; [done|].
           intros j Hj Hjt. pose proof (lookup_lt_Some _ _ _ Hjt) as Hjl.
           apply Hlater; [done|]. by rewrite Hold.
        -- rewrite Hlast in Hi. injection Hi as ->. congruence.
Qed.

Lemma fetch_prices_last_success_witness :
  PyDict.get [("AAA", 12%float)] "AAA" = Some 12%float
  <-> exists i,
        ["AAA"; "BBB"; "AAA"] !! i = Some "AAA"
        /\ BatchExamples.by_call i "AAA" = Py.Ok (Some 12%float)
        /\ forall j, i < j -> ["AAA"; "BBB"; "AAA"] !! j = Some "AAA" ->
                     BatchExamples.by_call j "AAA" = Py.Ok None.
Proof.
  apply (fetch_prices_last_success BatchExamples.by_call
           ["AAA"; "BBB"; "AAA"] [("AAA", 12%float)] "AAA" 12%float).
  reflexivity.
Defined.

(** ** The tickers on file across a run *)

Section RunFacts.

Implicit Types (file : csv_file) (f : fetcher).

Lemma roll_file_tickers file f :
  load_existing_tickers (file_after (roll_prices_for_existing_tickers file f))
  = load_existing_tickers file.
Proof.
  destruct file as [df|]; simpl; [|done].
  destruct (fetch_prices_for_tickers f (map ticker df)); simpl; [|done].
  apply roll_loop_tickers.
Qed.

Lemma update_csv_tickers file (ticker_prices : PyDict.t float) :
  load_existing_tickers (update_csv_with_new_tickers file ticker_prices)
  = load_existing_tickers file ++ map fst ticker_prices.
Proof.
  rewrite update_csv_rows. simpl. rewrite map_app, map_map. simpl.
  by destruct file.
Qed.

(** The tickers the append stage adds to the file: distinct, none on file,
    all from the feed. *)
Lemma append_stage_tickers file (working : option (list (option string)))
    f (test_mode : bool) (test_limit : nat) :
  exists new,
    load_existing_tickers
      (file_after (append_stage file working f test_mode test_limit))
    = load_existing_tickers file ++ new
    /\ NoDup new
    /\ forall t, t ∈ new ->
         (t ∉ load_existing_tickers file)
         /\ exists col, working = Some col /\ Some t ∈ col.
Proof.
  assert (Hnone : exists new : list string,
             load_existing_tickers file = load_existing_tickers file ++ new
             /\ NoDup new
             /\ forall t, t ∈ new ->
                  (t ∉ load_existing_tickers file)
                  /\ exists col, working = Some col /\ Some t ∈ col).
  { exists []. rewrite app_nil_r. split; [done|].
    split; [constructor | by intros t ?%elem_of_nil]. }
  unfold append_stage.
  set (new_tickers :=
         if test_mode
         then get_new_tickers_from_working_rolling file working
                (Some test_limit)
         else get_new_tickers_from_working_rolling file working None).
  assert (Hsub : new_tickers
                 `sublist_of`
                 get_new_tickers_from_working_rolling file working None).
  { subst new_tickers. destruct test_mode; [apply discovery_sublist | done]. }
  destruct (Py.truthy new_tickers); [|exact Hnone].
  destruct (fetch_prices_for_tickers f new_tickers) as [d|e] eqn:Ef;
    [|exact Hnone].
  destruct (Py.truthy d); [|exact Hnone].
  exists (map fst d). split; [apply update_csv_tickers|].
  split; [by eapply fetch_prices_NoDup|].
  intros t Ht.
  assert (Hnew : t ∈ new_tickers) by (by eapply fetch_prices_keys_requested).
  eapply elem_of_sublist in Hnew; [|exact Hsub].
  destruct working as [col|]; [|by apply elem_of_nil in Hnew].
  apply (discovery_all file col) in Hnew as [Hcol Hfile].
  split; [done|]. by exists col.
Qed.

End RunFacts.

(** X4.  Whatever the feed offers and the fetches answer, a run of
    [run_daily_update] leaves the tickers on file in place, in order, and
    adds after them tickers that are distinct, were not on file and come
    from the feed.  A file without a repeated ticker stays so. *)
Theorem run_daily_update_tickers (file : csv_file)
    (working : option (list (option string)))
    (fetch_new fetch_roll : fetcher) (test_mode : bool) (test_limit : nat) :
  let after :=
    file_after (run_daily_update file working fetch_new fetch_roll
                                 test_mode test_limit) in
  exists new,
    load_existing_tickers after = load_existing_tickers file ++ new
    /\ NoDup new
    /\ (forall t, t ∈ new ->
          (t ∉ load_existing_tickers file)
          /\ exists col, working = Some col /\ Some t ∈ col)
    /\ (NoDup (load_existing_tickers file) ->
        NoDup (load_existing_tickers after)).
Proof.
  intros after.
  destruct (append_stage_tickers file working fetch_new test_mode test_limit)
    as (new & Hafter & Hnd & Hnew).
  assert (Heq : load_existing_tickers after
                = load_existing_tickers file ++ new).
  { subst after. unfold run_daily_update.
    destruct (raised (append_stage file working fetch_new test_mode
                                   test_limit)); [done|].
    destruct (Py.truthy (load_existing_tickers file)); [|done].
    by rewrite roll_file_tickers. }
  exists new. split; [done|]. split; [done|]. split; [done|].
  intros Hfile. rewrite Heq. apply NoDup_app. split; [done|].
  split; [|done]. intros t Ht Ht'. by apply Hnew in Ht' as [? _].
Qed.

(** X5.  The row of a ticker that was priced [p], as the roll leaves it: the new
    [Today_price] is [p], every lagged cell holds what the cell one day
    more recent held, and the three moves are guarded differences of [p]
    with cells of the new row: [Day_move] with [1DaysAgo_price],
    [Week_move] with [8DaysAgo_price] and [Month_move] with
    [31DaysAgo_price]. *)
Theorem roll_row_after (df : list Row) (f : fetcher) (d : PyDict.t float)
    (i : nat) (r : Row) (p : float) :
  df !! i = Some r ->
  fetch_prices_for_tickers f (map ticker df) = Py.Ok d ->
  PyDict.get d (ticker r) = Some p ->
  exists df' r',
    roll_prices_for_existing_tickers (Some df) f = mkRun (Some df') None
    /\ df' !! i = Some r'
    /\ ticker r' = ticker r
    /\ Today_price r' = p
    /\ DaysAgo_price r' 1 = Today_price r
    /\ (forall j, 2 <= j <= 31 ->
          DaysAgo_price r' j = DaysAgo_price r (j - 1))
    /\ Day_move r' = move p (DaysAgo_price r' 1)
    /\ Week_move r' = move p (DaysAgo_price r' 8)
    /\ Month_move r' = move p (DaysAgo_price r' 31).
Proof.
  intros Hi Hf Hd. simpl. rewrite Hf.
  exists (roll_loop d df), (roll_row r p).
  split; [done|]. split.
  { rewrite roll_loop_lookup, Hi. simpl. unfold roll_or_keep.
    by rewrite Hd. }
  split; [apply roll_row_ticker|].
  split; [apply roll_row_Today|].
  split; [apply roll_row_1DaysAgo|].
  split; [intros j Hj; by apply roll_row_shift|].
  split; [by rewrite roll_row_Day_move, roll_row_1DaysAgo|].
  split.
  - rewrite roll_row_Week_move, roll_row_shift by lia. reflexivity.
  - rewrite roll_row_Month_move, roll_row_shift by lia. reflexivity.
Qed.

Lemma roll_row_after_witness :
  exists df' r',
    roll_prices_for_existing_tickers
      (Some [Examples.bbb; Examples.mmm]) (Examples.always 10%float)
    = mkRun (Some df') None
    /\ df' !! 1 = Some r'
    /\ ticker r' = ticker Examples.mmm
    /\ Today_price r' = 10%float
    /\ DaysAgo_price r' 1 = Today_price Examples.mmm
    /\ (forall j, 2 <= j <= 31 ->
          DaysAgo_price r' j = DaysAgo_price Examples.mmm (j - 1))
    /\ Day_move r' = move 10%float (DaysAgo_price r' 1)
    /\ Week_move r' = move 10%float (DaysAgo_price r' 8)
    /\ Month_move r' = move 10%float (DaysAgo_price r' 31).
Proof.
  apply (roll_row_after [Examples.bbb; Examples.mmm]
           (Examples.always 10%float)
           [("BBB", 10%float); ("MMM", 10%float)] 1 Examples.mmm 10%float);
    reflexivity.
Defined.

(** ** What the price fetch answers *)

Section FetchAnswers.

Import Py Fetcher.

Variable float_of_str : string -> option float.

Lemma http_error_returns_None (upstream : nat -> response)
    (status_code : nat) (body : option value) (max_retries : nat) :
  upstream 0 = Response status_code body ->
  400 <= status_code < 600 ->
  get_ticker_price float_of_str upstream (S max_retries)
  = mkOutcome (Ok None) 1.
Proof.
  intros H Hcode. unfold get_ticker_price. simpl. rewrite H.
  unfold loop_body, try_block.
  destruct (Nat.eqb status_code 404); [done|].
  unfold raise_for_status.
  rewrite (proj2 (Nat.leb_le 400 status_code)) by lia.
  rewrite (proj2 (Nat.ltb_lt status_code 600)) by lia.
  reflexivity.
Qed.

(** ['bar' in ticker_data and 'c' in ticker_data['bar']] on an object
    whose bars are objects. *)
Lemma has_close_object (tdata : list (value * value)) (bar : string) :
  (forall v, dict_lookup tdata bar = Some v -> Filings.is_dict v = true) ->
  has_close (VDict tdata) bar
  = Ok (match dict_lookup tdata bar with
        | Some (VDict b) =>
            match dict_lookup b "c" with Some _ => true | None => false end
        | _ => false
        end).
Proof.
  intros Hobj. unfold has_close. simpl.
  destruct (dict_lookup tdata bar) as [v|] eqn:E; simpl; [|done].
  specialize (Hobj v eq_refl). by destruct v.
Qed.

(** The [try] block on an answer of the expected shape. *)
Lemma try_block_expected_shape (status_code : nat)
    (items tdata : list (value * value)) :
  status_code < 400 \/ 600 <= status_code ->
  dict_lookup items "status" = Some (VStr "OK") ->
  dict_lookup items "ticker" = Some (VDict tdata) ->
  (forall bar v, bar = "min" \/ bar = "day" ->
                 dict_lookup tdata bar = Some v ->
                 Filings.is_dict v = true) ->
  let close bar :=
    match dict_lookup tdata bar with
    | Some (VDict b) => dict_lookup b "c"
    | _ => None
    end in
  try_block float_of_str (Response status_code (Some (VDict items)))
  = match close "min", close "day" with
    | Some c, _ | None, Some c => x ← py_float float_of_str c; mret (Some x)
    | None, None => Ok None
    end.
Proof.
  intros Hcode Hstatus Hticker Hbars close. unfold try_block.
  assert (Hne : Nat.eqb status_code 404 = false).
  { apply Nat.eqb_neq. lia. }
  assert (Hok : raise_for_status status_code = Ok tt).
  { unfold raise_for_status.
    destruct (Nat.leb_spec 400 status_code); simpl; [|done].
    destruct (Nat.ltb_spec status_code 600); [lia | done]. }
  rewrite Hne, Hok. cbn -[has_close py_float].
  rewrite Hstatus. cbn -[has_close py_float].
  rewrite Hticker. cbn -[has_close py_float].
  rewrite !has_close_object by (intros v; apply Hbars; auto).
  subst close. cbn -[py_float].
  destruct (dict_lookup tdata "min") as [[| | | | | | |bmin]|] eqn:Emin;
    try (exfalso; by specialize (Hbars "min" _ (or_introl eq_refl) Emin)).
  - destruct (dict_lookup bmin "c") as [c|] eqn:Ec; cbn -[py_float].
    + by rewrite Ec.
    + idtac.
      destruct (dict_lookup tdata "day") as [[| | | | | | |bday]|] eqn:Eday;
        try (exfalso; by specialize (Hbars "day" _ (or_intror eq_refl) Eday));
        [|done].
      destruct (dict_lookup bday "c") as [c|] eqn:Ec'; cbn -[py_float];
        [by rewrite Ec' | done].
  - destruct (dict_lookup tdata "day") as [[| | | | | | |bday]|] eqn:Eday;
      try (exfalso; by specialize (Hbars "day" _ (or_intror eq_refl) Eday));
      [|done].
    destruct (dict_lookup bday "c") as [c|] eqn:Ec'; cbn -[py_float];
      [by rewrite Ec' | done].
Qed.

End FetchAnswers.

(** X6.  The fetch sends at most one request, whatever [max_retries] allows:
    none when [max_retries] is 0, where it returns [None], and one
    otherwise, whose answer decides.  A request that fails at the network
    level and every HTTP status from 400 to 599 give [None]. *)
Theorem get_ticker_price_single_request
    (float_of_str : string -> option float)
    (upstream : nat -> Fetcher.response) (max_retries : nat) :
  let price := Fetcher.get_ticker_price float_of_str upstream in
  price 0 = Fetcher.mkOutcome (Py.Ok None) 0
  /\ Fetcher.requests (price (S max_retries)) = 1
  /\ price (S max_retries) = price 1
  /\ (upstream 0 = Fetcher.ConnectionFailed ->
      price (S max_retries) = Fetcher.mkOutcome (Py.Ok None) 1)
  /\ (forall status_code body,
        upstream 0 = Fetcher.Response status_code body ->
        400 <= status_code < 600 ->
        price (S max_retries) = Fetcher.mkOutcome (Py.Ok None) 1).
Proof.
  intros price. subst price.
  split; [reflexivity|].
  split; [apply get_ticker_price_one_request|].
  split; [apply get_ticker_price_first_answer|].
  split; [apply connection_failure_returns_None|].
  intros status_code body. apply http_error_returns_None.
Qed.

(** X7.  For an answer of the expected shape -- a status that is no error, a
    JSON object with status [OK] and a [ticker] object whose [min] and
    [day] entries, where present, are objects -- the price is the close of
    the minute bar when that bar has one, else the close of the day bar
    when that bar has one, else [None]. *)
Theorem get_ticker_price_bar_order
    (float_of_str : string -> option float)
    (upstream : nat -> Fetcher.response) (max_retries status_code : nat)
    (items tdata : list (Py.value * Py.value)) :
  upstream 0 = Fetcher.Response status_code (Some (Py.VDict items)) ->
  status_code < 400 \/ 600 <= status_code ->
  Py.dict_lookup items "status" = Some (Py.VStr "OK") ->
  Py.dict_lookup items "ticker" = Some (Py.VDict tdata) ->
  (forall bar v, bar = "min" \/ bar = "day" ->
                 Py.dict_lookup tdata bar = Some v ->
                 Filings.is_dict v = true) ->
  let close bar :=
    match Py.dict_lookup tdata bar with
    | Some (Py.VDict b) => Py.dict_lookup b "c"
    | _ => None
    end in
  Fetcher.returned
    (Fetcher.get_ticker_price float_of_str upstream (S max_retries))
  = match close "min", close "day" with
    | Some c, _ | None, Some c =>
        match Fetcher.py_float float_of_str c with
        | Py.Ok x => Py.Ok (Some x)
        | Py.Raise Py.ValueError => Py.Ok None
        | Py.Raise e => Py.Raise e
        end
    | None, None => Py.Ok None
    end.
Proof.
  intros Hresp Hcode Hstatus Hticker Hbars close.
  rewrite get_ticker_price_first_answer.
  unfold Fetcher.get_ticker_price. cbn [Fetcher.retry_loop].
  rewrite Hresp. unfold Fetcher.loop_body.
  rewrite (try_block_expected_shape float_of_str status_code items tdata)
    by done.
  subst close. cbv zeta.
  set (cmin := match Py.dict_lookup tdata "min" with
               | Some (Py.VDict b) => Py.dict_lookup b "c"
               | _ => None
               end).
  set (cday := match Py.dict_lookup tdata "day" with
               | Some (Py.VDict b) => Py.dict_lookup b "c"
               | _ => None
               end).
  assert (Hfloat : forall c e,
            Fetcher.py_float float_of_str c = Py.Raise e ->
            e = Py.ValueError \/ e = Py.TypeError \/ e = Py.OverflowError).
  { intros c e. destruct c as [| |z| |s| | |]; simpl; try (intros [= <-]; auto);
      try done.
    - unfold Py.float_of_int. destruct (PrimFloat.is_infinity _); [|done].
      intros [= <-]. auto.
    - destruct (float_of_str s); [done|]. intros [= <-]. auto. }
  destruct cmin as [c|]; [|destruct cday as [c|]; [|done]];
    (destruct (Fetcher.py_float float_of_str c) as [x|e] eqn:E; [done|];
     apply Hfloat in E as [->|[->| ->]]; done).
Qed.

Lemma get_ticker_price_bar_order_witness :
  Fetcher.returned
    (Fetcher.get_ticker_price Fetcher.no_strtod SnapshotExamples.upstream 2)
  = Py.Ok (Some 9.5%float).
Proof.
  apply (get_ticker_price_bar_order Fetcher.no_strtod
           SnapshotExamples.upstream 1 200
           SnapshotExamples.body SnapshotExamples.bars).
  - reflexivity.
  - left. lia.
  - reflexivity.
  - reflexivity.
  - intros bar v [-> | ->]; by intros [= <-].
Defined.

(** ** The feed of upcoming IPOs *)

Section UpcomingFacts.

Import RecentIPO.

Variable strptime : string -> option Z.
Variable now : nat -> Z.

Implicit Types (existing : gset string) (df : upcoming) (t : string).

Lemma missing_from_Raise existing df (its : list (nat * string))
    (e : Py.exn) :
  fold_left (missing_step strptime now existing df) its (Py.Raise e)
  = Py.Raise e.
Proof. induction its as [|it its IH]; simpl; [done | exact IH]. Qed.

Lemma missing_step_offered existing df (acc out : list string) (i : nat) t :
  missing_step strptime now existing df (Py.Ok acc) (i, t) = Py.Ok out ->
  out = acc \/ (out = acc ++ [t] /\ offered strptime now existing df i t).
Proof.
  unfold missing_step, offered. simpl.
  case_bool_decide as Hex; [intros [= <-]; by left|].
  destruct (List.find _ (rows df)) as [row|] eqn:Efind;
    [|intros [= <-]; by left].
  destruct (has_Scraped_Date df) eqn:Hcol; [|intros [= <-]; by left].
  destruct (Scraped_Date row) as [s|] eqn:Ecell; [|done].
  destruct s as [|a s]; [intros [= <-]; by left|].
  destruct (strptime (String a s)) as [scraped_date|] eqn:Eparse.
  - destruct (Z.leb_spec (days (now i - scraped_date)) 7);
      intros [= <-]; [|by left].
    right. split; [done|]. split; [done|]. split; [done|].
    exists row, (String a s). repeat split; try done.
    right. by exists scraped_date.
  - intros [= <-]. right. split; [done|]. split; [done|]. split; [done|].
    exists row, (String a s). repeat split; try done. by left.
Qed.

Lemma missing_from_offered existing df (k : nat) (l acc out : list string) :
  fold_left (missing_step strptime now existing df)
            (Py.enumerate_from k l) (Py.Ok acc) = Py.Ok out ->
  forall t, t ∈ out ->
    t ∈ acc
    \/ exists i, l !! i = Some t /\ offered strptime now existing df (k + i) t.
Proof.
  revert k acc. induction l as [|x l IH]; intros k acc;
    cbn [Py.enumerate_from fold_left].
  - intros [= <-] t Ht. by left.
  - destruct (missing_step strptime now existing df (Py.Ok acc) (k, x))
      as [acc'|e] eqn:Estep; [|by rewrite missing_from_Raise].
    intros Hfold t Ht.
    destruct (IH _ _ Hfold t Ht) as [Hacc|(i & Hi & Hoff)].
    + apply missing_step_offered in Estep as [->|[-> Hoff]]; [by left|].
      apply elem_of_app in Hacc as [?|Hx%list_elem_of_singleton];
        [by left|]. subst t.
      right. exists 0. split; [done|]. by rewrite Nat.add_0_r.
    + right. exists (S i). split; [done|].
      by replace (k + S i) with (S k + i) by lia.
Qed.

(** Every ticker of the list was added in some iteration. *)
Lemma missing_in_feed (file : csv_file) df t :
  t ∈ get_missing_tickers_from_upcoming strptime now file (Some df) ->
  exists i,
    omap Symbol (rows df) !! i = Some t
    /\ offered strptime now (list_to_set (load_existing_tickers file)) df i t.
Proof.
  unfold get_missing_tickers_from_upcoming.
  destruct (fold_left _ _ _) as [out|e] eqn:Efold;
    [|by intros ?%elem_of_nil].
  intros Ht.
  destruct (missing_from_offered _ _ 0 _ _ _ Efold t Ht) as [Hnil|Hoff];
    [by apply elem_of_nil in Hnil | exact Hoff].
Qed.

(** An empty date cell met by the loop ends it, and nothing is offered. *)
Lemma missing_gap (file : csv_file) df t (row : upcoming_row) :
  t ∈ omap Symbol (rows df) ->
  t ∉ load_existing_tickers file ->
  has_Scraped_Date df = true ->
  List.find (fun r => bool_decide (Symbol r = Some t)) (rows df) = Some row ->
  Scraped_Date row = NaN ->
  get_missing_tickers_from_upcoming strptime now file (Some df) = [].
Proof.
  intros Hin Hfile Hcol Hfind Hcell.
  unfold get_missing_tickers_from_upcoming.
  apply list_elem_of_split in Hin as (l1 & l2 & ->).
  unfold Py.enumerate. rewrite enumerate_from_app, fold_left_app.
  cbn [Py.enumerate_from fold_left].
  destruct (fold_left _ (Py.enumerate_from 0 l1) _) as [acc|e];
    [|unfold missing_step at 2; simpl; by rewrite missing_from_Raise].
  assert (Hstep : missing_step strptime now
                    (list_to_set (load_existing_tickers file)) df
                    (Py.Ok acc) (0 + length l1, t)
                  = Py.Raise Py.TypeError).
  { unfold missing_step. simpl.
    rewrite bool_decide_eq_false_2
      by (by rewrite elem_of_list_to_set).
    by rewrite Hfind, Hcol, Hcell. }
  by rewrite Hstep, missing_from_Raise.
Qed.

End UpcomingFacts.

(** X8.  Every ticker [get_missing_tickers_from_upcoming] offers is a symbol of
    the feed that is not on file and whose first row in the feed has a
    scrape date that is either not in the expected format or at most seven
    days old. *)
Theorem missing_tickers_offered (strptime : string -> option Z)
    (now : nat -> Z) (file : csv_file) (df : RecentIPO.upcoming)
    (t : string) :
  t ∈ RecentIPO.get_missing_tickers_from_upcoming strptime now file (Some df)
  ->
  (t ∉ load_existing_tickers file)
  /\ RecentIPO.has_Scraped_Date df = true
  /\ exists i row s,
       omap RecentIPO.Symbol (RecentIPO.rows df) !! i = Some t
       /\ List.find (fun r => bool_decide (RecentIPO.Symbol r = Some t))
                    (RecentIPO.rows df) = Some row
       /\ RecentIPO.Scraped_Date row = RecentIPO.Text s
       /\ s <> EmptyString
       /\ (strptime s = None
           \/ exists scraped_date,
                strptime s = Some scraped_date
                /\ (RecentIPO.days (now i - scraped_date) <= 7)%Z).
Proof.
  intros Ht.
  destruct (missing_in_feed strptime now file df t Ht)
    as (i & Hi & Hex & Hcol & row & s & Hfind & Hcell & Hs & Hdate).
  split; [by rewrite elem_of_list_to_set in Hex|].
  split; [done|]. by exists i, row, s.
Qed.

Lemma missing_tickers_offered_witness :
  ("NEW" ∉ load_existing_tickers (Some [Examples.aaa]))
  /\ RecentIPO.has_Scraped_Date RecentIPOExamples.feed = true
  /\ exists i row s,
       omap RecentIPO.Symbol (RecentIPO.rows RecentIPOExamples.feed) !! i
       = Some "NEW"
       /\ List.find (fun r => bool_decide (RecentIPO.Symbol r = Some "NEW"))
                    (RecentIPO.rows RecentIPOExamples.feed) = Some row
       /\ RecentIPO.Scraped_Date row = RecentIPO.Text s
       /\ s <> EmptyString
       /\ (RecentIPOExamples.strptime s = None
           \/ exists scraped_date,
                RecentIPOExamples.strptime s = Some scraped_date
                /\ (RecentIPO.days (RecentIPOExamples.now i - scraped_date)
                    <= 7)%Z).
Proof.
  apply (missing_tickers_offered RecentIPOExamples.strptime
           RecentIPOExamples.now (Some [Examples.aaa])
           RecentIPOExamples.feed "NEW").
  apply (bool_decide_unpack _). reflexivity.
Defined.

(** The feed of the example, run: the symbol scraped twelve days ago and
    the symbol on file are not offered, the one scraped two days ago and
    the one with a date in another format are. *)
Lemma missing_tickers_example :
  RecentIPO.get_missing_tickers_from_upcoming RecentIPOExamples.strptime
    RecentIPOExamples.now (Some [Examples.aaa]) (Some RecentIPOExamples.feed)
  = ["NEW"; "ODD"].
Proof. reflexivity. Qed.

(** X9.  An empty [Scraped Date] cell in the first row of a symbol that is not
    on file makes [get_missing_tickers_from_upcoming] offer nothing at all:
    [strptime] raises a [TypeError] on it, which only the outer handler
    catches, and the symbols gathered before it are lost. *)
Theorem missing_date_offers_nothing (strptime : string -> option Z)
    (now : nat -> Z) (file : csv_file) (df : RecentIPO.upcoming)
    (t : string) (row : RecentIPO.upcoming_row) :
  t ∈ omap RecentIPO.Symbol (RecentIPO.rows df) ->
  t ∉ load_existing_tickers file ->
  RecentIPO.has_Scraped_Date df = true ->
  List.find (fun r => bool_decide (RecentIPO.Symbol r = Some t))
            (RecentIPO.rows df) = Some row ->
  RecentIPO.Scraped_Date row = RecentIPO.NaN ->
  RecentIPO.get_missing_tickers_from_upcoming strptime now file (Some df) = []
  /\ forall recent list_set fetch_new fetch_roll test_mode test_limit,
       RecentIPO.run_daily_update strptime now list_set file recent (Some df)
         fetch_new fetch_roll test_mode test_limit
       = run_daily_update file recent fetch_new fetch_roll test_mode
           test_limit.
Proof.
  intros Hin Hfile Hcol Hfind Hcell.
  pose proof (missing_gap strptime now file df t row Hin Hfile Hcol Hfind
                          Hcell) as Hnone.
  split; [exact Hnone|].
  intros recent list_set fetch_new fetch_roll test_mode test_limit.
  unfold RecentIPO.run_daily_update. rewrite Hnone. reflexivity.
Qed.

Lemma missing_date_offers_nothing_witness :
  RecentIPO.get_missing_tickers_from_upcoming RecentIPOExamples.strptime
    RecentIPOExamples.now (Some [Examples.aaa])
    (Some RecentIPOExamples.feed_with_gap) = []
  /\ forall recent list_set fetch_new fetch_roll test_mode test_limit,
       RecentIPO.run_daily_update RecentIPOExamples.strptime
         RecentIPOExamples.now list_set (Some [Examples.aaa]) recent
         (Some RecentIPOExamples.feed_with_gap)
         fetch_new fetch_roll test_mode test_limit
       = run_daily_update (Some [Examples.aaa]) recent fetch_new fetch_roll
           test_mode test_limit.
Proof.
  apply (missing_date_offers_nothing RecentIPOExamples.strptime
           RecentIPOExamples.now (Some [Examples.aaa])
           RecentIPOExamples.feed_with_gap "GAP"
           (RecentIPO.mkUpcomingRow (Some "GAP") RecentIPO.NaN)).
  - apply (bool_decide_unpack _). reflexivity.
  - apply (bool_decide_unpack _). reflexivity.
  - reflexivity.
  - reflexivity.
  - reflexivity.
Defined.

(** X10.  A run of the updater of recent IPOs leaves the tickers on file in
    place, in order, and adds after them tickers that are distinct, were
    not on file and are symbols of one of the two feeds; a file without a
    repeated ticker stays so.  Of [list(set(...))] this uses only that it
    returns elements of its argument. *)
Theorem recent_run_tickers (strptime : string -> option Z) (now : nat -> Z)
    (list_set : list string -> list string) (file : csv_file)
    (recent : option (list (option string)))
    (df_upcoming : option RecentIPO.upcoming)
    (fetch_new fetch_roll : fetcher) (test_mode : bool) (test_limit : nat) :
  (forall l x, x ∈ list_set l -> x ∈ l) ->
  let after :=
    file_after
      (RecentIPO.run_daily_update strptime now list_set file recent
         df_upcoming fetch_new fetch_roll test_mode test_limit) in
  exists new,
    load_existing_tickers after = load_existing_tickers file ++ new
    /\ NoDup new
    /\ (forall t, t ∈ new ->
          (t ∉ load_existing_tickers file)
          /\ ((exists col, recent = Some col /\ Some t ∈ col)
              \/ exists df, df_upcoming = Some df
                            /\ t ∈ omap RecentIPO.Symbol (RecentIPO.rows df)))
    /\ (NoDup (load_existing_tickers file) ->
        NoDup (load_existing_tickers after)).
Proof.
  intros Hset after.
  set (P := fun t : string =>
         (t ∉ load_existing_tickers file)
         /\ ((exists col, recent = Some col /\ Some t ∈ col)
             \/ exists df, df_upcoming = Some df
                           /\ t ∈ omap RecentIPO.Symbol (RecentIPO.rows df))).
  assert (Hrecent : forall limit t,
            t ∈ RecentIPO.get_tickers_from_recent_ipo file recent limit ->
            P t).
  { intros limit t Ht. unfold RecentIPO.get_tickers_from_recent_ipo in Ht.
    eapply elem_of_sublist in Ht; [|apply discovery_sublist].
    destruct recent as [col|]; [|by apply elem_of_nil in Ht].
    apply (discovery_all file col) in Ht as [Hcol Hfile].
    split; [done|]. left. by exists col. }
  assert (Hmissing : forall t,
            t ∈ RecentIPO.get_missing_tickers_from_upcoming strptime now file
                  df_upcoming -> P t).
  { intros t Ht. destruct df_upcoming as [df|]; [|by apply elem_of_nil in Ht].
    apply missing_in_feed in Ht as (i & Hi & Hex & _).
    split; [by rewrite elem_of_list_to_set in Hex|].
    right. exists df. split; [done|]. by eapply list_elem_of_lookup_2. }
  assert (Hgoal : exists new,
            load_existing_tickers after = load_existing_tickers file ++ new
            /\ NoDup new /\ forall t, t ∈ new -> P t).
  { subst after. unfold RecentIPO.run_daily_update.
    set (recent_tickers :=
           if test_mode
           then RecentIPO.get_tickers_from_recent_ipo file recent
                  (Some test_limit)
           else RecentIPO.get_tickers_from_recent_ipo file recent None).
    set (missing := RecentIPO.get_missing_tickers_from_upcoming strptime now
                      file df_upcoming).
    set (new_tickers := if Py.truthy missing
                        then list_set (recent_tickers ++ missing)
                        else recent_tickers).
    assert (Hnew : forall t, t ∈ new_tickers -> P t).
    { intros t Ht. subst new_tickers.
      assert (Hr : t ∈ recent_tickers -> P t).
      { subst recent_tickers. destruct test_mode; apply Hrecent. }
      destruct (Py.truthy missing); [|by apply Hr].
      apply Hset, elem_of_app in Ht as [Ht|Ht]; [by apply Hr|].
      by apply Hmissing. }
    assert (Hnone : exists new : list string,
              load_existing_tickers file = load_existing_tickers file ++ new
              /\ NoDup new /\ forall t, t ∈ new -> P t).
    { exists []. rewrite app_nil_r. split; [done|].
      split; [constructor | by intros t ?%elem_of_nil]. }
    destruct (Py.truthy new_tickers); cbn [raised file_after];
      [|destruct (Py.truthy (load_existing_tickers file));
        by rewrite ?roll_file_tickers].
    destruct (fetch_prices_for_tickers fetch_new new_tickers)
      as [d|e] eqn:Ef; cbn [raised file_after]; [|done].
    destruct (Py.truthy d); cbn [raised file_after];
      [|destruct (Py.truthy (load_existing_tickers file));
        by rewrite ?roll_file_tickers].
    exists (map fst d). split.
    - destruct (Py.truthy (load_existing_tickers file)); cbn [file_after];
        by rewrite ?roll_file_tickers, update_csv_tickers.
    - split; [by eapply fetch_prices_NoDup|].
      intros t Ht. apply Hnew. by eapply fetch_prices_keys_requested. }
  destruct Hgoal as (new & Heq & Hnd & Hnew).
  exists new. split; [done|]. split; [done|]. split; [exact Hnew|].
  intros Hfile. rewrite Heq. apply NoDup_app. split; [done|].
  split; [|done]. intros t Ht Ht'. by apply Hnew in Ht' as [? _].
Qed.

Lemma recent_run_tickers_witness :
  let after :=
    file_after
      (RecentIPO.run_daily_update RecentIPOExamples.strptime
         RecentIPOExamples.now RecentIPOExamples.list_set
         (Some [Examples.aaa]) (Some [Some "NEW"; Some "IPO"; None])
         (Some RecentIPOExamples.feed)
         (Examples.always 5%float) (Examples.always 6%float) false 100) in
  exists new,
    load_existing_tickers after
    = load_existing_tickers (Some [Examples.aaa]) ++ new
    /\ NoDup new
    /\ (forall t, t ∈ new ->
          (t ∉ load_existing_tickers (Some [Examples.aaa]))
          /\ ((exists col, Some [Some "NEW"; Some "IPO"; None] = Some col
                           /\ Some t ∈ col)
              \/ exists df, Some RecentIPOExamples.feed = Some df
                            /\ t ∈ omap RecentIPO.Symbol (RecentIPO.rows df)))
    /\ (NoDup (load_existing_tickers (Some [Examples.aaa])) ->
        NoDup (load_existing_tickers after)).
Proof.
  apply (recent_run_tickers RecentIPOExamples.strptime
           RecentIPOExamples.now RecentIPOExamples.list_set
           (Some [Examples.aaa]) (Some [Some "NEW"; Some "IPO"; None])
           (Some RecentIPOExamples.feed)
           (Examples.always 5%float) (Examples.always 6%float) false 100).
  intros l x Hx. unfold RecentIPOExamples.list_set in Hx.
  by rewrite elem_of_reverse, elem_of_remove_dups in Hx.
Defined.

(** The run of the example: the tickers of both feeds are appended, each
    once, and the row on file is rolled. *)
Lemma recent_run_example :
  load_existing_tickers
    (file_after
       (RecentIPO.run_daily_update RecentIPOExamples.strptime
          RecentIPOExamples.now RecentIPOExamples.list_set
          (Some [Examples.aaa]) (Some [Some "NEW"; Some "IPO"; None])
          (Some RecentIPOExamples.feed)
          (Examples.always 5%float) (Examples.always 6%float) false 100))
  = ["AAA"; "ODD"; "NEW"; "IPO"].
Proof. vm_compute. reflexivity. Qed.

(** ** The filing search *)

Section SearchFacts.

Import Py SecSearch.

Variable post : nat -> Fetcher.response.
Variable max_results : nat.

Implicit Types (fuel offset sent k : nat) (acc : list value)
  (pages : nat -> list value).

(** The loop goes through full pages, one request each. *)
Lemma search_loop_full_pages pages k fuel offset acc sent :
  (forall j, j < k -> full_page post (offset + batch_size * j) (pages j)) ->
  (forall j, j < k -> offset + batch_size * j < max_results) ->
  k <= fuel ->
  search_loop post max_results fuel offset acc sent
  = search_loop post max_results (fuel - k) (offset + batch_size * k)
      (acc ++ concat (map pages (seq 0 k))) (sent + k).
Proof.
  revert pages fuel offset acc sent.
  induction k as [|k IH]; intros pages fuel offset acc sent Hfull Hlt Hfuel.
  - by rewrite Nat.sub_0_r, Nat.mul_0_r, !Nat.add_0_r, app_nil_r.
  - destruct fuel as [|fuel]; [lia|]. cbn [search_loop].
    destruct (Hfull 0 ltac:(lia)) as [Hpage Hlen].
    specialize (Hlt 0 ltac:(lia)) as Hlt0.
    rewrite Nat.mul_0_r, Nat.add_0_r in Hpage, Hlt0.
    rewrite (proj2 (Nat.ltb_lt _ _) Hlt0), Hpage.
    destruct (pages 0) as [|x l] eqn:Ep;
      [simpl in Hlen; unfold batch_size in Hlen; lia|].
    cbn [Filings.truthy negb extend len iterate mbind mret result_bind
         result_ret].
    rewrite (proj2 (Nat.ltb_ge _ _) Hlen).
    rewrite (IH (fun j => pages (S j)) fuel (offset + batch_size)
                (acc ++ x :: l) (S sent)).
    + f_equal; [lia | | lia].
      cbn [seq map concat]. rewrite Ep, <- app_assoc. do 2 f_equal.
      by rewrite <- seq_shift, map_map.
    + intros j Hj. specialize (Hfull (S j) ltac:(lia)).
      by replace (offset + batch_size + batch_size * j)
        with (offset + batch_size * S j) by lia.
    + intros j Hj. specialize (Hlt (S j) ltac:(lia)). lia.
    + lia.
Qed.

End SearchFacts.

(** X11.  The search gathers page after page and stops at the first page with
    fewer than 50 records, which it keeps: after [k] full pages and a
    shorter one it has sent [k + 1] requests and returns the records of all
    of them, in order. *)
Theorem search_stops_at_short_page (post : nat -> Fetcher.response)
    (max_results k : nat) (pages : nat -> list Py.value)
    (last : list Py.value) :
  (forall j, j < k ->
     SecSearch.full_page post (SecSearch.batch_size * j) (pages j)) ->
  SecSearch.batch_size * k < max_results ->
  SecSearch.page (post (SecSearch.batch_size * k)) = Py.Ok (Py.VList last) ->
  length last < SecSearch.batch_size ->
  SecSearch.get_sec_filings_data post max_results
  = (concat (map pages (seq 0 k)) ++ last, S k).
Proof.
  intros Hfull Hk Hlast Hshort. unfold SecSearch.get_sec_filings_data.
  rewrite (search_loop_full_pages post max_results pages k max_results 0 [] 0);
    [|done|intros j Hj; unfold SecSearch.batch_size in *; lia
     |unfold SecSearch.batch_size in *; lia].
  destruct (max_results - k) as [|fuel] eqn:Efuel;
    [unfold SecSearch.batch_size in *; lia|].
  cbn [SecSearch.search_loop app]. rewrite !Nat.add_0_l.
  rewrite (proj2 (Nat.ltb_lt _ _) Hk), Hlast.
  destruct last as [|x l];
    cbn [Filings.truthy negb SecSearch.extend SecSearch.len
         SecSearch.iterate mbind mret Py.result_bind Py.result_ret].
  - by rewrite app_nil_r.
  - by rewrite (proj2 (Nat.ltb_lt _ _) Hshort).
Qed.

Lemma search_stops_at_short_page_witness :
  SecSearch.get_sec_filings_data SearchExamples.ends_short 1000
  = (concat (map SearchExamples.full (seq 0 2)) ++ SearchExamples.short, 3).
Proof.
  apply (search_stops_at_short_page SearchExamples.ends_short 1000 2
           SearchExamples.full SearchExamples.short).
  - intros [|[|j]] Hj; [split; [reflexivity | vm_compute; lia] ..|lia].
  - vm_compute; lia.
  - reflexivity.
  - vm_compute; lia.
Defined.

(** X12.  A request that fails, or an answer that is not of the expected shape,
    makes the search return the empty frame: the records of the pages
    gathered before it are dropped. *)
Theorem search_failure_discards (post : nat -> Fetcher.response)
    (max_results k : nat) (pages : nat -> list Py.value) (e : Py.exn) :
  (forall j, j < k ->
     SecSearch.full_page post (SecSearch.batch_size * j) (pages j)) ->
  SecSearch.batch_size * k < max_results ->
  SecSearch.page (post (SecSearch.batch_size * k)) = Py.Raise e ->
  SecSearch.get_sec_filings_data post max_results = ([], S k).
Proof.
  intros Hfull Hk Hfail. unfold SecSearch.get_sec_filings_data.
  rewrite (search_loop_full_pages post max_results pages k max_results 0 [] 0);
    [|done|intros j Hj; unfold SecSearch.batch_size in *; lia
     |unfold SecSearch.batch_size in *; lia].
  destruct (max_results - k) as [|fuel] eqn:Efuel;
    [unfold SecSearch.batch_size in *; lia|].
  cbn [SecSearch.search_loop app]. rewrite !Nat.add_0_l.
  by rewrite (proj2 (Nat.ltb_lt _ _) Hk), Hfail.
Qed.

Lemma search_failure_discards_witness :
  SecSearch.get_sec_filings_data SearchExamples.breaks 1000 = ([], 2).
Proof.
  apply (search_failure_discards SearchExamples.breaks 1000 1
           SearchExamples.full Py.RequestException).
  - intros [|j] Hj; [split; [reflexivity | vm_compute; lia] | lia].
  - vm_compute; lia.
  - reflexivity.
Defined.

(** X13.  [max_results] bounds the requests, not the records: when every page
    asked for is full, the search sends one request per started batch of 50
    below [max_results] and returns all their records, which are at least
    [max_results]. *)
Theorem search_max_results (post : nat -> Fetcher.response)
    (max_results : nat) (pages : nat -> list Py.value) :
  (forall j, SecSearch.batch_size * j < max_results ->
     SecSearch.full_page post (SecSearch.batch_size * j) (pages j)) ->
  let n := (max_results + 49) / 50 in
  SecSearch.get_sec_filings_data post max_results
  = (concat (map pages (seq 0 n)), n)
  /\ max_results <= length (concat (map pages (seq 0 n))).
Proof.
  intros Hfull n.
  assert (Hn : 50 * n < max_results + 50 /\ max_results <= 50 * n).
  { subst n. pose proof (Nat.div_mod_eq (max_results + 49) 50) as Hdiv.
    pose proof (Nat.mod_upper_bound (max_results + 49) 50 ltac:(lia)). lia. }
  assert (Hlt : forall j, j < n -> SecSearch.batch_size * j < max_results).
  { intros j Hj. unfold SecSearch.batch_size. lia. }
  split.
  - unfold SecSearch.get_sec_filings_data.
    rewrite (search_loop_full_pages post max_results pages n max_results
               0 [] 0);
      [|intros j Hj; by apply Hfull, Hlt|intros j Hj; by apply Hlt|lia].
    rewrite !Nat.add_0_l. cbn [app].
    destruct (max_results - n) as [|fuel]; [done|].
    cbn [SecSearch.search_loop].
    rewrite (proj2 (Nat.ltb_ge _ _)); [done|].
    unfold SecSearch.batch_size. lia.
  - assert (Hlen : forall m, m <= n ->
              50 * m <= length (concat (map pages (seq 0 m)))).
    { induction m as [|m IH]; intros Hm; [simpl; lia|].
      rewrite seq_S, map_app, concat_app, length_app. simpl.
      rewrite app_nil_r.
      destruct (Hfull m (Hlt m ltac:(lia))) as [_ Hfullm].
      unfold SecSearch.batch_size in Hfullm.
      specialize (IH ltac:(lia)). lia. }
    specialize (Hlen n ltac:(lia)). lia.
Qed.

Lemma search_max_results_witness :
  let n := (10 + 49) / 50 in
  SecSearch.get_sec_filings_data SearchExamples.endless 10
  = (concat (map SearchExamples.full (seq 0 n)), n)
  /\ 10 <= length (concat (map SearchExamples.full (seq 0 n))).
Proof.
  apply (search_max_results SearchExamples.endless 10 SearchExamples.full).
  intros [|j] Hj; [split; [reflexivity | vm_compute; lia]|].
  unfold SecSearch.batch_size in Hj. lia.
Defined.

(** ** The filter on the filings and the tickers asked for *)

Section CollectFacts.

Import Py Filings Puller.

Variable json_loads : string -> option value.
Variable literal_eval : string -> value + literal_error.

#[local] Abbreviation collect := (Puller.collect json_loads literal_eval).
#[local] Abbreviation collect_step :=
  (Puller.collect_step json_loads literal_eval).
#[local] Abbreviation row_tickers :=
  (Puller.row_tickers json_loads literal_eval).

Implicit Types (v : value) (row : Filing) (sec_df : list Filing).

(** The filter lets through every value the extraction takes for valid. *)
Lemma valid_passes_filter v :
  is_valid v = true -> notna v && negb (eq_str v "[]") = true.
Proof.
  destruct v as [| |z|x|s|l|l|items]; try done.
  - unfold is_valid. simpl. by destruct (PrimFloat.is_nan x).
  - unfold is_valid. simpl.
    destruct (String.eqb_spec s "[]") as [->|Hne]; [done|]. by intros _.
Qed.

Lemma collect_from_Raise sec_df (e : exn) :
  fold_left collect_step sec_df (Raise e) = Raise e.
Proof. induction sec_df as [|row l IH]; simpl; [done | exact IH]. Qed.

(** No exception leaves the body of the loop. *)
Lemma row_tickers_handled v :
  exists new, row_handler (row_tickers v) = Ok new.
Proof.
  unfold Puller.row_tickers. destruct (is_valid v); [|by eexists].
  destruct v as [| |z|x|s|l|l|items]; simpl; try (by eexists).
  destruct (json_loads s) as [tl|]; simpl.
  - destruct (SecSearch.iterate tl) as [xs|e] eqn:E; simpl; [by eexists|].
    destruct tl; simpl in E; try done; injection E as <-; by eexists.
  - destruct (literal_eval s) as [tl|[]]; simpl; try (by eexists).
    destruct (SecSearch.iterate tl) as [xs|e] eqn:E; simpl; [by eexists|].
    destruct tl; simpl in E; try done; injection E as <-; by eexists.
Qed.

(** The loop gathers, row after row, what each body appends. *)
Lemma collect_from sec_df (acc : list value) :
  exists new,
    fold_left collect_step sec_df (Ok acc) = Ok (acc ++ new)
    /\ forall row t,
         row ∈ sec_df ->
         (exists xs, row_handler (row_tickers (tickers row)) = Ok xs
                     /\ t ∈ xs) ->
         t ∈ new.
Proof.
  revert acc. induction sec_df as [|row l IH]; intros acc; cbn [fold_left].
  - exists []. rewrite app_nil_r. split; [done|].
    by intros row t ?%elem_of_nil.
  - destruct (row_tickers_handled (tickers row)) as [xs Hxs].
    assert (Hstep : collect_step (Ok acc) row = Ok (acc ++ xs)).
    { unfold Puller.collect_step. simpl. by rewrite Hxs. }
    rewrite Hstep.
    destruct (IH (acc ++ xs)) as (new & -> & Hnew).
    exists (xs ++ new). split; [by rewrite <- app_assoc|].
    intros row' t [->|Hin]%elem_of_cons (xs' & Hxs' & Ht).
    + apply elem_of_app. left. congruence.
    + apply elem_of_app. right. apply (Hnew row'); [done|]. by exists xs'.
Qed.

(** A row the filter drops adds nothing to the list. *)
Lemma dropped_adds_nothing v :
  notna v && negb (eq_str v "[]") = false ->
  row_handler (row_tickers v) = Ok [].
Proof.
  intros Hdrop. unfold Puller.row_tickers.
  destruct (is_valid v) eqn:Hv; [|done].
  apply valid_passes_filter in Hv. congruence.
Qed.

Lemma collect_filter_from sec_df (acc : result (list value)) :
  fold_left collect_step (filter_sec_data_by_ticker sec_df) acc
  = fold_left collect_step sec_df acc.
Proof.
  revert acc. induction sec_df as [|row l IH]; intros acc; [done|].
  unfold filter_sec_data_by_ticker in *.
  destruct (notna (tickers row) && negb (eq_str (tickers row) "[]"))
    eqn:Hkeep.
  - rewrite filter_cons_True by done. cbn [fold_left]. apply IH.
  - rewrite filter_cons_False by (by rewrite Hkeep). cbn [fold_left].
    rewrite IH. f_equal. unfold Puller.collect_step.
    destruct acc as [collected|e]; simpl; [|done].
    rewrite (dropped_adds_nothing _ Hkeep). simpl. by rewrite app_nil_r.
Qed.

End CollectFacts.

(** X14.  [filter_sec_data_by_ticker] keeps rows in their order, is idempotent,
    and keeps every row whose [tickers] value the extraction takes for
    valid; so it loses no ticker: the tickers [get_polygon_finance_data]
    gathers from the filtered filings are those it gathers from all of
    them. *)
Theorem filter_loses_no_ticker
    (json_loads : string -> option Py.value)
    (literal_eval : string -> Py.value + Filings.literal_error)
    (sec_df : list Filings.Filing) :
  let filtered := Puller.filter_sec_data_by_ticker sec_df in
  filtered `sublist_of` sec_df
  /\ Puller.filter_sec_data_by_ticker filtered = filtered
  /\ (forall row, row ∈ sec_df ->
        Filings.is_valid (Filings.tickers row) = true -> row ∈ filtered)
  /\ Puller.collect json_loads literal_eval filtered
     = Puller.collect json_loads literal_eval sec_df.
Proof.
  intros filtered. subst filtered.
  split; [apply sublist_filter|].
  split.
  { unfold Puller.filter_sec_data_by_ticker.
    induction sec_df as [|row l IH]; [done|].
    destruct (Puller.notna (Filings.tickers row)
              && negb (Py.eq_str (Filings.tickers row) "[]")) eqn:Hkeep.
    - rewrite !filter_cons_True by done. by rewrite IH.
    - by rewrite filter_cons_False by (by rewrite Hkeep). }
  split.
  { intros row Hin Hvalid. apply list_elem_of_filter.
    split; [by apply valid_passes_filter | done]. }
  apply collect_filter_from.
Qed.

Section CombinedCollected.

Import Py Filings Puller.

Variable json_loads : string -> option value.
Variable literal_eval : string -> value + literal_error.

(** Both loops decode a cell the same way. *)
Lemma try_decode_decoded (v ticker_list : value) :
  decoded json_loads literal_eval v = Ok (Some ticker_list) ->
  try_decode json_loads literal_eval v = pick ticker_list.
Proof.
  destruct v as [| |z|x|s|l|l|items]; simpl; try done.
  - destruct (json_loads s) as [tl|]; [by intros [= ->]|].
    destruct (literal_eval s) as [tl|[]]; simpl; try done.
    by intros [= ->].
  - by intros [= <-].
Qed.

(** The ticker picked from a list or tuple, when it is not the empty
    ticker, is what the first element gives. *)
Lemma pick_sequence (l : list value) (ticker_list t : value) :
  ticker_list = VList l \/ ticker_list = VTuple l ->
  outer_handler (inner_handler (pick ticker_list)) = Ok t ->
  t <> VStr EmptyString ->
  exists x rest, l = x :: rest /\ t ∈ element_tickers x.
Proof.
  intros Hseq Hpick Ht.
  destruct l as [|x rest].
  { destruct Hseq as [-> | ->]; injection Hpick as <-; done. }
  exists x, rest. split; [done|].
  assert (Hx : outer_handler (inner_handler (pick (VList (x :: rest))))
               = Ok t).
  { by destruct Hseq as [-> | ->]. }
  clear Hpick Hseq. revert Hx. unfold pick, first_is_ticker_dict, first_is_str.
  destruct x as [| |z|y|s|l'|l'|items]; simpl;
    try (intros [= <-]; done).
  - intros [= <-]. by left.
  - destruct (dict_lookup items "ticker") as [v|]; simpl.
    + intros [= <-]. by left.
    + intros [= <-]. done.
Qed.

End CombinedCollected.

(** X15.  A ticker that [combine_sec_and_yahoo_data] gives to a filing row, when
    it is taken from a decoded list and is not the empty ticker, is among
    the tickers [get_polygon_finance_data] gathers from the filings. *)
Theorem combined_ticker_is_collected
    (json_loads : string -> option Py.value)
    (literal_eval : string -> Py.value + Filings.literal_error)
    (sec_df : list Filings.Filing) (row : Filings.Filing)
    (l : list Py.value) (ticker_list t : Py.value) :
  row ∈ sec_df ->
  Filings.is_valid (Filings.tickers row) = true ->
  Puller.decoded json_loads literal_eval (Filings.tickers row)
  = Py.Ok (Some ticker_list) ->
  ticker_list = Py.VList l \/ ticker_list = Py.VTuple l ->
  Filings.sec_ticker json_loads literal_eval (Filings.tickers row) = Py.Ok t ->
  t <> Py.VStr EmptyString ->
  exists collected,
    Puller.collect json_loads literal_eval sec_df = Py.Ok collected
    /\ t ∈ collected.
Proof.
  intros Hin Hvalid Hdec Hseq Hticker Ht.
  unfold Filings.sec_ticker in Hticker. rewrite Hvalid in Hticker.
  rewrite (try_decode_decoded _ _ _ _ Hdec) in Hticker.
  destruct (pick_sequence l ticker_list t Hseq Hticker Ht)
    as (x & rest & -> & Hx).
  destruct (collect_from json_loads literal_eval sec_df [])
    as (new & Hcollect & Hnew).
  exists new. split; [exact Hcollect|].
  apply (Hnew row); [done|].
  exists (flat_map Puller.element_tickers (x :: rest)). split.
  - unfold Puller.row_tickers. rewrite Hvalid, Hdec.
    by destruct Hseq as [-> | ->].
  - apply elem_of_app. by left.
Qed.

Lemma combined_ticker_is_collected_witness :
  exists collected,
    Puller.collect Decoders.json_loads Decoders.literal_eval
                   FilingExamples.sec_df = Py.Ok collected
    /\ Py.VStr "ABC" ∈ collected.
Proof.
  apply (combined_ticker_is_collected Decoders.json_loads
           Decoders.literal_eval FilingExamples.sec_df
           FilingExamples.abc_row
           [Py.VDict [(Py.VStr "ticker", Py.VStr "ABC")]]
           (Py.VList [Py.VDict [(Py.VStr "ticker", Py.VStr "ABC")]])
           (Py.VStr "ABC")).
  - left.
  - reflexivity.
  - reflexivity.
  - by left.
  - reflexivity.
  - discriminate.
Defined.

(** ** The finance frame *)

Section FinanceFacts.

Import Py Filings Puller.

Implicit Types (ticker : value) (record company price : PyDict.t value).

(** [company_data] has all its keys or none, and takes [short_name] from
    where it takes [name], [industry] from where it takes [sector]. *)
Lemma company_data_twins (ticker_info : option value) company :
  company_data ticker_info = Ok company ->
  field company "short_name" = field company "name"
  /\ field company "industry" = field company "sector".
Proof.
  unfold company_data. destruct ticker_info as [info|]; [|by intros [= <-]].
  destruct (truthy info); [|by intros [= <-]].
  destruct info as [| |z|x|s|l|l|items]; try done.
  simpl. by intros [= <-].
Qed.

Lemma get_ticker_info_Some ticker (info_resp snap_resp : Fetcher.response)
    record :
  get_ticker_info ticker info_resp snap_resp = Some record ->
  exists company price ticker_info,
    company_data ticker_info = Ok company
    /\ record = ticker_data ticker company price
    /\ has_data record = true.
Proof.
  unfold get_ticker_info, ticker_info_block.
  destruct (Polygon.get_ticker_info info_resp) as [ticker_info|e];
    simpl; [|done].
  destruct (Polygon.get_ticker_snapshot snap_resp) as [snapshot_info|e];
    simpl; [|done].
  destruct (price_data snapshot_info) as [price|e]; simpl; [|done].
  destruct (company_data ticker_info) as [company|e] eqn:Ec; simpl; [|done].
  destruct (has_data (ticker_data ticker company price)) eqn:Hd;
    simpl; [|done].
  intros [= <-]. by exists company, price, ticker_info.
Qed.

(** The rows of the frame carry the requested tickers, in order, at most
    one row each. *)
Lemma process_polygon_tickers_sublist
    (reference snapshot : value -> Fetcher.response) (tickers : list value) :
  omap (fun record => PyDict.get record "ticker")
       (process_polygon_tickers reference snapshot tickers)
  `sublist_of` tickers.
Proof.
  unfold process_polygon_tickers.
  induction tickers as [|t l IH]; simpl; [done|].
  destruct (get_ticker_info t (reference t) (snapshot t)) as [record|] eqn:E;
    simpl.
  - apply get_ticker_info_Some in E as (company & price & ti & _ & -> & _).
    simpl. by apply sublist_skip.
  - by apply sublist_cons.
Qed.

End FinanceFacts.

(** X16.  A record [get_ticker_info] returns has the twenty columns of the
    finance frame, carries the requested ticker, and holds something under
    at least one of [current_price], [name], [market_cap] and
    [business_summary]; its [short_name] repeats [name], its [industry]
    repeats [sector], and the five ratio columns are empty. *)
Theorem ticker_info_record (ticker : Py.value)
    (info_resp snap_resp : Fetcher.response)
    (record : PyDict.t Py.value) :
  Puller.get_ticker_info ticker info_resp snap_resp = Some record ->
  map fst record
  = ["ticker"; "symbol"; "name"; "short_name"; "exchange"; "sector";
     "industry"; "current_price"; "open"; "day_low"; "day_high";
     "market_cap"; "debt_to_equity"; "current_ratio"; "quick_ratio";
     "book_value"; "52_week_change"; "employees_yahoo"; "website";
     "business_summary"]
  /\ PyDict.get record "ticker" = Some ticker
  /\ PyDict.get record "short_name" = PyDict.get record "name"
  /\ PyDict.get record "industry" = PyDict.get record "sector"
  /\ Forall (fun column => PyDict.get record column = Some Puller.empty_str)
       ["debt_to_equity"; "current_ratio"; "quick_ratio"; "book_value";
        "52_week_change"]
  /\ exists column,
       column ∈ ["current_price"; "name"; "market_cap"; "business_summary"]
       /\ Filings.truthy (Puller.field record column) = true.
Proof.
  intros Hsome.
  apply get_ticker_info_Some in Hsome
    as (company & price & ticker_info & Hc & -> & Hdata).
  destruct (company_data_twins _ _ Hc) as [Hname Hsector].
  split; [reflexivity|]. split; [reflexivity|].
  split; [simpl; by rewrite Hname|].
  split; [simpl; by rewrite Hsector|].
  split; [repeat constructor|].
  unfold Puller.has_data in Hdata. cbn [existsb] in Hdata.
  repeat (apply orb_true_iff in Hdata as [Hdata|Hdata]);
    [exists "current_price" | exists "name" | exists "market_cap"
     | exists "business_summary" | done];
    (split; [|exact Hdata]); set_solver.
Qed.

Lemma ticker_info_record_witness :
  map fst PullerExamples.abc_record
  = ["ticker"; "symbol"; "name"; "short_name"; "exchange"; "sector";
     "industry"; "current_price"; "open"; "day_low"; "day_high";
     "market_cap"; "debt_to_equity"; "current_ratio"; "quick_ratio";
     "book_value"; "52_week_change"; "employees_yahoo"; "website";
     "business_summary"]
  /\ PyDict.get PullerExamples.abc_record "ticker" = Some (Py.VStr "ABC")
  /\ PyDict.get PullerExamples.abc_record "short_name"
     = PyDict.get PullerExamples.abc_record "name"
  /\ PyDict.get PullerExamples.abc_record "industry"
     = PyDict.get PullerExamples.abc_record "sector"
  /\ Forall (fun column => PyDict.get PullerExamples.abc_record column
                           = Some Puller.empty_str)
       ["debt_to_equity"; "current_ratio"; "quick_ratio"; "book_value";
        "52_week_change"]
  /\ exists column,
       column ∈ ["current_price"; "name"; "market_cap"; "business_summary"]
       /\ Filings.truthy (Puller.field PullerExamples.abc_record column)
          = true.
Proof.
  apply (ticker_info_record (Py.VStr "ABC") PullerExamples.abc_reference
           PullerExamples.no_snapshot PullerExamples.abc_record).
  reflexivity.
Defined.

(** X17.  The frame [get_polygon_finance_data] returns has one row for each
    ticker of [list(set(tickers))] that has data, in that order and under
    that ticker, where [tickers] is what the loop gathered from the
    filings; a gathered ticker that cannot be hashed makes the method raise
    a [TypeError]. *)
Theorem finance_frame_tickers
    (json_loads : string -> option Py.value)
    (literal_eval : string -> Py.value + Filings.literal_error)
    (list_set : list Py.value -> list Py.value)
    (reference snapshot : Py.value -> Fetcher.response)
    (sec_df : list Filings.Filing) :
  exists collected,
    Puller.collect json_loads literal_eval sec_df = Py.Ok collected
    /\ match Puller.get_polygon_finance_data json_loads literal_eval list_set
               reference snapshot sec_df with
       | Py.Ok frame =>
           forallb Filings.hashable collected = true
           /\ omap (fun record => PyDict.get record "ticker") frame
              `sublist_of` list_set collected
           /\ length (omap (fun record => PyDict.get record "ticker") frame)
              = length frame
           /\ (NoDup (list_set collected) ->
               NoDup (omap (fun record => PyDict.get record "ticker") frame))
       | Py.Raise e =>
           e = Py.TypeError /\ forallb Filings.hashable collected = false
       end.
Proof.
  destruct (collect_from json_loads literal_eval sec_df [])
    as (collected & Hfold & _).
  assert (Hcollect : Puller.collect json_loads literal_eval sec_df
                     = Py.Ok collected) by exact Hfold.
  clear Hfold.
  exists collected. split; [exact Hcollect|].
  unfold Puller.get_polygon_finance_data.
  destruct sec_df as [|row sec_df].
  { injection Hcollect as <-. simpl.
    split; [done|]. split; [apply sublist_nil_l|]. split; [done|].
    intros _. constructor. }
  rewrite Hcollect. simpl.
  destruct (forallb Filings.hashable collected) eqn:Hhash; [|done].
  assert (Hrows : forall tickers,
    let frame := Puller.process_polygon_tickers reference snapshot tickers in
    omap (fun record => PyDict.get record "ticker") frame
    `sublist_of` tickers
    /\ length (omap (fun record => PyDict.get record "ticker") frame)
       = length frame).
  { intros tickers frame. split; [apply process_polygon_tickers_sublist|].
    subst frame. unfold Puller.process_polygon_tickers.
    induction tickers as [|t l IH]; simpl; [done|].
    destruct (Puller.get_ticker_info t (reference t) (snapshot t))
      as [record|] eqn:E; simpl; [|exact IH].
    apply get_ticker_info_Some in E as (company & price & ti & _ & -> & _).
    simpl. f_equal. exact IH. }
  destruct (list_set collected) as [|t unique] eqn:Hset.
  { simpl. split; [done|]. split; [done|]. split; [done|].
    intros _. constructor. }
  destruct (Hrows (t :: unique)) as [Hsub Hlen].
  split; [done|]. split; [exact Hsub|]. split; [exact Hlen|].
  intros Hnd. eapply sublist_NoDup; [exact Hnd | exact Hsub].
Qed.

(** The finance frame of the example filings: one row, for the one ticker
    the reference source knows. *)
Lemma finance_frame_example :
  Puller.get_polygon_finance_data Decoders.json_loads Decoders.literal_eval
    PullerExamples.list_set PullerExamples.reference PullerExamples.snapshot
    FilingExamples.sec_df
  = Py.Ok [PullerExamples.abc_record].
Proof. reflexivity. Qed.

(** ** The tickers looked up for the combined table *)

Section LookupFacts.

Import Py Filings PolygonData.

Implicit Types (t : string) (v : value) (l seen : list value)
  (valid : list string).

Lemma unique_from_subseteq seen l v : v ∈ unique_from seen l -> v ∈ l.
Proof.
  revert seen. induction l as [|x l IH]; intros seen; simpl; [done|].
  destruct (existsb (key_same x) seen).
  - intros Hin. right. by eapply IH.
  - intros [->|Hin]%elem_of_cons; [by left|]. right. by eapply IH.
Qed.

Lemma valid_from_Raise l (e : exn) :
  fold_left valid_step l (Raise e) = Raise e.
Proof. induction l as [|x l IH]; simpl; [done | exact IH]. Qed.

Lemma valid_step_adds valid v valid' :
  valid_step (Ok valid) v = Ok valid' ->
  valid' = valid
  \/ exists s, v = VStr s /\ passes s /\ valid' = valid ++ [strip s].
Proof.
  unfold valid_step. cbn [mbind result_bind].
  destruct v as [| |z|x|s|l|l|items];
    try (destruct (truthy _); [done | intros [= <-]; by left]).
  cbn [truthy].
  destruct (String.eqb_spec s EmptyString) as [->|Hs]; cbn [negb andb];
    [intros [= <-]; by left|].
  destruct (String.eqb_spec (strip s) EmptyString) as [He|Hstrip];
    cbn [negb andb]; [intros [= <-]; by left|].
  destruct (is_prefix "001-" s) eqn:H1; cbn [negb orb];
    [intros [= <-]; by left|].
  destruct (is_prefix "000-" s) eqn:H0; cbn [negb orb];
    [intros [= <-]; by left|].
  destruct (Nat.ltb_spec 15 (len s)); cbn [negb]; intros [= <-]; [by left|].
  right. exists s. by repeat split.
Qed.

Lemma valid_from l valid out t :
  fold_left valid_step l (Ok valid) = Ok out ->
  t ∈ out ->
  t ∈ valid \/ exists s, VStr s ∈ l /\ passes s /\ t = strip s.
Proof.
  revert valid. induction l as [|x l IH]; intros valid; cbn [fold_left].
  - intros [= <-] Ht. by left.
  - destruct (valid_step (Ok valid) x) as [valid'|e] eqn:Estep;
      [|by rewrite valid_from_Raise].
    intros Hfold Ht.
    destruct (IH _ Hfold Ht) as [Hin|(s & Hs & Hp & ->)].
    + apply valid_step_adds in Estep as [->|(s & -> & Hp & ->)];
        [by left|].
      apply elem_of_app in Hin as [?|Hin%list_elem_of_singleton];
        [by left|].
      right. exists s. split; [by left | done].
    + right. exists s. split; [by right | done].
Qed.

End LookupFacts.

(** X18.  Every ticker [get_polygon_data] looks up is the stripped form of a
    string of the [ticker] column that is not empty, not white space only,
    does not begin with [001-] or [000-] and has 15 characters at most; so
    the empty ticker of a filing without tickers is never looked up, and no
    lookup is the empty string. *)
Theorem lookups_are_tickers (combined_df : Filings.combined)
    (valid : list string) (t : string) :
  PolygonData.valid_tickers combined_df = Py.Ok valid ->
  t ∈ valid ->
  t <> EmptyString
  /\ exists column s,
       PolygonData.ticker_column combined_df = Some column
       /\ Py.VStr s ∈ column
       /\ t = Filings.strip s
       /\ s <> EmptyString
       /\ Py.is_prefix "001-" s = false
       /\ Py.is_prefix "000-" s = false
       /\ PolygonData.len s <= 15.
Proof.
  unfold PolygonData.valid_tickers.
  destruct (PolygonData.empty combined_df);
    [by intros [= <-] ?%elem_of_nil|].
  destruct (PolygonData.ticker_column combined_df) as [column|]; [|done].
  destruct (forallb _ _); [|done].
  intros Hfold Ht.
  destruct (valid_from _ _ _ _ Hfold Ht)
    as [Hnil|(s & Hs & (Hne & Hstrip & H1 & H0 & Hlen) & ->)];
    [by apply elem_of_nil in Hnil|].
  split; [done|].
  exists column, s. split; [done|]. split; [|done].
  apply unique_from_subseteq in Hs.
  by apply list_elem_of_filter in Hs as [_ Hs].
Qed.

(** X19.  When no ticker has finance data the combined table is the frame of the
    filings as it came in, without the [ticker] column of the extraction;
    [get_polygon_data] then fails with a [KeyError] on that column, unless
    the filings have a [ticker] field of their own. *)
Theorem no_finance_no_ticker_column
    (json_loads : string -> option Py.value)
    (literal_eval : string -> Py.value + Filings.literal_error)
    (key_le : Py.value -> Py.value -> bool)
    (sec_df : list Filings.Filing) :
  sec_df <> [] ->
  Forall (fun row => PyDict.get (Filings.fields row) "ticker" = None)
         sec_df ->
  Filings.combine_sec_and_yahoo_data json_loads literal_eval key_le sec_df []
  = Filings.Filing_frame sec_df
  /\ PolygonData.valid_tickers (Filings.Filing_frame sec_df)
     = Py.Raise Py.KeyError.
Proof.
  intros Hne Hfields.
  destruct sec_df as [|row sec_df]; [done|].
  split; [reflexivity|].
  unfold PolygonData.valid_tickers. cbn [PolygonData.empty].
  unfold PolygonData.ticker_column.
  assert (Hno : existsb
                  (fun row => bool_decide
                                (is_Some (PyDict.get (Filings.fields row)
                                                     "ticker")))
                  (row :: sec_df) = false).
  { clear Hne. induction Hfields as [|r l Hr _ IH]; [done|].
    cbn [existsb]. rewrite IH, Hr. by rewrite bool_decide_eq_false_2
      by (by intros [? ?]). }
  by rewrite Hno.
Qed.

Lemma lookups_are_tickers_witness :
  "ABC" <> EmptyString
  /\ exists column s,
       PolygonData.ticker_column
         (Filings.combine_sec_and_yahoo_data Decoders.json_loads
            Decoders.literal_eval FilingExamples.key_le
            FilingExamples.sec_df FilingExamples.yahoo_df)
       = Some column
       /\ Py.VStr s ∈ column
       /\ "ABC" = Filings.strip s
       /\ s <> EmptyString
       /\ Py.is_prefix "001-" s = false
       /\ Py.is_prefix "000-" s = false
       /\ PolygonData.len s <= 15.
Proof.
  apply (lookups_are_tickers
           (Filings.combine_sec_and_yahoo_data Decoders.json_loads
              Decoders.literal_eval FilingExamples.key_le
              FilingExamples.sec_df FilingExamples.yahoo_df)
           ["ABC"] "ABC").
  - reflexivity.
  - by left.
Defined.

Lemma no_finance_no_ticker_column_witness :
  Filings.combine_sec_and_yahoo_data Decoders.json_loads
    Decoders.literal_eval FilingExamples.key_le FilingExamples.sec_df []
  = Filings.Filing_frame FilingExamples.sec_df
  /\ PolygonData.valid_tickers (Filings.Filing_frame FilingExamples.sec_df)
     = Py.Raise Py.KeyError.
Proof.
  apply (no_finance_no_ticker_column Decoders.json_loads
           Decoders.literal_eval FilingExamples.key_le
           FilingExamples.sec_df).
  - discriminate.
  - repeat constructor.
Defined.

(** ** The rolling table *)

Section RollingFacts.

Import Combined Rolling.

Variable parse_datetime : list stamp -> string -> option Z.
Variable by_list_date : list Row -> list Row.

Hypothesis by_list_date_tickers :
  forall l, map ticker (by_list_date l) ≡ₚ map ticker l.

Implicit Types (l : list Row) (k : option string) (f : frame)
  (df : table).

Lemma drop_duplicates_from_tickers (seen : list (option string)) l k :
  k ∈ map ticker (drop_duplicates_from seen l)
  <-> k ∈ map ticker l /\ k ∉ seen.
Proof.
  revert seen. induction l as [|r l IH]; intros seen; simpl.
  - split; [by intros ?%elem_of_nil | by intros [?%elem_of_nil _]].
  - case_bool_decide as Hseen.
    + rewrite IH, elem_of_cons. split.
      * intros [Hl Hk]. split; [by right | done].
      * intros [[->|Hl] Hk]; [done | by split].
    + simpl. rewrite !elem_of_cons, IH, not_elem_of_cons.
      destruct (decide (k = ticker r)) as [->|Hne].
      * split; [intros _; split; [by left | done] | intros _; by left].
      * split.
        -- intros [?|(Hl & _ & Hk)]; [done|]. split; [by right | done].
        -- intros [[?|Hl] Hk]; [done|]. right. by repeat split.
Qed.

Lemma convert_column_tickers l :
  map ticker (convert_column parse_datetime l) = map ticker l.
Proof.
  unfold convert_column. rewrite map_map. by apply map_ext.
Qed.

(** The de-duplication keeps the tickers of the table, each once. *)
Lemma dedup_tickers f :
  has_ticker f = true ->
  NoDup (map ticker (rows (dedup parse_datetime f)))
  /\ forall k, k ∈ map ticker (rows (dedup parse_datetime f))
               <-> k ∈ map ticker (rows f).
Proof.
  intros Ht. destruct (has_filedAt f) eqn:Hf.
  - rewrite dedup_with_filedAt by done. simpl.
    split; [apply drop_duplicates_from_NoDup|].
    intros k. unfold drop_duplicates.
    rewrite drop_duplicates_from_tickers.
    rewrite (sort_values_perm _), convert_column_tickers.
    split; [by intros [? _] | intros ?; split; [done | apply not_elem_of_nil]].
  - rewrite dedup_without_filedAt by done. simpl.
    split; [apply drop_duplicates_from_NoDup|].
    intros k. unfold drop_duplicates.
    rewrite drop_duplicates_from_tickers.
    split; [by intros [? _] | intros ?; split; [done | apply not_elem_of_nil]].
Qed.

(** So does the end of the method. *)
Lemma tidy_tickers df :
  has_ticker (frame_of df) = true ->
  NoDup (map ticker (rows (frame_of (tidy parse_datetime by_list_date df))))
  /\ forall k,
       k ∈ map ticker (rows (frame_of (tidy parse_datetime by_list_date df)))
       <-> k ∈ map ticker (rows (frame_of df)).
Proof.
  intros Ht. destruct (dedup_tickers (frame_of df) Ht) as [Hnd Hin].
  unfold tidy. destruct (has_polygon_list_date df); simpl; [|done].
  split.
  - by rewrite by_list_date_tickers.
  - intros k. by rewrite by_list_date_tickers.
Qed.

Lemma ticker_set_spec df (t : string) :
  has_ticker (frame_of df) = true ->
  t ∈ ticker_set df <-> Some t ∈ map ticker (rows (frame_of df)).
Proof.
  intros Ht. unfold ticker_set. rewrite Ht, elem_of_list_to_set.
  rewrite list_elem_of_omap, list_elem_of_fmap. split.
  - intros (r & Hr & Hk). by exists r.
  - intros (r & Hk & Hr). by exists r.
Qed.

End RollingFacts.

(** X20.  When there is a table on file and new data, the table
    [update_rolling_data] returns has every ticker once: the tickers on
    file, a row without a ticker if the file had one, and the tickers of
    the new data.  Of the last step, the sort on [polygon_list_date], this
    uses only that it permutes the rows. *)
Theorem update_rolling_tickers
    (parse_datetime : list Combined.stamp -> string -> option Z)
    (by_list_date : list Combined.Row -> list Combined.Row)
    (existing new_data : Rolling.table) :
  (forall l, map Combined.ticker (by_list_date l)
             ≡ₚ map Combined.ticker l) ->
  Rolling.is_empty new_data = false ->
  Rolling.is_empty existing = false ->
  Combined.has_ticker (Rolling.frame_of existing) = true ->
  let out := Rolling.update_rolling_data parse_datetime by_list_date
               (Some existing) new_data in
  let tickers df := map Combined.ticker (Combined.rows (Rolling.frame_of df)) in
  NoDup (tickers out)
  /\ forall k,
       k ∈ tickers out
       <-> k ∈ tickers existing
           \/ exists t, k = Some t /\ t ∈ Rolling.ticker_set new_data.
Proof.
  intros Hperm Hnew Hexisting Hticker out tickers.
  assert (Hset : forall t, t ∈ Rolling.ticker_set existing
                           <-> Some t ∈ tickers existing).
  { intros t. by apply ticker_set_spec. }
  subst out. unfold Rolling.update_rolling_data.
  rewrite Hnew. cbn [Rolling.load_existing_rolling_data]. rewrite Hexisting.
  set (truly_new := Rolling.ticker_set new_data
                    ∖ Rolling.ticker_set existing).
  case_bool_decide as Hany.
  - assert (Hnewcol : Combined.has_ticker (Rolling.frame_of new_data) = true).
    { destruct (Combined.has_ticker (Rolling.frame_of new_data)) eqn:E;
        [done|]. exfalso. apply Hany. subst truly_new.
      unfold Rolling.ticker_set at 1. rewrite E.
      apply leibniz_equiv, elem_of_equiv_empty.
      intros t [Ht _]%elem_of_difference. by apply elem_of_empty in Ht. }
    destruct (tidy_tickers parse_datetime by_list_date Hperm
                (Rolling.concat existing (Rolling.isin new_data truly_new)))
      as [Hnd Hin].
    { simpl. by rewrite Hticker. }
    split; [exact Hnd|].
    assert (Hrows :
      tickers (Rolling.concat existing (Rolling.isin new_data truly_new))
      = tickers existing
        ++ map Combined.ticker
             (filter (fun r => Rolling.ticker_in truly_new r = true)
                     (Combined.rows (Rolling.frame_of new_data)))).
    { subst tickers. simpl. rewrite map_app, !map_map. f_equal.
      - apply map_ext. intros r. simpl. by rewrite Hticker.
      - apply map_ext. intros r. simpl. by rewrite Hnewcol. }
    intros k. subst tickers. cbv beta in *. rewrite Hin, Hrows.
    split.
    + intros [Hk|Hk]%elem_of_app; [by left|].
      apply list_elem_of_fmap in Hk as (r & -> & Hr).
      apply list_elem_of_filter in Hr as [Hr Hrow].
      unfold Rolling.ticker_in in Hr.
      destruct (Combined.ticker r) as [t|] eqn:Et; [|done].
      apply bool_decide_eq_true in Hr.
      right. exists t. split; [done|].
      by apply elem_of_difference in Hr as [? _].
    + intros [Hk|(t & -> & Ht)]; apply elem_of_app; [by left|].
      destruct (decide (t ∈ Rolling.ticker_set existing)) as [Hex|Hex].
      * left. by apply Hset.
      * right.
        apply (ticker_set_spec new_data t Hnewcol) in Ht as Hrow.
        apply list_elem_of_fmap in Hrow as (r & Hr & Hrow).
        apply list_elem_of_fmap. exists r. split; [done|].
        apply list_elem_of_filter.
        split; [|done]. unfold Rolling.ticker_in. rewrite <- Hr.
        apply bool_decide_eq_true. by apply elem_of_difference.
  - destruct (tidy_tickers parse_datetime by_list_date Hperm existing Hticker)
      as [Hnd Hin].
    split; [exact Hnd|].
    intros k. subst tickers. cbv beta in *. rewrite Hin. split; [by left|].
    intros [Hk|(t & -> & Ht)]; [done|].
    apply Hset. destruct (decide (t ∈ Rolling.ticker_set existing)) as [|Hex];
      [done|]. exfalso.
    assert (Hin' : t ∈ truly_new) by (by apply elem_of_difference).
    rewrite Hany in Hin'. by apply elem_of_empty in Hin'.
Qed.

(** X21.  New data that brings no ticker the file does not have changes nothing:
    the method returns the table on file, de-duplicated and sorted, and a
    newer filing for a ticker on file does not replace the row on file. *)
Theorem known_tickers_are_ignored
    (parse_datetime : list Combined.stamp -> string -> option Z)
    (by_list_date : list Combined.Row -> list Combined.Row)
    (existing new_data : Rolling.table) :
  Rolling.is_empty new_data = false ->
  Rolling.is_empty existing = false ->
  Rolling.ticker_set new_data ⊆ Rolling.ticker_set existing ->
  Rolling.update_rolling_data parse_datetime by_list_date
    (Some existing) new_data
  = Rolling.tidy parse_datetime by_list_date existing.
Proof.
  intros Hnew Hexisting Hsub. unfold Rolling.update_rolling_data.
  rewrite Hnew. cbn [Rolling.load_existing_rolling_data]. rewrite Hexisting.
  rewrite bool_decide_eq_false_2; [done|].
  intros Hany. apply Hany.
  apply leibniz_equiv, elem_of_equiv_empty.
  intros t [Ht Hnot]%elem_of_difference. by apply Hnot, Hsub.
Qed.

Lemma update_rolling_tickers_witness :
  let out := Rolling.update_rolling_data RollingExamples.parse_datetime
               (fun l => l) (Some RollingExamples.on_file)
               RollingExamples.today in
  let tickers df := map Combined.ticker (Combined.rows (Rolling.frame_of df)) in
  NoDup (tickers out)
  /\ forall k,
       k ∈ tickers out
       <-> k ∈ tickers RollingExamples.on_file
           \/ exists t, k = Some t
                        /\ t ∈ Rolling.ticker_set RollingExamples.today.
Proof.
  apply (update_rolling_tickers RollingExamples.parse_datetime (fun l => l)
           RollingExamples.on_file RollingExamples.today);
    reflexivity.
Defined.

Lemma known_tickers_are_ignored_witness :
  Rolling.update_rolling_data RollingExamples.parse_datetime (fun l => l)
    (Some RollingExamples.on_file) RollingExamples.nothing_new
  = Rolling.tidy RollingExamples.parse_datetime (fun l => l)
      RollingExamples.on_file.
Proof.
  apply (known_tickers_are_ignored RollingExamples.parse_datetime
           (fun l => l) RollingExamples.on_file RollingExamples.nothing_new).
  - reflexivity.
  - reflexivity.
  - apply (bool_decide_unpack _). vm_compute. reflexivity.
Defined.

(** The example, run: the newest filing on file is kept for [AAA] and for
    [BBB], the April filing for [AAA] is not taken, and [CCC] is added. *)
Lemma update_rolling_example :
  map (fun r => (Combined.ticker r, Combined.filedAt r))
      (Combined.rows
         (Rolling.frame_of
            (Rolling.update_rolling_data RollingExamples.parse_datetime
               (fun l => l) (Some RollingExamples.on_file)
               RollingExamples.today)))
  = [(Some "AAA", Combined.Time 1707523200000000000);
     (Some "BBB", Combined.Time 1709596800000000000);
     (Some "CCC", Combined.Time 1711929600000000000)].
Proof. vm_compute. reflexivity. Qed.

(** ** A ticker appended in a run that also rolls *)

Section AppendedAndRolled.

Lemma dict_get_lookup {V : Type} (d : list (string * V)) (k : string)
    (v : V) :
  PyDict.get d k = Some v -> exists i, d !! i = Some (k, v).
Proof.
  induction d as [|[k' v'] d IH]; simpl; [done|].
  destruct (String.eqb_spec k' k) as [->|Hne].
  - intros [= ->]. by exists 0.
  - intros Hget. destruct (IH Hget) as [i Hi]. by exists (S i).
Qed.

Lemma fetch_prices_nil_tickers (f : fetcher) (d : PyDict.t float) :
  fetch_prices_for_tickers f [] = Py.Ok d -> d = [].
Proof. by intros [= <-]. Qed.

End AppendedAndRolled.

(** X22.  When the file has rows at the start of a run, a ticker the run appends
    is rolled in the same run, by the second batch of fetches: at the end
    of the run its row holds the price of the append under
    [1DaysAgo_price] and the price of the second batch under
    [Today_price], with [Day_move] their guarded difference, and not the
    fresh row of the append. *)
Theorem appended_row_is_rolled (df : list Row)
    (col : list (option string)) (fetch_new fetch_roll : fetcher)
    (test_mode : bool) (test_limit : nat)
    (d_new d_roll : PyDict.t float) (t : string) (p p' : float) :
  df <> [] ->
  fetch_prices_for_tickers fetch_new
    (get_new_tickers_from_working_rolling (Some df) (Some col)
       (if test_mode then Some test_limit else None))
  = Py.Ok d_new ->
  PyDict.get d_new t = Some p ->
  fetch_prices_for_tickers fetch_roll (map ticker df ++ map fst d_new)
  = Py.Ok d_roll ->
  PyDict.get d_roll t = Some p' ->
  exists rows i r,
    run_daily_update (Some df) (Some col) fetch_new fetch_roll
                     test_mode test_limit
    = mkRun (Some rows) None
    /\ rows !! i = Some r
    /\ length df <= i
    /\ ticker r = t
    /\ DaysAgo_price r 1 = p
    /\ Today_price r = p'
    /\ Day_move r = move p' p
    /\ Week_move r = 0%float
    /\ Month_move r = 0%float
    /\ forall j, 2 <= j <= 31 -> DaysAgo_price r j = PrimFloat.nan.
Proof.
  intros Hdf Hnew Hp Hroll Hp'.
  set (new_tickers :=
         get_new_tickers_from_working_rolling (Some df) (Some col)
           (if test_mode then Some test_limit else None)) in *.
  assert (Hstage : append_stage (Some df) (Some col) fetch_new test_mode
                                test_limit
                   = mkRun (Some (df ++ map (fun kv => row_data kv.1 kv.2)
                                            d_new)) None).
  { unfold append_stage.
    assert (Hsame : (if test_mode
                     then get_new_tickers_from_working_rolling (Some df)
                            (Some col) (Some test_limit)
                     else get_new_tickers_from_working_rolling (Some df)
                            (Some col) None) = new_tickers)
      by (subst new_tickers; by destruct test_mode).
    rewrite Hsame.
    destruct new_tickers as [|x l] eqn:En.
    { apply fetch_prices_nil_tickers in Hnew. by subst d_new. }
    cbn [Py.truthy]. rewrite Hnew.
    destruct d_new as [|kv d_new']; [done|].
    cbn [Py.truthy]. by rewrite update_csv_rows. }
  destruct (dict_get_lookup _ _ _ Hp) as [k Hk].
  exists (roll_loop d_roll (df ++ map (fun kv => row_data kv.1 kv.2) d_new)),
         (length df + k), (roll_row (row_data t p) p').
  split.
  { unfold run_daily_update. rewrite Hstage. cbn [raised file_after].
    destruct df as [|r0 df']; [done|].
    cbn [load_existing_tickers Py.truthy map].
    unfold roll_prices_for_existing_tickers.
    assert (Htickers : map ticker ((r0 :: df')
                                   ++ map (fun kv => row_data kv.1 kv.2) d_new)
                       = map ticker (r0 :: df') ++ map fst d_new).
    { rewrite map_app, map_map. f_equal. }
    rewrite Htickers, Hroll. reflexivity. }
  split.
  { rewrite roll_loop_lookup, lookup_app_r by lia.
    replace (length df + k - length df) with k by lia.
    rewrite list_lookup_fmap, Hk. simpl. unfold roll_or_keep. simpl.
    by rewrite Hp'. }
  split; [lia|].
  repeat split.
  intros j Hj. rewrite roll_row_shift by lia. reflexivity.
Qed.

Lemma appended_row_is_rolled_witness :
  exists rows i r,
    run_daily_update (Some [Examples.bbb]) (Some [Some "XYZ"])
      (Examples.always 12.5%float) (Examples.always 13%float) false 100
    = mkRun (Some rows) None
    /\ rows !! i = Some r
    /\ length [Examples.bbb] <= i
    /\ ticker r = "XYZ"
    /\ DaysAgo_price r 1 = 12.5%float
    /\ Today_price r = 13%float
    /\ Day_move r = move 13%float 12.5%float
    /\ Week_move r = 0%float
    /\ Month_move r = 0%float
    /\ forall j, 2 <= j <= 31 -> DaysAgo_price r j = PrimFloat.nan.
Proof.
  apply (appended_row_is_rolled [Examples.bbb] [Some "XYZ"]
           (Examples.always 12.5%float) (Examples.always 13%float) false 100
           [("XYZ", 12.5%float)] [("BBB", 13%float); ("XYZ", 13%float)]
           "XYZ" 12.5%float 13%float);
    [discriminate | reflexivity ..].
Defined.

(** ** One row per ticker in the merged table *)

Section MergedKeys.

Import Py Filings.

Implicit Types (seen : list value) (l out : list Merged) (m : Merged).

(** What [drop_duplicates] keeps: rows whose key was not seen, and of two
    kept rows the later one has not the key of the earlier one. *)
Lemma merged_drop_distinct seen l :
  let out := drop_duplicates_from seen l in
  (forall m, m ∈ out -> existsb (key_same (key m)) seen = false)
  /\ forall i j mi mj,
       i < j -> out !! i = Some mi -> out !! j = Some mj ->
       key_same (key mj) (key mi) = false.
Proof.
  revert seen. induction l as [|h l IH]; intros seen; simpl.
  - split; [by intros m ?%elem_of_nil | by intros i j mi mj _ ?].
  - destruct (existsb (key_same (key h)) seen) eqn:Hdup; [apply IH|].
    destruct (IH (key h :: seen)) as [Hseen Hpairs]. split.
    + intros m [->|Hm]%elem_of_cons; [done|].
      specialize (Hseen m Hm). cbn [existsb] in Hseen.
      by apply orb_false_iff in Hseen as [_ ?].
    + intros i j mi mj Hij Hi Hj.
      destruct j as [|j]; [lia|]. simpl in Hj.
      destruct i as [|i]; simpl in Hi.
      * injection Hi as <-.
        apply list_elem_of_lookup_2 in Hj. specialize (Hseen mj Hj).
        cbn [existsb] in Hseen. by apply orb_false_iff in Hseen as [? _].
      * apply (Hpairs i j); [lia | done | done].
Qed.

End MergedKeys.

(** X23.  The merged table [combine_sec_and_yahoo_data] returns has one row per
    ticker: it is the outer merge with the rows dropped whose ticker
    occurred in an earlier row, and no two of its rows have the same
    ticker.  That table is returned only when both frames have rows. *)
Theorem combine_one_row_per_ticker
    (json_loads : string -> option Py.value)
    (literal_eval : string -> Py.value + Filings.literal_error)
    (key_le : Py.value -> Py.value -> bool)
    (sec_df : list Filings.Filing) (yahoo_df : list Filings.Finance)
    (out : list Filings.Merged) :
  Filings.combine_sec_and_yahoo_data json_loads literal_eval key_le
    sec_df yahoo_df = Filings.Merged_frame out ->
  sec_df <> [] /\ yahoo_df <> []
  /\ out = Filings.drop_duplicates_from []
             (Filings.extract_and_merge json_loads literal_eval key_le
                sec_df yahoo_df)
  /\ forall i j mi mj,
       i < j -> out !! i = Some mi -> out !! j = Some mj ->
       Filings.key_same (Filings.key mj) (Filings.key mi) = false.
Proof.
  unfold Filings.combine_sec_and_yahoo_data.
  destruct sec_df as [|row sec_df]; [by destruct yahoo_df|].
  destruct yahoo_df as [|y yahoo_df]; [done|].
  rewrite try_block_drops. unfold Filings.extract_and_merge.
  destruct (Filings.try_merge json_loads literal_eval key_le
              (row :: sec_df) (y :: yahoo_df)) as [merged|e];
    simpl; [|done].
  intros [= <-]. split; [done|]. split; [done|]. split; [done|].
  apply merged_drop_distinct.
Qed.

Lemma combine_one_row_per_ticker_witness :
  FilingExamples.sec_df <> [] /\ FilingExamples.yahoo_df <> []
  /\ Filings.drop_duplicates_from []
       (Filings.extract_and_merge Decoders.json_loads Decoders.literal_eval
          FilingExamples.key_le FilingExamples.sec_df FilingExamples.yahoo_df)
     = Filings.drop_duplicates_from []
         (Filings.extract_and_merge Decoders.json_loads
            Decoders.literal_eval FilingExamples.key_le
            FilingExamples.sec_df FilingExamples.yahoo_df)
  /\ forall i j mi mj,
       i < j ->
       Filings.drop_duplicates_from []
         (Filings.extract_and_merge Decoders.json_loads
            Decoders.literal_eval FilingExamples.key_le
            FilingExamples.sec_df FilingExamples.yahoo_df) !! i = Some mi ->
       Filings.drop_duplicates_from []
         (Filings.extract_and_merge Decoders.json_loads
            Decoders.literal_eval FilingExamples.key_le
            FilingExamples.sec_df FilingExamples.yahoo_df) !! j = Some mj ->
       Filings.key_same (Filings.key mj) (Filings.key mi) = false.
Proof.
  apply (combine_one_row_per_ticker Decoders.json_loads
           Decoders.literal_eval FilingExamples.key_le
           FilingExamples.sec_df FilingExamples.yahoo_df).
  reflexivity.
Defined.

(** ** The reference lookups *)

Section ProcessFacts.

Import Py Polygon.

Variable upstream : string -> Fetcher.response.

Implicit Types (resp : Fetcher.response) (e : exn) (acc : list value)
  (l : list string).

(** The only exception the fetcher lets through is the [AttributeError] of
    [data.get], on an answer whose status is no error and whose body is
    JSON but not an object. *)
Lemma get_ticker_info_raises resp e :
  get_ticker_info resp = Raise e ->
  e = AttributeError
  /\ exists status_code body,
       resp = Fetcher.Response status_code (Some body)
       /\ (status_code < 400 \/ 600 <= status_code)
       /\ Filings.is_dict body = false.
Proof.
  unfold get_ticker_info.
  destruct resp as [|status_code body]; [done|].
  unfold Fetcher.raise_for_status.
  destruct (Nat.leb_spec 400 status_code) as [Hlo|Hlo];
    [destruct (Nat.ltb_spec status_code 600) as [Hhi|Hhi]|];
    cbn [andb mbind result_bind handler]; [done| |].
  all: assert (Hstatus : status_code < 400 \/ 600 <= status_code) by lia.
  all: destruct body as [data|]; cbn [Fetcher.json mbind result_bind handler];
    [|done].
  all: destruct data as [| |z|x|s|l|l|items]; simpl;
    try (intros [= <-]; split; [done|]; by eexists _, _).
  all: unfold ok_entry; simpl.
  all: destruct (eq_str _ "OK"); simpl; [|done].
  all: by destruct (dict_lookup items "results").
Qed.

(** Such an answer always does raise. *)
Lemma get_ticker_info_not_object (status_code : nat) (body : value) :
  status_code < 400 \/ 600 <= status_code ->
  Filings.is_dict body = false ->
  get_ticker_info (Fetcher.Response status_code (Some body))
  = Raise AttributeError.
Proof.
  intros Hstatus Hbody. unfold get_ticker_info, Fetcher.raise_for_status.
  assert (Hok : (400 <=? status_code) && (status_code <? 600) = false).
  { apply andb_false_iff. rewrite Nat.leb_gt, Nat.ltb_ge. lia. }
  rewrite Hok. by destruct body.
Qed.

Lemma process_from_Raise l e :
  fold_left (process_step upstream) l (Raise e) = Raise e.
Proof. induction l as [|t l IH]; simpl; [done | exact IH]. Qed.

Lemma process_from acc l :
  match fold_left (process_step upstream) l (Ok acc) with
  | Ok results =>
      Forall (fun t => exists r, get_ticker_info (upstream t) = Ok r) l
      /\ results
         = acc ++ omap (fun t =>
                          match get_ticker_info (upstream t) with
                          | Ok (Some info) =>
                              if Filings.truthy info then Some info else None
                          | _ => None
                          end) l
  | Raise e =>
      e = AttributeError
      /\ exists t status_code body,
           t ∈ l
           /\ upstream t = Fetcher.Response status_code (Some body)
           /\ (status_code < 400 \/ 600 <= status_code)
           /\ Filings.is_dict body = false
  end.
Proof.
  revert acc. induction l as [|t l IH]; intros acc; cbn [fold_left].
  - split; [constructor | by rewrite app_nil_r].
  - unfold process_step at 2. cbn [mbind result_bind].
    destruct (get_ticker_info (upstream t)) as [r|e] eqn:Et.
    + assert (Hcons : forall acc' results,
                Forall (fun t => exists r,
                          get_ticker_info (upstream t) = Ok r) l
                /\ results
                   = acc' ++ omap (fun t =>
                       match get_ticker_info (upstream t) with
                       | Ok (Some info) =>
                           if Filings.truthy info then Some info else None
                       | _ => None
                       end) l ->
                Forall (fun t => exists r,
                          get_ticker_info (upstream t) = Ok r) (t :: l)).
      { intros acc' results [Hall _]. constructor; [by eexists | done]. }
      assert (Hlater : forall e,
                e = AttributeError
                /\ (exists t' status_code body,
                      t' ∈ l
                      /\ upstream t' = Fetcher.Response status_code (Some body)
                      /\ (status_code < 400 \/ 600 <= status_code)
                      /\ Filings.is_dict body = false) ->
                e = AttributeError
                /\ exists t' status_code body,
                     t' ∈ t :: l
                     /\ upstream t' = Fetcher.Response status_code (Some body)
                     /\ (status_code < 400 \/ 600 <= status_code)
                     /\ Filings.is_dict body = false).
      { intros e (-> & t' & status_code & body & Hin & Hresp & Hbody).
        split; [done|]. exists t', status_code, body. split; [by right|done]. }
      destruct r as [info|]; [destruct (Filings.truthy info) eqn:Htr|];
        cbn [mbind result_bind mret result_ret]; simpl omap;
        rewrite Et, ?Htr.
      * specialize (IH (acc ++ [info])).
        destruct (fold_left _ l _) as [results|e]; [|by apply Hlater].
        split; [by eapply Hcons|]. destruct IH as [_ ->].
        by rewrite <- app_assoc.
      * specialize (IH acc).
        destruct (fold_left _ l _) as [results|e]; [|by apply Hlater].
        split; [by eapply Hcons | by destruct IH].
      * specialize (IH acc).
        destruct (fold_left _ l _) as [results|e]; [|by apply Hlater].
        split; [by eapply Hcons | by destruct IH].
    + cbn [mbind result_bind]. rewrite process_from_Raise.
      apply get_ticker_info_raises in Et
        as (-> & status_code & body & Hresp & Hbody).
      split; [done|]. exists t, status_code, body. split; [by left | done].
Qed.

End ProcessFacts.

(** X24.  [process_tickers] returns, in the order of the tickers, the reference
    record of every ticker that has one.  It raises exactly when some
    answer has a status that is no error (below 400 or from 600 on) and a
    body that is JSON but not an object: the [AttributeError] of [data.get],
    which no handler of the fetcher catches; the records gathered before
    are then lost. *)
Theorem process_tickers_results (upstream : string -> Fetcher.response)
    (tickers : list string) :
  let not_an_object (t : string) : Prop :=
    exists status_code body,
      upstream t = Fetcher.Response status_code (Some body)
      /\ (status_code < 400 \/ 600 <= status_code)
      /\ Filings.is_dict body = false in
  match Polygon.process_tickers upstream tickers with
  | Py.Ok results =>
      Forall (fun t => exists r,
                Polygon.get_ticker_info (upstream t) = Py.Ok r) tickers
      /\ Forall (fun t => ~ not_an_object t) tickers
      /\ results
         = omap (fun t =>
                   match Polygon.get_ticker_info (upstream t) with
                   | Py.Ok (Some info) =>
                       if Filings.truthy info then Some info else None
                   | _ => None
                   end) tickers
  | Py.Raise e =>
      e = Py.AttributeError /\ exists t, t ∈ tickers /\ not_an_object t
  end.
Proof.
  intros not_an_object. unfold Polygon.process_tickers.
  pose proof (process_from upstream [] tickers) as H.
  destruct (fold_left _ tickers _) as [results|e].
  - destruct H as [Hall ->]. split; [done|]. split; [|done].
    eapply Forall_impl; [exact Hall|].
    intros t [r Hr] (status_code & body & Hresp & Hstatus & Hbody).
    rewrite Hresp, get_ticker_info_not_object in Hr by done. done.
  - destruct H as (-> & t & status_code & body & Hin & Hrest).
    split; [done|]. exists t. split; [done|]. by exists status_code, body.
Qed.

(** X25.  The prices of a finance record come from one bar of the snapshot, a
    JSON object whose [min] and [day] entries, where present, are objects:
    the minute bar when the snapshot has one, whatever it holds, and the
    day bar only when there is no minute bar.  A price the bar read does
    not have is the empty string; so a minute bar without a close leaves
    [current_price] empty even when the day bar has a close. *)
Theorem price_data_reads_one_bar (items : list (Py.value * Py.value)) :
  items <> [] ->
  (forall bar v, bar = "min" \/ bar = "day" ->
                 Py.dict_lookup items bar = Some v ->
                 Filings.is_dict v = true) ->
  let read (b : Py.value) (key : string) : Py.value :=
    match b with
    | Py.VDict entries =>
        match Py.dict_lookup entries key with
        | Some x => x
        | None => Puller.empty_str
        end
    | _ => Puller.empty_str
    end in
  Puller.price_data (Some (Py.VDict items))
  = Py.Ok match Py.dict_lookup items "min", Py.dict_lookup items "day" with
          | Some b, _ | None, Some b =>
              [("current_price", read b "c"); ("open", read b "o");
               ("day_low", read b "l"); ("day_high", read b "h")]
          | None, None => []
          end.
Proof.
  intros Hne Hbars read. unfold Puller.price_data.
  destruct items as [|kv items']; [done|]. cbn [Filings.truthy].
  set (items := kv :: items') in *.
  cbn [Py.contains Py.getitem_str mbind mret Py.result_bind Py.result_ret].
  destruct (Py.dict_lookup items "min") as [b|] eqn:Emin.
  - specialize (Hbars "min" b (or_introl eq_refl) Emin). by destruct b.
  - destruct (Py.dict_lookup items "day") as [b|] eqn:Eday; [|done].
    specialize (Hbars "day" b (or_intror eq_refl) Eday). by destruct b.
Qed.

Lemma price_data_reads_one_bar_witness :
  let read (b : Py.value) (key : string) : Py.value :=
    match b with
    | Py.VDict entries =>
        match Py.dict_lookup entries key with
        | Some x => x
        | None => Puller.empty_str
        end
    | _ => Puller.empty_str
    end in
  Puller.price_data (Some (Py.VDict SnapshotExamples.bars))
  = Py.Ok match Py.dict_lookup SnapshotExamples.bars "min",
                Py.dict_lookup SnapshotExamples.bars "day" with
          | Some b, _ | None, Some b =>
              [("current_price", read b "c"); ("open", read b "o");
               ("day_low", read b "l"); ("day_high", read b "h")]
          | None, None => []
          end.
Proof.
  apply (price_data_reads_one_bar SnapshotExamples.bars).
  - discriminate.
  - intros bar v [-> | ->]; by intros [= <-].
Defined.

(** On the snapshot of the example the price fetch of the updaters answers
    the close of the day bar, and the finance record has no price. *)
Lemma one_snapshot_two_readings :
  Fetcher.returned
    (Fetcher.get_ticker_price Fetcher.no_strtod SnapshotExamples.upstream 2)
  = Py.Ok (Some 9.5%float)
  /\ Puller.price_data (Some (Py.VDict SnapshotExamples.bars))
     = Py.Ok [("current_price", Puller.empty_str);
              ("open", Py.VFloat 9.25%float);
              ("day_low", Puller.empty_str);
              ("day_high", Puller.empty_str)].
Proof. split; reflexivity. Qed.
